(** * Shipment-notification functions: a shallow embedding and its properties

    The repository holds four request handlers written in JavaScript:

    - [netlify/functions/check-printful-shipments.js], a polling job that
      lists a fulfilment provider's orders, keeps the recently shipped ones
      and mails each customer once, remembering the orders it has mailed in a
      blob store;
    - three revisions of [netlify/functions/printful-webhook.js] (called
      variant 1, 2 and 3 below, in the order of the source), each turning an
      "order shipped" webhook into a call to a mailing service;
    - [solr/backend/index.js], an Express application with a bulk-index
      endpoint.

    The handlers are embedded as functions of a state-and-exception monad.
    Values are JSON values as [JSON.parse] produces them; everything outside
    the repository (the network, the blob store, the clock, the runtime's
    built-in functions) is a field of the [Platform] class, so each theorem
    holds for every behaviour of these collaborators.

    Numbers: the numeric fields that the handlers compute with (order ids,
    quantities, timestamps in milliseconds, HTTP status codes) are integers;
    [JNumber] carries a [Z] and [JNaN] stands for the one non-number the
    code can produce.  Strings are sequences of bytes (UTF-8). *)

From Stdlib Require Import ZArith List String Ascii Bool Lia DecimalString.
Import ListNotations.

Set Warnings "-register-all".
Local Open Scope string_scope.
Local Open Scope Z_scope.

(** ** JSON values and the JavaScript operations the handlers use *)

Inductive JSValue : Type :=
| JUndefined
| JNull
| JBool (b : bool)
| JNumber (n : Z)
| JNaN
| JString (s : string)
| JArray (elems : list JSValue)
| JObject (props : list (string * JSValue)).

(** A thrown value.  Every exception the handlers meet is an [Error] object
    (a [TypeError] raised by the runtime, an [Error] built by the code, or a
    rejection of an outbound call), of which the code reads [message] only. *)
Record JSError : Type := mkError { err_name : string; message : string }.

(** The completion of an evaluation: a value, or a thrown exception. *)
Inductive Outcome (A : Type) : Type :=
| Ok (a : A)
| Thrown (e : JSError).
Arguments Ok {A} a.
Arguments Thrown {A} e.

Definition TypeError (msg : string) : JSError := mkError "TypeError" msg.
Definition Error (msg : string) : JSError := mkError "Error" msg.

Module Pure.
  (** The exception monad of effect-free evaluation. *)
Definition bind {A B} (m : Outcome A) (k : A -> Outcome B) : Outcome B :=
    match m with
    | Ok a => k a
    | Thrown e => Thrown e
    end.

Fixpoint mapM {A B} (f : A -> Outcome B) (l : list A) : Outcome (list B) :=
    match l with
    | [] => Ok []
    | x :: l' =>
        bind (f x) (fun y => bind (mapM f l') (fun ys => Ok (y :: ys)))
    end.

Fixpoint foldM {A B} (f : B -> A -> Outcome B) (l : list A) (acc : B)
    : Outcome B :=
    match l with
    | [] => Ok acc
    | x :: l' => bind (f acc x) (foldM f l')
    end.

Fixpoint filterM {A} (f : A -> Outcome bool) (l : list A) : Outcome (list A) :=
    match l with
    | [] => Ok []
    | x :: l' =>
        bind (f x) (fun keep =>
        bind (filterM f l') (fun ys => Ok (if keep then x :: ys else ys)))
    end.
End Pure.

(** The double quote, which a string literal of this file does not hold. *)
Definition dq : string := String (ascii_of_nat 34) EmptyString.

(** [quoted s] is [s] with every backquote replaced by a double quote; the
    markup of the e-mail templates is written through it. *)
Fixpoint quoted (s : string) : string :=
  match s with
  | EmptyString => EmptyString
  | String c s' =>
      String (if Ascii.eqb c "`"%char then ascii_of_nat 34 else c) (quoted s')
  end.

Definition assoc (k : string) (props : list (string * JSValue)) : option JSValue :=
  option_map snd (find (fun kv => String.eqb (fst kv) k) props).

Definition truthy (v : JSValue) : bool :=
  match v with
  | JUndefined | JNull | JNaN => false
  | JBool b => b
  | JNumber n => negb (n =? 0)
  | JString s => negb (String.eqb s "")
  | JArray _ | JObject _ => true
  end.

(** [a || b], both operands being already evaluated. *)
Definition js_or (a b : JSValue) : JSValue := if truthy a then a else b.

(** [a || b] where [b] is evaluated only when [a] is falsy. *)
Definition or_else (a : JSValue) (b : Outcome JSValue) : Outcome JSValue :=
  if truthy a then Ok a else b.

Definition nullish (v : JSValue) : bool :=
  match v with
  | JUndefined | JNull => true
  | _ => false
  end.

(** [v === 'lit'] for a string literal. *)
Definition is_string (v : JSValue) (lit : string) : bool :=
  match v with
  | JString s => String.eqb s lit
  | _ => false
  end.

(** [v === n] for a number literal. *)
Definition is_number (v : JSValue) (n : Z) : bool :=
  match v with
  | JNumber m => m =? n
  | _ => false
  end.

Definition typeof_name (v : JSValue) : string :=
  match v with
  | JUndefined => "undefined"
  | JNull => "null"
  | _ => "object"
  end.

(** [v.name]: reading a property of [undefined] or [null] throws; a JSON
    object yields its own property or [undefined]; arrays and strings have a
    [length]; the names the handlers read are on no prototype. *)
Definition get (v : JSValue) (name : string) : Outcome JSValue :=
  match v with
  | JUndefined | JNull =>
      Thrown (TypeError ("Cannot read properties of " ++ typeof_name v
                         ++ " (reading '" ++ name ++ "')"))
  | JObject props =>
      Ok (match assoc name props with Some x => x | None => JUndefined end)
  | JArray l =>
      Ok (if String.eqb name "length" then JNumber (Z.of_nat (List.length l))
          else JUndefined)
  | JString s =>
      Ok (if String.eqb name "length" then JNumber (Z.of_nat (String.length s))
          else JUndefined)
  | _ => Ok JUndefined
  end.

(** [v?.name] *)
Definition get_opt (v : JSValue) (name : string) : Outcome JSValue :=
  if nullish v then Ok JUndefined else get v name.

(** [v[0]] *)
Definition first (v : JSValue) : Outcome JSValue :=
  match v with
  | JUndefined | JNull =>
      Thrown (TypeError ("Cannot read properties of " ++ typeof_name v
                         ++ " (reading '0')"))
  | JArray l => Ok (match l with x :: _ => x | [] => JUndefined end)
  | JString s =>
      Ok (match s with
          | String c _ => JString (String c EmptyString)
          | EmptyString => JUndefined
          end)
  | JObject props =>
      Ok (match assoc "0" props with Some x => x | None => JUndefined end)
  | _ => Ok JUndefined
  end.

Definition string_of_Z (n : Z) : string := NilZero.string_of_int (Z.to_int n).

Definition own (name : string) (props : list (string * JSValue)) : bool :=
  match assoc name props with Some _ => true | None => false end.

(** [ToString], as template literals and string concatenation apply it.  A
    JSON object has no callable property of its own, so one holding a
    [toString] key cannot be converted; any other object prints through
    [Object.prototype.toString], an array through [join]. *)
Fixpoint ToString (v : JSValue) : Outcome string :=
  match v with
  | JUndefined => Ok "undefined"
  | JNull => Ok "null"
  | JBool b => Ok (if b then "true" else "false")
  | JNumber n => Ok (string_of_Z n)
  | JNaN => Ok "NaN"
  | JString s => Ok s
  | JArray l =>
      let fix elements (l : list JSValue) : Outcome (list string) :=
        match l with
        | [] => Ok []
        | x :: l' =>
            Pure.bind (if nullish x then Ok "" else ToString x) (fun s =>
            Pure.bind (elements l') (fun ss => Ok (s :: ss)))
        end in
      Pure.bind (elements l) (fun ss => Ok (String.concat "," ss))
  | JObject props =>
      if own "toString" props
      then Thrown (TypeError "Cannot convert object to primitive value")
      else Ok "[object Object]"
  end.

(** [a + b]: concatenation as soon as one operand converts to a string,
    addition of numbers otherwise. *)
Definition ToNumber (v : JSValue) : JSValue :=
  match v with
  | JNull => JNumber 0
  | JBool b => JNumber (if b then 1 else 0)
  | JNumber n => JNumber n
  | _ => JNaN
  end.

Definition stringy (v : JSValue) : bool :=
  match v with
  | JString _ | JArray _ | JObject _ => true
  | _ => false
  end.

Definition js_add (a b : JSValue) : Outcome JSValue :=
  if stringy a || stringy b then
    Pure.bind (ToString a) (fun sa =>
    Pure.bind (ToString b) (fun sb => Ok (JString (sa ++ sb))))
  else
    match ToNumber a, ToNumber b with
    | JNumber x, JNumber y => Ok (JNumber (x + y))
    | _, _ => Ok JNaN
    end.

(** [a.split(' ')] *)
Fixpoint split_spaces_from (cur : string) (s : string) : list string :=
  match s with
  | EmptyString => [cur]
  | String c s' =>
      if Ascii.eqb c " "%char then cur :: split_spaces_from "" s'
      else split_spaces_from (cur ++ String c EmptyString) s'
  end.

Definition split_spaces (s : string) : list string := split_spaces_from "" s.

(** [v.split(' ')] where [v] is not nullish: only strings have the method. *)
Definition method_split (what : string) (v : JSValue) : Outcome (list string) :=
  match v with
  | JString s => Ok (split_spaces s)
  | _ => Thrown (TypeError (what ++ ".split is not a function"))
  end.

(** [v.toString()] *)
Definition method_toString (what : string) (v : JSValue) : Outcome string :=
  match v with
  | JUndefined | JNull =>
      Thrown (TypeError ("Cannot read properties of " ++ typeof_name v
                         ++ " (reading 'toString')"))
  | JObject props =>
      if own "toString" props
      then Thrown (TypeError (what ++ ".toString is not a function"))
      else Ok "[object Object]"
  | _ => ToString v
  end.

(** The elements of [v] when [v.map], [v.filter] or [v.reduce] is called:
    only arrays have these methods. *)
Definition array_method (what method : string) (v : JSValue)
  : Outcome (list JSValue) :=
  match v with
  | JArray l => Ok l
  | JUndefined | JNull =>
      Thrown (TypeError ("Cannot read properties of " ++ typeof_name v
                         ++ " (reading '" ++ method ++ "')"))
  | _ => Thrown (TypeError (what ++ "." ++ method ++ " is not a function"))
  end.

(** [const v = new Date(x); v.getTime()]: the time value in milliseconds,
    [None] for an invalid date.  [parse] is [Date.parse]. *)
Definition TimeClip (t : Z) : option Z :=
  if Z.abs t <=? 8640000000000000 then Some t else None.

Definition Date_getTime (parse : string -> option Z) (x : JSValue)
  : Outcome (option Z) :=
  match x with
  | JString s => Ok (parse s)
  | JArray _ | JObject _ => Pure.bind (ToString x) (fun s => Ok (parse s))
  | _ =>
      match ToNumber x with
      | JNumber t => Ok (TimeClip t)
      | _ => Ok None
      end
  end.

(** ** The platform: everything the handlers reach outside the repository *)

Record Request : Type := mkRequest {
  url : string;
  method : string;
  headers : list (string * string);
  req_body : option string;
  params : option JSValue   (* an option [fetch] does not know *)
}.

(** A response of [fetch]: [ok], [status], and what the first reading of its
    body gives, as JSON or as text. *)
Record Response : Type := mkResponse {
  ok : bool;
  status : Z;
  json : Outcome JSValue;
  text : Outcome string
}.

Class Platform : Type := {
  World : Type;
  (** [process.env] *)
  process_env : string -> option string;
  (** built-in functions of the runtime: [JSON.parse] throws on a text that
      is not JSON; [encodeURIComponent] is total on well-formed strings;
      [Date.parse] gives no time ([None], for [NaN]) on a text that is not
      a date *)
  JSON_parse : string -> Outcome JSValue;
  JSON_stringify : JSValue -> string;
  encodeURIComponent : string -> string;
  Date_parse : string -> option Z;
  Date_toISOString : Z -> string;
  (** the clock, in milliseconds *)
  Date_now : World -> Z;
  (** outbound calls: [fetch], [get] and [set] on a store of
      [@netlify/blobs], [axios.post]; each may throw and changes the world *)
  fetch : Request -> World -> Outcome Response * World;
  blob_get : string -> JSValue -> World -> Outcome JSValue * World;
  blob_set : string -> JSValue -> JSValue -> World -> Outcome unit * World;
  axios_post : string -> JSValue -> list (string * string) -> World
               -> Outcome JSValue * World
}.

(** One outbound call together with its result. *)
Inductive Exchange : Type :=
| Fetched (req : Request) (res : Outcome Response)
| BlobGot (store : string) (key : JSValue) (res : Outcome JSValue)
| BlobSet (store : string) (key : JSValue) (value : JSValue) (res : Outcome unit)
| AxiosPosted (url : string) (data : JSValue) (headers : list (string * string))
              (res : Outcome JSValue).

Inductive LogLine : Type :=
| Log (args : list JSValue)
| LogError (args : list JSValue).

Section Monad.
Context {P : Platform}.

(** The state a handler runs in: the world outside, the outbound calls made
    so far (oldest first) and the console. *)
Record State : Type := mkState {
  world : World;
  trace : list Exchange;
  console : list LogLine
}.

Definition M (A : Type) : Type := State -> Outcome A * State.

Definition ret {A} (a : A) : M A := fun st => (Ok a, st).

Definition throw {A} (e : JSError) : M A := fun st => (Thrown e, st).

Definition bind {A B} (m : M A) (k : A -> M B) : M B :=
  fun st =>
    match m st with
    | (Ok a, st') => k a st'
    | (Thrown e, st') => (Thrown e, st')
    end.

(** [try { m } catch (e) { h e }] *)
Definition try_catch {A} (m : M A) (h : JSError -> M A) : M A :=
  fun st =>
    match m st with
    | (Ok a, st') => (Ok a, st')
    | (Thrown e, st') => h e st'
    end.

(** An effect-free evaluation inside a handler. *)
Definition lift {A} (o : Outcome A) : M A := fun st => (o, st).

Definition record (x : Exchange) (st : State) : State :=
  mkState (world st) (trace st ++ [x]) (console st).

Definition call {A} (run : World -> Outcome A * World)
           (entry : Outcome A -> Exchange) : M A :=
  fun st =>
    let (r, w) := run (world st) in
    (r, record (entry r) (mkState w (trace st) (console st))).

Definition do_fetch (req : Request) : M Response :=
  call (fetch req) (Fetched req).

Definition store_get (store : string) (key : JSValue) : M JSValue :=
  call (blob_get store key) (BlobGot store key).

Definition store_set (store : string) (key value : JSValue) : M unit :=
  call (blob_set store key value) (BlobSet store key value).

Definition do_axios_post (u : string) (data : JSValue)
           (hs : list (string * string)) : M JSValue :=
  call (axios_post u data hs) (AxiosPosted u data hs).

Definition now : M Z := fun st => (Ok (Date_now (world st)), st).

Definition console_log (args : list JSValue) : M unit :=
  fun st => (Ok tt, mkState (world st) (trace st) (console st ++ [Log args])).

Definition console_error (args : list JSValue) : M unit :=
  fun st =>
    (Ok tt, mkState (world st) (trace st) (console st ++ [LogError args])).

(** [process.env.NAME] *)
Definition env (name : string) : JSValue :=
  match process_env name with
  | Some s => JString s
  | None => JUndefined
  end.
End Monad.

Declare Scope js_scope.
Delimit Scope js_scope with js.
Notation "x <- m ;; k" := (bind m (fun x => k))
  (at level 61, m at next level, right associativity) : js_scope.
Notation "m ;; k" := (bind m (fun _ => k))
  (at level 61, right associativity) : js_scope.

Local Open Scope js_scope.

(** A template literal: literal text and substitutions, converted to strings
    from left to right. *)
Inductive Piece : Type :=
| Lit (s : string)                (* literal text *)
| Sub (v : JSValue)               (* a value at hand *)
| Expr (o : Outcome JSValue)      (* an expression still to evaluate *)
| Nested (o : Outcome string).    (* a conditional holding a template *)

Fixpoint template (ps : list Piece) : Outcome string :=
  match ps with
  | [] => Ok ""
  | p :: ps' =>
      Pure.bind (match p with
                 | Lit s => Ok s
                 | Sub v => ToString v
                 | Expr o => Pure.bind o ToString
                 | Nested o => o
                 end) (fun s =>
      Pure.bind (template ps') (fun rest => Ok (s ++ rest)))
  end.

(** What a Netlify function receives and returns. *)
Record Event : Type := mkEvent { httpMethod : string; event_body : string }.
Record Reply : Type := mkReply { statusCode : Z; body : string }.

Definition str (s : string) : JSValue := JString s.
Definition obj (props : list (string * JSValue)) : JSValue := JObject props.

(** ** The replies and request headers that the three variants share *)

Section WebhookShared.
Context {P : Platform}.

Definition method_not_allowed : Reply :=
  mkReply 405 (JSON_stringify (obj [("error", str "Method not allowed")])).

Definition not_handled : Reply :=
  mkReply 200
    (JSON_stringify (obj [("message", str "Event type not handled")])).

Definition no_customer_email : Reply :=
  mkReply 400
    (JSON_stringify (obj [("error", str "No customer email in payload")])).

Definition group_not_configured : Reply :=
  mkReply 500
    (JSON_stringify
       (obj [("error", str "SENDER_GROUP_ID environment variable not set");
             ("note",
              str "Please add your Sender group ID to environment variables")])).

Definition processing_failed (error : JSError) : M Reply :=
  console_error [str "Error processing webhook:"; str (message error)] ;;
  ret (mkReply 500
         (JSON_stringify (obj [("error", str "Failed to process webhook");
                               ("message", str (message error))]))).

Definition bearer : Outcome string :=
  template [Lit "Bearer "; Sub (env "SENDER_API_KEY")].

Definition json_headers : Outcome (list (string * string)) :=
  Pure.bind bearer (fun auth =>
  Ok [("Authorization", auth);
      ("Content-Type", "application/json");
      ("Accept", "application/json")]).

(** [encodeURIComponent(v)] *)
Definition encoded (v : JSValue) : Outcome string :=
  Pure.bind (ToString v) (fun s => Ok (encodeURIComponent s)).

(** [await response.json().catch(() => ({}))] *)
Definition json_or_empty (r : Response) : JSValue :=
  match json r with
  | Ok v => v
  | Thrown _ => obj []
  end.
End WebhookShared.

(** ** Variant 1 of the webhook: one transactional e-mail per event *)

Module Webhook1.
Section Handler.
Context {P : Platform}.

Definition emailData (customerEmail customerName orderNumber trackingNumber
                      trackingUrl carrier : JSValue) : Outcome JSValue :=
  Pure.bind (template [Lit "Your order #"; Sub orderNumber;
                       Lit " has shipped! ðŸ“¦"]) (fun subject =>
  Pure.bind (template
    [Lit "
        <h2>Great news, "; Sub customerName; Lit "!</h2>
        <p>Your order <strong>#"; Sub orderNumber;
     Lit "</strong> has been shipped and is on its way to you.</p>
        
        <h3>Tracking Information:</h3>
        <p><strong>Carrier:</strong> "; Sub carrier; Lit "</p>
        <p><strong>Tracking Number:</strong> "; Sub trackingNumber; Lit "</p>
        ";
     Nested (if truthy trackingUrl
             then template
                    [Lit (quoted "<p><a href=`"); Sub trackingUrl;
                     Lit (quoted "` style=`background-color: #4CAF50; color: white; padding: 10px 20px; text-decoration: none; border-radius: 5px; display: inline-block;`>Track Your Package</a></p>")]
             else Ok "");
     Lit "
        
        <p>Thank you for your order!</p>
      "]) (fun html =>
  Ok (obj [("to", JArray [obj [("email", customerEmail);
                               ("name", customerName)]]);
           ("subject", str subject);
           ("html", str html);
           ("from", obj [("email", env "SENDER_FROM_EMAIL");
                         ("name", js_or (env "SENDER_FROM_NAME")
                                        (str "Your Store"))])]))).

Definition send_request (data : JSValue) : Outcome Request :=
  Pure.bind json_headers (fun hs =>
  Ok (mkRequest "https://api.sender.net/v2/email" "POST" hs
        (Some (JSON_stringify data)) None)).

Definition handler (event : Event) : M Reply :=
  (* Only allow POST requests *)
  if negb (String.eqb (httpMethod event) "POST") then ret method_not_allowed
  else
    try_catch
      ((* Parse the webhook payload *)
       payload <- lift (JSON_parse (event_body event)) ;;
       console_log [str "Received webhook:"; payload] ;;
       (* Verify it's a shipped order event *)
       type <- lift (get payload "type") ;;
       if negb (is_string type "package_shipped") then ret not_handled
       else
         (* Extract order details *)
         data <- lift (get payload "data") ;;
         order <- lift (get data "order") ;;
         data' <- lift (get payload "data") ;;
         shipment <- lift (get data' "shipment") ;;
         recipient <- lift (get order "recipient") ;;
         customerEmail <- lift (get recipient "email") ;;
         recipient' <- lift (get order "recipient") ;;
         customerName <- lift (get recipient' "name") ;;
         external_id <- lift (get order "external_id") ;;
         orderNumber <- lift (or_else external_id (get order "id")) ;;
         trackingNumber <- lift (get shipment "tracking_number") ;;
         trackingUrl <- lift (get shipment "tracking_url") ;;
         carrier <- lift (get shipment "carrier") ;;
         (* Prepare email data for Sender *)
         data <- lift (emailData customerEmail customerName orderNumber
                         trackingNumber trackingUrl carrier) ;;
         (* Send email via Sender API *)
         req <- lift (send_request data) ;;
         senderResponse <- do_fetch req ;;
         if negb (ok senderResponse) then
           errorText <- lift (text senderResponse) ;;
           console_error [str "Sender API error:"; str errorText] ;;
           msg <- lift (template [Lit "Sender API failed: ";
                                  Sub (JNumber (status senderResponse))]) ;;
           throw (Error msg)
         else
           senderResult <- lift (json senderResponse) ;;
           console_log [str "Email sent successfully:"; senderResult] ;;
           ret (mkReply 200
                  (JSON_stringify (obj [("success", JBool true);
                                        ("message", str "Email sent successfully");
                                        ("orderId", orderNumber)]))))
      processing_failed.
End Handler.
End Webhook1.

(** ** What variants 2 and 3 read from the event (the same text in both) *)

Record Shipment : Type := mkShipment {
  customerEmail : JSValue;
  customerName : JSValue;
  orderNumber : JSValue;
  trackingNumber : JSValue;
  trackingUrl : JSValue;
  carrier : JSValue;
  itemsList : string;
  itemsCount : JSValue
}.

(** [item => { const quantity = item.quantity || 1; ... }] *)
Definition item_line (item : JSValue) : Outcome string :=
  Pure.bind (get item "quantity") (fun q =>
  let quantity := js_or q (JNumber 1) in
  Pure.bind (get item "order_item_name") (fun n =>
  let name := js_or n (str "Item") in
  template [Sub quantity; Lit "x "; Sub name])).

(** [(sum, item) => sum + (item.quantity || 0)] *)
Definition count_step (sum item : JSValue) : Outcome JSValue :=
  Pure.bind (get item "quantity") (fun q => js_add sum (js_or q (JNumber 0))).

Definition extract (payload : JSValue) : Outcome Shipment :=
  (* Extract shipment and order details from v2 structure *)
  Pure.bind (get payload "data") (fun shipment =>
  Pure.bind (get shipment "order") (fun o =>
  let order := js_or o (obj []) in
  Pure.bind (get order "recipient") (fun recipient =>
  Pure.bind (get_opt recipient "email") (fun customerEmail =>
  Pure.bind (get order "recipient") (fun recipient' =>
  Pure.bind (get_opt recipient' "name") (fun customerName =>
  Pure.bind (get order "external_id") (fun external_id =>
  Pure.bind (or_else external_id (get order "id")) (fun orderNumber =>
  Pure.bind (get shipment "tracking_number") (fun trackingNumber =>
  Pure.bind (get shipment "tracking_url") (fun trackingUrl =>
  Pure.bind (get shipment "carrier") (fun carrier =>
  (* Extract shipped items *)
  Pure.bind (get shipment "shipment_items") (fun items =>
  let shippedItems := js_or items (JArray []) in
  Pure.bind (array_method "shippedItems" "map" shippedItems) (fun l =>
  Pure.bind (Pure.mapM item_line l) (fun lines =>
  let itemsList := String.concat ", " lines in
  Pure.bind (array_method "shippedItems" "reduce" shippedItems) (fun l' =>
  Pure.bind (Pure.foldM count_step l' (JNumber 0)) (fun itemsCount =>
  Ok (mkShipment customerEmail customerName orderNumber trackingNumber
        trackingUrl carrier itemsList itemsCount))))))))))))))))).

(** [customerName?.split(' ')[0] || ''] *)
Definition firstname (customerName : JSValue) : Outcome JSValue :=
  if nullish customerName then Ok (str "")
  else
    Pure.bind (method_split "customerName" customerName) (fun parts =>
    Ok (js_or (match parts with x :: _ => str x | [] => JUndefined end)
              (str ""))).

(** [customerName?.split(' ').slice(1).join(' ') || ''] *)
Definition lastname (customerName : JSValue) : Outcome JSValue :=
  if nullish customerName then Ok (str "")
  else
    Pure.bind (method_split "customerName" customerName) (fun parts =>
    Ok (js_or (str (String.concat " " (tl parts))) (str ""))).

(** ** Variant 2: remove from the group, update the subscriber, add again *)

Module Webhook2.
Section Handler.
Context {P : Platform}.

Definition remove_request (customerEmail groupId : JSValue) : Outcome Request :=
  Pure.bind (encoded customerEmail) (fun e =>
  Pure.bind (template [Lit "https://api.sender.net/v2/subscribers/"; Lit e;
                       Lit "/groups/"; Sub groupId]) (fun u =>
  Pure.bind bearer (fun auth =>
  Ok (mkRequest u "DELETE"
        [("Authorization", auth); ("Accept", "application/json")]
        None None)))).

Definition subscriberData (s : Shipment) (today : Z) : Outcome JSValue :=
  Pure.bind (firstname (customerName s)) (fun fn =>
  Pure.bind (lastname (customerName s)) (fun ln =>
  Pure.bind (method_toString "itemsCount" (itemsCount s)) (fun count =>
  Ok (obj [("email", customerEmail s);
           ("firstname", fn);
           ("lastname", ln);
           ("fields",
            obj [("order_number", orderNumber s);
                 ("tracking_number", trackingNumber s);
                 ("tracking_url", trackingUrl s);
                 ("carrier", carrier s);
                 ("items_shipped", str (itemsList s));
                 ("items_count", str count);
                 ("last_shipment_date", str (Date_toISOString today))])])))).

Definition update_request (data : JSValue) : Outcome Request :=
  Pure.bind json_headers (fun hs =>
  Ok (mkRequest "https://api.sender.net/v2/subscribers" "POST" hs
        (Some (JSON_stringify data)) None)).

Definition add_request (customerEmail groupId : JSValue) : Outcome Request :=
  Pure.bind (encoded customerEmail) (fun e =>
  Pure.bind json_headers (fun hs =>
  Ok (mkRequest ("https://api.sender.net/v2/subscribers/" ++ e ++ "/groups")
        "POST" hs
        (Some (JSON_stringify (obj [("groups", JArray [groupId])]))) None))).

(** STEP 1: First, remove user from the group (if they're in it) *)
Definition step1 (s : Shipment) (groupId : JSValue) : M unit :=
  try_catch
    (req <- lift (remove_request (customerEmail s) groupId) ;;
     _ <- do_fetch req ;;
     console_log [str "User removed from group (if they were in it)"])
    (fun removeError =>
       (* It's okay if removal fails (user might not be in group) *)
       console_log [str "Remove from group result:";
                    str (message removeError)]).

(** STEP 2: Update subscriber data with new order info *)
Definition step2 (s : Shipment) : M unit :=
  today <- now ;;
  data <- lift (subscriberData s today) ;;
  req <- lift (update_request data) ;;
  updateResponse <- do_fetch req ;;
  if negb (ok updateResponse) && negb (status updateResponse =? 409) then
    errorText <- lift (text updateResponse) ;;
    console_error [str "Failed to create/update subscriber:"; str errorText]
  else ret tt.

(** STEP 3: Add user back to the group (this triggers the automation) *)
Definition step3 (s : Shipment) (groupId : JSValue) : M Reply :=
  req <- lift (add_request (customerEmail s) groupId) ;;
  addToGroupResponse <- do_fetch req ;;
  if negb (ok addToGroupResponse) then
    errorText <- lift (text addToGroupResponse) ;;
    console_error [str "Failed to add to group:"; str errorText] ;;
    msg <- lift (template [Lit "Failed to add subscriber to group: ";
                           Sub (JNumber (status addToGroupResponse));
                           Lit " - "; Lit errorText]) ;;
    throw (Error msg)
  else
    console_log [str "Subscriber added to order-shipped group successfully"] ;;
    let result := json_or_empty addToGroupResponse in
    console_log [str "Sender API response:"; result] ;;
    ret (mkReply 200
           (JSON_stringify
              (obj [("success", JBool true);
                    ("message",
                     str "Customer added to order-shipped group, automation will trigger");
                    ("orderId", orderNumber s);
                    ("email", customerEmail s);
                    ("itemsCount", itemsCount s)]))).

Definition handler (event : Event) : M Reply :=
  (* Only allow POST requests *)
  if negb (String.eqb (httpMethod event) "POST") then ret method_not_allowed
  else
    try_catch
      ((* Parse the webhook payload from Printful v2 *)
       payload <- lift (JSON_parse (event_body event)) ;;
       console_log [str "Received webhook:"; payload] ;;
       (* V2 API uses 'type' field for event type *)
       type <- lift (get payload "type") ;;
       if negb (is_string type "shipment_sent") then ret not_handled
       else
         s <- lift (extract payload) ;;
         if negb (truthy (customerEmail s)) then
           console_error [str "No customer email found in webhook"] ;;
           ret no_customer_email
         else
           (* Get the group ID for "order-shipped" group *)
           let groupId := env "SENDER_GROUP_ID" in
           if negb (truthy groupId) then
             console_error [str "SENDER_GROUP_ID not configured"] ;;
             ret group_not_configured
           else
             step1 s groupId ;;
             step2 s ;;
             step3 s groupId)
      processing_failed.
End Handler.
End Webhook2.

(** ** Variant 3: create the subscriber in the group, update on conflict *)

Module Webhook3.
Section Handler.
Context {P : Platform}.

Definition fields (s : Shipment) (count : string) : JSValue :=
  obj [("order_number", orderNumber s);
       ("tracking_number", trackingNumber s);
       ("tracking_url", trackingUrl s);
       ("carrier", carrier s);
       ("items_shipped", str (itemsList s));
       ("items_count", str count)].

(** The subscriber that the first call creates ... *)
Definition new_subscriber (s : Shipment) (groupId : JSValue) : Outcome JSValue :=
  Pure.bind (firstname (customerName s)) (fun fn =>
  Pure.bind (lastname (customerName s)) (fun ln =>
  Pure.bind (method_toString "itemsCount" (itemsCount s)) (fun count =>
  Ok (obj [("email", customerEmail s);
           ("firstname", fn);
           ("lastname", ln);
           ("groups", JArray [groupId]); (* Add to the "order-shipped" group *)
           ("fields", fields s count);
           ("trigger_automation", JBool true)])))).

(** ... and the update that the second call sends after a conflict. *)
Definition existing_subscriber (s : Shipment) (groupId : JSValue)
: Outcome JSValue :=
  Pure.bind (method_toString "itemsCount" (itemsCount s)) (fun count =>
  Ok (obj [("email", customerEmail s);
           ("groups", JArray [groupId]);
           ("fields", fields s count)])).

Definition create_request (s : Shipment) (groupId : JSValue) : Outcome Request :=
  Pure.bind json_headers (fun hs =>
  Pure.bind (new_subscriber s groupId) (fun subscriber =>
  Ok (mkRequest "https://api.sender.net/v2/subscribers" "POST" hs
        (Some (JSON_stringify subscriber)) None))).

Definition patch_request (s : Shipment) (groupId : JSValue) : Outcome Request :=
  Pure.bind json_headers (fun hs =>
  Pure.bind (existing_subscriber s groupId) (fun subscriber =>
  Ok (mkRequest "https://api.sender.net/v2/subscribers" "PATCH" hs
        (Some (JSON_stringify subscriber)) None))).

Definition subscribe (s : Shipment) (groupId : JSValue) : M Reply :=
  (* Add subscriber to the "order-shipped" group with tracking data *)
  req <- lift (create_request s groupId) ;;
  senderResponse <- do_fetch req ;;
  (if negb (ok senderResponse) then
     errorText <- lift (text senderResponse) ;;
     console_error [str "Sender API error:"; JNumber (status senderResponse);
                    str errorText] ;;
     (* If subscriber already exists (409), try to update them *)
     if status senderResponse =? 409 then
       console_log [str "Subscriber exists, updating..."] ;;
       (* Update existing subscriber and add to group *)
       req' <- lift (patch_request s groupId) ;;
       updateResponse <- do_fetch req' ;;
       (if negb (ok updateResponse) then
          updateError <- lift (text updateResponse) ;;
          msg <- lift (template [Lit "Failed to update subscriber: ";
                                 Sub (JNumber (status updateResponse));
                                 Lit " - "; Lit updateError]) ;;
          throw (Error msg)
        else ret tt) ;;
       console_log [str "Subscriber updated and added to group"]
     else
       msg <- lift (template [Lit "Sender API failed: ";
                              Sub (JNumber (status senderResponse));
                              Lit " - "; Lit errorText]) ;;
       throw (Error msg)
   else
     console_log [str "Subscriber added to order-shipped group successfully"]) ;;
  (* a body read as text cannot be read again: [json()] then rejects *)
  let result :=
    if ok senderResponse then json_or_empty senderResponse else obj [] in
  console_log [str "Sender API response:"; result] ;;
  ret (mkReply 200
         (JSON_stringify
            (obj [("success", JBool true);
                  ("message",
                   str "Customer added to order-shipped group, automation will trigger");
                  ("orderId", orderNumber s);
                  ("email", customerEmail s)]))).

Definition handler (event : Event) : M Reply :=
  (* Only allow POST requests *)
  if negb (String.eqb (httpMethod event) "POST") then ret method_not_allowed
  else
    try_catch
      ((* Parse the webhook payload from Printful v2 *)
       payload <- lift (JSON_parse (event_body event)) ;;
       console_log [str "Received webhook:"; payload] ;;
       (* V2 API uses 'type' field for event type *)
       type <- lift (get payload "type") ;;
       if negb (is_string type "shipment_sent") then ret not_handled
       else
         s <- lift (extract payload) ;;
         if negb (truthy (customerEmail s)) then
           console_error [str "No customer email found in webhook"] ;;
           ret no_customer_email
         else
           (* Get the group ID for "order-shipped" group *)
           let groupId := env "SENDER_GROUP_ID" in
           if negb (truthy groupId) then
             console_error [str "SENDER_GROUP_ID not configured"] ;;
             ret group_not_configured
           else subscribe s groupId)
      processing_failed.
End Handler.
End Webhook3.

(** ** The polling job: [check-printful-shipments.js] *)

Module Polling.

(** [let emailsSent = 0; let errors = 0;], threaded through the loop. *)
Record Counters : Type := mkCounters { emailsSent : Z; errors : Z }.

Definition sent_one (c : Counters) : Counters :=
  mkCounters (emailsSent c + 1) (errors c).

Definition failed_one (c : Counters) : Counters :=
  mkCounters (emailsSent c) (errors c + 1).

(** The name of the blob store holding the sent-flags. *)
Definition store_name : string := "shipment-emails".

(** [shipmentInfo.externalId || shipmentInfo.orderId] *)
Definition order_number (shipmentInfo : JSValue) : Outcome JSValue :=
  Pure.bind (get shipmentInfo "externalId") (fun externalId =>
  or_else externalId (get shipmentInfo "orderId")).

(** [shipmentInfo.service ? `(${shipmentInfo.service})` : ''] *)
Definition service_suffix (shipmentInfo : JSValue) : Outcome string :=
  Pure.bind (get shipmentInfo "service") (fun service =>
  if truthy service
  then template [Lit "("; Expr (get shipmentInfo "service"); Lit ")"]
  else Ok "").

Definition variant_suffix (item : JSValue) : Outcome string :=
  Pure.bind (get item "variant") (fun variant =>
  if truthy variant
  then template [Lit (quoted "<span style=`color: #666;`> - ");
                 Expr (get item "variant"); Lit "</span>"]
  else Ok "").

Definition item_html (item : JSValue) : Outcome string :=
    template
      [Lit (quoted "
    <li style=`margin-bottom: 8px;`>
      <strong>");
       Expr (get item "name");
       Lit "</strong>
      ";
       Nested (variant_suffix item);
       Lit (quoted "
      <span style=`color: #666;`> (Qty: ");
       Expr (get item "quantity");
       Lit ")</span>
    </li>
  "].

Definition tracking_button (shipmentInfo : JSValue) : Outcome string :=
  Pure.bind (get shipmentInfo "trackingUrl") (fun trackingUrl =>
  if truthy trackingUrl
  then template
             [Lit (quoted "<a href=`");
              Expr (get shipmentInfo "trackingUrl");
              Lit (quoted "` style=`display: inline-block; background: #4CAF50; color: white; padding: 12px 30px; text-decoration: none; border-radius: 5px; font-weight: bold; margin: 20px 0;`>Track Your Order</a>")]
  else Ok "").

Definition email_html (shipmentInfo fromName : JSValue)
           (itemsHtml trackingButtonHtml : string) : Outcome string :=
    template
      [Lit (quoted "
    <!DOCTYPE html>
    <html>
    <head>
      <meta charset=`UTF-8`>
      <meta name=`viewport` content=`width=device-width, initial-scale=1.0`>
    </head>
    <body style=`font-family: Arial, sans-serif; line-height: 1.6; color: #333; max-width: 600px; margin: 0 auto; padding: 20px;`>
      <div style=`background: linear-gradient(135deg, #667eea 0%, #764ba2 100%); color: white; padding: 30px; text-align: center; border-radius: 10px 10px 0 0;`>
        <h1 style=`margin: 0; font-size: 28px;`>📦 Your Order Has Shipped!</h1>
      </div>
      
      <div style=`background: #f9f9f9; padding: 30px; border-radius: 0 0 10px 10px;`>
        <p style=`font-size: 16px; margin-top: 0;`>Hi ");
       Expr (get shipmentInfo "customerName");
       Lit (quoted ",</p>
        
        <p style=`font-size: 16px;`>Great news! Your order has been dispatched and is on its way to you.</p>
        
        <div style=`background: white; padding: 20px; border-radius: 8px; margin: 20px 0; border-left: 4px solid #4CAF50;`>
          <h2 style=`margin-top: 0; color: #333; font-size: 20px;`>Shipment Details</h2>
          <table style=`width: 100%; border-collapse: collapse;`>
            <tr>
              <td style=`padding: 8px 0; color: #666;`>Order Number:</td>
              <td style=`padding: 8px 0; font-weight: bold;`>#");
       Expr (order_number shipmentInfo);
       Lit (quoted "</td>
            </tr>
            <tr>
              <td style=`padding: 8px 0; color: #666;`>Tracking Number:</td>
              <td style=`padding: 8px 0; font-weight: bold;`>");
       Expr (get shipmentInfo "trackingNumber");
       Lit (quoted "</td>
            </tr>
            <tr>
              <td style=`padding: 8px 0; color: #666;`>Carrier:</td>
              <td style=`padding: 8px 0;`>");
       Expr (get shipmentInfo "carrier");
       Lit " ";
       Nested (service_suffix shipmentInfo);
       Lit (quoted "</td>
            </tr>
          </table>
        </div>

        <div style=`background: white; padding: 20px; border-radius: 8px; margin: 20px 0;`>
          <h3 style=`margin-top: 0; color: #333; font-size: 18px;`>Items in This Shipment</h3>
          <ul style=`padding-left: 20px;`>
            ");
       Lit itemsHtml;
       Lit (quoted "
          </ul>
        </div>

        <div style=`text-align: center; margin: 30px 0;`>
          ");
       Lit trackingButtonHtml;
       Lit (quoted "
        </div>

        <p style=`font-size: 14px; color: #666; margin-top: 30px;`>
          If you have any questions about your order, please don't hesitate to contact us.
        </p>

        <p style=`font-size: 16px; margin-bottom: 0;`>
          Thank you for shopping with us!<br>
          <strong>");
       Sub fromName;
       Lit (quoted "</strong>
        </p>
      </div>

      <div style=`text-align: center; padding: 20px; font-size: 12px; color: #999;`>
        <p>This is an automated message. Please do not reply to this email.</p>
      </div>
    </body>
    </html>
  ")].

(** The callback of [orders.filter] in [fetchRecentShippedOrders]. *)
Definition shipped_since (parse : string -> option Z) (twentyFourHoursAgo : Z)
           (order : JSValue) : Outcome bool :=
  Pure.bind (get order "shipments") (fun shipments =>
  if negb (truthy shipments) then Ok false
  else
    Pure.bind (get shipments "length") (fun len =>
    if is_number len 0 then Ok false
    else
      Pure.bind (first shipments) (fun shipment =>
      Pure.bind (get shipment "shipped_at") (fun shipped_at =>
      Pure.bind (or_else shipped_at (get order "updated")) (fun date =>
      Pure.bind (Date_getTime parse date) (fun shipmentDate =>
      Ok (match shipmentDate with
          | Some t => t >? twentyFourHoursAgo
          | None => false
          end))))))).

(** [item => ({ name: item.name, quantity: item.quantity, variant: item.variant_name })] *)
Definition item_summary (item : JSValue) : Outcome JSValue :=
  Pure.bind (get item "name") (fun name =>
  Pure.bind (get item "quantity") (fun quantity =>
  Pure.bind (get item "variant_name") (fun variant =>
  Ok (obj [("name", name); ("quantity", quantity); ("variant", variant)])))).

(** The object [getShipmentInfo] returns for an order with a shipment. *)
Definition shipment_info (order shipment : JSValue) : Outcome JSValue :=
  Pure.bind (get order "id") (fun id =>
  Pure.bind (get order "external_id") (fun external_id =>
  Pure.bind (get order "recipient") (fun recipient =>
  Pure.bind (get recipient "email") (fun email =>
  Pure.bind (get order "recipient") (fun recipient' =>
  Pure.bind (get recipient' "name") (fun name =>
  Pure.bind (get shipment "tracking_number") (fun tracking_number =>
  Pure.bind (get shipment "tracking_url") (fun tracking_url =>
  Pure.bind (get shipment "carrier") (fun carrier =>
  Pure.bind (get shipment "service") (fun service =>
  Pure.bind (get order "items") (fun items =>
  Pure.bind (array_method "order.items" "map" items) (fun l =>
  Pure.bind (Pure.mapM item_summary l) (fun summaries =>
  Ok (obj [("orderId", id);
           ("externalId", external_id);
           ("customerEmail", email);
           ("customerName", name);
           ("trackingNumber", tracking_number);
           ("trackingUrl", tracking_url);
           ("carrier", carrier);
           ("service", service);
           ("items", JArray summaries)])))))))))))))).

Section Job.
Context {P : Platform}.

Definition api_headers (apiKey : JSValue) : Outcome (list (string * string)) :=
  Pure.bind (template [Lit "Bearer "; Sub apiKey]) (fun auth =>
  Ok [("Authorization", auth); ("Content-Type", "application/json")]).

(** The [try] block of [fetchRecentShippedOrders]. *)
Definition list_recent_orders (apiKey : JSValue) : M (list JSValue) :=
  hs <- lift (api_headers apiKey) ;;
  response <- do_fetch
                (mkRequest "https://api.printful.com/orders" "GET" hs None
                   (Some (obj [("status", str "fulfilled"); (* shipped orders *)
                               ("limit", JNumber 100)]))) ;;
  if negb (ok response) then
    console_error [str "Printful API error:"; JNumber (status response)] ;;
    ret []
  else
    data <- lift (json response) ;;
    result <- lift (get data "result") ;;
    let orders := js_or result (JArray []) in
    (* Filter for orders shipped in last 24 hours *)
    t <- now ;;
    let twentyFourHoursAgo := t - 24 * 60 * 60 * 1000 in
    l <- lift (array_method "orders" "filter" orders) ;;
    lift (Pure.filterM (shipped_since Date_parse twentyFourHoursAgo) l).

(** Fetch orders shipped in the last 24 hours from Printful *)
Definition fetchRecentShippedOrders (apiKey : JSValue) : M (list JSValue) :=
  try_catch
    (list_recent_orders apiKey)
    (fun error =>
       console_error [str "Error fetching Printful orders:";
                      str (message error)] ;;
       ret []).

(** Get detailed shipment info for an order *)
Definition getShipmentInfo (apiKey orderId : JSValue) : M JSValue :=
  try_catch
    (u <- lift (template [Lit "https://api.printful.com/orders/"; Sub orderId]) ;;
     hs <- lift (api_headers apiKey) ;;
     response <- do_fetch (mkRequest u "GET" hs None None) ;;
     if negb (ok response) then ret JNull
     else
       data <- lift (json response) ;;
       order <- lift (get data "result") ;;
       shipments <- lift (get order "shipments") ;;
       if negb (truthy shipments) then ret JNull
       else
         len <- lift (get shipments "length") ;;
         if is_number len 0 then ret JNull
         else
           shipment <- lift (first shipments) ;;
           lift (shipment_info order shipment))
    (fun error =>
       console_error [str "Error getting shipment info:";
                      str (message error)] ;;
       ret JNull).

Definition send_url : string := "https://api.sender.net/v2/email/send".

(** Send shipment notification email via Sender.net *)
Definition sendShipmentEmail (apiKey order shipmentInfo : JSValue) : M JSValue :=
  let fromEmail := js_or (env "SENDER_FROM_EMAIL") (str "orders@yourdomain.com") in
  let fromName := js_or (env "SENDER_FROM_NAME") (str "Your Store") in
  (* Build items list *)
  items <- lift (get shipmentInfo "items") ;;
  l <- lift (array_method "shipmentInfo.items" "map" items) ;;
  htmls <- lift (Pure.mapM item_html l) ;;
  let itemsHtml := String.concat "" htmls in
  trackingButtonHtml <- lift (tracking_button shipmentInfo) ;;
  emailHtml <- lift (email_html shipmentInfo fromName itemsHtml
                       trackingButtonHtml) ;;
  customerEmail <- lift (get shipmentInfo "customerEmail") ;;
  customerName <- lift (get shipmentInfo "customerName") ;;
  subject <- lift (template [Lit "Your order #";
                             Expr (order_number shipmentInfo);
                             Lit " has shipped! 📦"]) ;;
  let payload :=
    obj [("to", JArray [obj [("email", customerEmail);
                             ("name", customerName)]]);
         ("from", obj [("email", fromEmail); ("name", fromName)]);
         ("subject", str subject);
         ("html", str emailHtml)] in
  try_catch
    (hs <- lift (api_headers apiKey) ;;
     response <- do_fetch
                   (mkRequest send_url "POST" hs
                      (Some (JSON_stringify payload)) None) ;;
     result <- lift (json response) ;;
     if ok response then
       ret (obj [("success", JBool true); ("data", result)])
     else
       msg <- lift (get result "message") ;;
       ret (obj [("success", JBool false);
                 ("error", js_or msg (str "Failed to send email"))]))
    (fun error =>
       ret (obj [("success", JBool false); ("error", str (message error))])).

(** Check if we've already sent an email for this order.  Loading the
    blob module, opening the store and reading the key are one call to
    the platform, which fails when any of them does. *)
Definition checkIfEmailSent (orderId : JSValue) : M bool :=
  try_catch
    (sent <- store_get store_name orderId ;;
     ret (is_string sent "sent"))
    (fun error =>
       (* If storage fails, assume not sent (will attempt to send) *)
       console_log [str "Storage check failed, assuming not sent"] ;;
       ret false).

(** Mark email as sent for this order *)
Definition markEmailAsSent (orderId : JSValue) : M unit :=
  try_catch
    (store_set store_name orderId (str "sent"))
    (fun error =>
       console_error [str "Failed to mark email as sent:";
                      str (message error)]).

(** [console.log(`... ${order.id} ...`)] and its [console.error] twin *)
Definition log_order (before : string) (order : JSValue) (after : string)
           (rest : list JSValue) (as_error : bool) : M unit :=
  line <- lift (template [Lit before; Expr (get order "id"); Lit after]) ;;
  if as_error then console_error (str line :: rest)
  else console_log (str line :: rest).

(** What the loop does for an order that is not marked as sent. *)
Definition notify (printfulApiKey senderApiKey order : JSValue) (c : Counters)
  : M Counters :=
  (* Get shipment details *)
  id <- lift (get order "id") ;;
  shipmentInfo <- getShipmentInfo printfulApiKey id ;;
  if negb (truthy shipmentInfo) then
    log_order "⚠️  No shipment info for order " order "" [] false ;;
    ret c
  else
    (* Send email *)
    emailResult <- sendShipmentEmail senderApiKey order shipmentInfo ;;
    success <- lift (get emailResult "success") ;;
    if truthy success then
      log_order "✅ Email sent for order " order "" [] false ;;
      id' <- lift (get order "id") ;;
      markEmailAsSent id' ;;
      ret (sent_one c)
    else
      error <- lift (get emailResult "error") ;;
      log_order "❌ Failed to send email for order " order ":" [error] true ;;
      ret (failed_one c).

(** The [try] block of the loop body ... *)
Definition attempt (printfulApiKey senderApiKey order : JSValue)
           (c : Counters) : M Counters :=
  (* Check if we've already sent email for this order *)
  id <- lift (get order "id") ;;
  alreadySent <- checkIfEmailSent id ;;
  if alreadySent : bool then
    log_order "⏭️  Skipping order " order " - email already sent" [] false ;;
    ret c
  else notify printfulApiKey senderApiKey order c.

(** ... and its [catch] block. *)
Definition on_error (order : JSValue) (c : Counters) (error : JSError)
: M Counters :=
  log_order "❌ Error processing order " order ":"
            [str (message error)] true ;;
  ret (failed_one c).

(** One iteration of [for (const order of orders)]. *)
Definition iteration (printfulApiKey senderApiKey order : JSValue)
           (c : Counters) : M Counters :=
  try_catch (attempt printfulApiKey senderApiKey order c) (on_error order c).

Fixpoint for_of (printfulApiKey senderApiKey : JSValue) (orders : list JSValue)
         (c : Counters) : M Counters :=
  match orders with
  | [] => ret c
  | order :: rest =>
      c' <- iteration printfulApiKey senderApiKey order c ;;
      for_of printfulApiKey senderApiKey rest c'
  end.

Definition missing_api_keys : Reply :=
  mkReply 500
    (JSON_stringify
       (obj [("error", str "Missing API keys");
             ("details",
              str "Set PRINTFUL_API_KEY and SENDER_API_KEY in environment variables")])).

Definition check_completed (ordersFound : nat) (c : Counters) : Reply :=
  mkReply 200
    (JSON_stringify
       (obj [("message", str "Check completed");
             ("ordersFound", JNumber (Z.of_nat ordersFound));
             ("emailsSent", JNumber (emailsSent c));
             ("errors", JNumber (errors c))])).

Definition handler : M Reply :=
  console_log [str "🔍 Checking Printful for shipped orders..."] ;;
  try_catch
    (let printfulApiKey := env "PRINTFUL_API_KEY" in
     let senderApiKey := env "SENDER_API_KEY" in
     if negb (truthy printfulApiKey) || negb (truthy senderApiKey) then
       ret missing_api_keys
     else
       (* Fetch orders from last 24 hours with status 'shipped' *)
       orders <- fetchRecentShippedOrders printfulApiKey ;;
       console_log [str ("📦 Found " ++ string_of_Z (Z.of_nat (List.length orders))
                         ++ " shipped orders")] ;;
       (* Check each order and send email if not already sent *)
       c <- for_of printfulApiKey senderApiKey orders (mkCounters 0 0) ;;
       ret (check_completed (List.length orders) c))
    (fun error =>
       console_error [str "❌ Fatal error:"; str (message error)] ;;
       ret (mkReply 500
              (JSON_stringify (obj [("error", str "Internal error");
                                    ("message", str (message error))])))).
End Job.
End Polling.

(** ** The bulk-index endpoint of [solr/backend/index.js] *)

Module Solr.
Section Endpoint.
Context {P : Platform}.

(** What the Express response object has been told to send. *)
Record Sent : Type := mkSent { res_status : Z; res_body : string }.

(** [res.send(text)] on a fresh response: status 200. *)
Definition res_send (text : string) : Sent := mkSent 200 text.

(** [res.status(code).send(text)] *)
Definition res_status_send (code : Z) (text : string) : Sent := mkSent code text.

Definition update_url : Outcome string :=
  template [Lit "http://"; Sub (env "SOLR_HOST"); Lit ":8983/solr/";
            Sub (env "SOLR_CORE"); Lit "/update?commit=true"].

(** A request as Express hands it to a route: what the caller posted. *)
Record Req : Type := mkReq { content_type : string; posted : string }.

(** [req.body].  It is a body parser that sets it, and the application
    installs none: it is made by [express()] and registers its two routes,
    without any [app.use].  So [req.body] is [undefined], whatever the
    caller posted. *)
Definition req_body (req : Req) : JSValue := JUndefined.

(** [app.post('/api/index', async (req, res) => ...)] *)
Definition post_api_index (req : Req) : M Sent :=
  let posts := req_body req in (* assume array of post objects *)
  try_catch
    (u <- lift update_url ;;
     _ <- do_axios_post u posts [("Content-Type", "application/json")] ;;
     ret (res_send "Indexed"))
    (fun err => ret (res_status_send 500 (message err))).
End Endpoint.
End Solr.


(** * The terms of the statements *)

(** ** Reading a payload *)

(** [prop v name] is [v.name] where the read cannot throw. *)
Definition prop (v : JSValue) (name : string) : JSValue :=
  match get v name with
  | Ok x => x
  | Thrown _ => JUndefined
  end.

(** ** The items of a shipment (variants 2 and 3) *)

Definition sum_Z (l : list Z) : Z := fold_right Z.add 0 l.

(** The quantity of an item, when the item has one. *)
Definition quantity (item : JSValue) : option Z :=
  match prop item "quantity" with
  | JNumber q => Some q
  | _ => None
  end.

(** An item as the provider sends it: an object whose quantity is a number
    or absent and whose name is a string or absent. *)
Definition plain_item (item : JSValue) : bool :=
  match item with
  | JObject props =>
      match assoc "quantity" props with
      | None | Some (JNumber _) => true
      | Some _ => false
      end
      && match assoc "order_item_name" props with
         | None | Some (JString _) => true
         | Some _ => false
         end
  | _ => false
  end.

(** What an item adds to the count: its quantity, 0 when it has none. *)
Definition counted (item : JSValue) : Z :=
  match quantity item with
  | Some q => q
  | None => 0
  end.

(** The quantity an item is listed with: 1 when it has none (and also when
    its quantity is 0, which [||] treats as absent). *)
Definition listed (item : JSValue) : Z :=
  match quantity item with
  | Some q => if q =? 0 then 1 else q
  | None => 1
  end.

Definition listed_name (item : JSValue) : string :=
  match prop item "order_item_name" with
  | JString n => if String.eqb n "" then "Item" else n
  | _ => "Item"
  end.

Definition listed_line (item : JSValue) : string :=
  string_of_Z (listed item) ++ "x " ++ listed_name item.

(** The result of [extract] on a payload whose [data] is an object. *)
Definition extracted (data : JSValue) (list : string) (count : JSValue)
  : Shipment :=
  let order := js_or (prop data "order") (obj []) in
  let recipient := prop order "recipient" in
  mkShipment
    (if nullish recipient then JUndefined else prop recipient "email")
    (if nullish recipient then JUndefined else prop recipient "name")
    (js_or (prop order "external_id") (prop order "id"))
    (prop data "tracking_number") (prop data "tracking_url")
    (prop data "carrier") list count.

(** ** The requests of variant 2 *)

Section RemoveThenAddTerms.
Context {P : Platform}.

(** How an environment variable prints inside a template. *)
Definition env_text (name : string) : string :=
  match process_env name with
  | Some s => s
  | None => "undefined"
  end.

Definition authorization : string := "Bearer " ++ env_text "SENDER_API_KEY".

Definition json_request_headers : list (string * string) :=
  [("Authorization", authorization);
   ("Content-Type", "application/json");
   ("Accept", "application/json")].

(** The three requests of variant 2 for the e-mail address [e] and the
    group [g]. *)
Definition removal (e g : string) : Request :=
  mkRequest ("https://api.sender.net/v2/subscribers/" ++ encodeURIComponent e
             ++ "/groups/" ++ g)
    "DELETE"
    [("Authorization", authorization); ("Accept", "application/json")]
    None None.

Definition update (subscriber : JSValue) : Request :=
  mkRequest "https://api.sender.net/v2/subscribers" "POST"
    json_request_headers (Some (JSON_stringify subscriber)) None.

Definition addition (e g : string) : Request :=
  mkRequest ("https://api.sender.net/v2/subscribers/" ++ encodeURIComponent e
             ++ "/groups")
    "POST" json_request_headers
    (Some (JSON_stringify (obj [("groups", JArray [str g])]))) None.

(** The values [+] can give: a number, [NaN] or a string. *)
Definition countable (v : JSValue) : bool :=
  match v with
  | JNumber _ | JNaN | JString _ => true
  | _ => false
  end.

(** Whether step 2 lets the handler go on to step 3: the call returned, and
    either the response was fine (or a 409) or its text could be read. *)
Definition completes (r : Outcome Response) : bool :=
  match r with
  | Ok response =>
      ok response || (status response =? 409)
      || match text response with Ok _ => true | Thrown _ => false end
  | Thrown _ => false
  end.

Definition accepted (r : Outcome Response) : bool :=
  match r with
  | Ok response => ok response
  | Thrown _ => false
  end.

End RemoveThenAddTerms.

(** ** The bulk-index endpoint *)

Section SolrTerms.
Context {P : Platform}.

Definition solr_update_url : string :=
  "http://" ++ env_text "SOLR_HOST" ++ ":8983/solr/" ++ env_text "SOLR_CORE"
  ++ "/update?commit=true".

End SolrTerms.

(** ** The order list of the provider *)

(** A value that is neither an array nor an object. *)
Definition scalar (v : JSValue) : bool :=
  match v with
  | JArray _ | JObject _ => false
  | _ => true
  end.

Definition provider_shipment (shipment : JSValue) : bool :=
  match shipment with
  | JObject _ => scalar (prop shipment "shipped_at")
  | _ => false
  end.

(** An order of the provider's list as the provider sends it: an object
    whose [shipments], when present, is an array of shipment objects, the
    dates being scalars (milliseconds or date strings). *)
Definition provider_order (order : JSValue) : bool :=
  match order with
  | JObject _ =>
      scalar (prop order "updated")
      && match prop order "shipments" with
         | JUndefined | JNull => true
         | JArray l => forallb provider_shipment l
         | _ => false
         end
  | _ => false
  end.

(** The time value of a scalar date, [None] when it denotes no time. *)
Definition time_value (parse : string -> option Z) (date : JSValue) : option Z :=
  match date with
  | JString s => parse s
  | JNumber t => if Z.abs t <=? 8640000000000000 then Some t else None
  | JNull => Some 0
  | JBool b => Some (if b then 1 else 0)
  | _ => None
  end.

(** The order filter in the words of the specification: the order has a
    non-empty shipments array, and the timestamp of its first shipment
    ([shipped_at], falling back to the order's [updated]) is strictly later
    than 24 hours before [current]. *)
Definition shipped_in_last_24_hours (parse : string -> option Z) (current : Z)
           (order : JSValue) : bool :=
  match prop order "shipments" with
  | JArray (shipment :: _) =>
      let timestamp :=
        if truthy (prop shipment "shipped_at") then prop shipment "shipped_at"
        else prop order "updated" in
      match time_value parse timestamp with
      | Some t => current - 24 * 60 * 60 * 1000 <? t
      | None => false
      end
  | _ => false
  end.

(** ** The calls and rounds of the polling job *)

Section PollingTerms.
Context {P : Platform}.
Import Polling.

(** The call that lists the orders: a GET with the API key, and the
    [params] that [fetch] ignores. *)
Definition orders_request (key : string) : Request :=
  mkRequest "https://api.printful.com/orders" "GET"
    [("Authorization", "Bearer " ++ key); ("Content-Type", "application/json")]
    None
    (Some (obj [("status", str "fulfilled"); ("limit", JNumber 100)])).

(** The send reports success: the mailing service answered with an [ok]
    response whose body reads as JSON.  This is [emailResult.success]. *)
Definition delivered (r : Outcome Response) : bool :=
  match r with
  | Ok response =>
      ok response && match json response with Ok _ => true | Thrown _ => false end
  | Thrown _ => false
  end.

(** The outbound calls that send a shipment e-mail, and those that write a
    sent-flag. *)
Definition is_send (x : Exchange) : bool :=
  match x with
  | Fetched req _ => String.eqb (url req) send_url
  | _ => false
  end.

Definition is_mark (x : Exchange) : bool :=
  match x with
  | BlobSet _ _ _ _ => true
  | _ => false
  end.

(** Calls among which there is neither a send nor a flag. *)
Definition quiet (seg : list Exchange) : Prop :=
  existsb is_send seg = false /\ existsb is_mark seg = false.

(** In a list of calls, every writing of a flag directly follows a send
    that reported success. *)
Definition flags_follow_sends (seg : list Exchange) : Prop :=
  forall before x after,
    seg = (before ++ x :: after)%list -> is_mark x = true ->
    exists calls req r,
      before = (calls ++ [Fetched req r])%list
      /\ url req = send_url /\ delivered r = true.

(** The order's id can be printed in a log line. *)
Definition loggable (order : JSValue) : bool :=
  match get order "id" with
  | Ok id => match ToString id with Ok _ => true | Thrown _ => false end
  | Thrown _ => false
  end.

(** What the [try] block of the loop body does for one order: it makes
    calls that neither send nor flag and leaves the counters alone or
    throws; or it goes on to a send that fails, counted as an error; or to a
    send that succeeds, followed by the writing of the flag and counted as a
    sent e-mail. *)
Definition attempt_shape (order : JSValue) (c : Counters)
           (o : Outcome Counters) (seg : list Exchange) : Prop :=
  (quiet seg /\ (o = Ok c \/ exists error, o = Thrown error))
  \/ (exists q req r,
         seg = (q ++ [Fetched req r])%list /\ quiet q
         /\ url req = send_url /\ delivered r = false
         /\ o = Ok (failed_one c))
  \/ (exists q req r id res,
         seg = (q ++ [Fetched req r; BlobSet store_name id (str "sent") res])%list
         /\ quiet q /\ url req = send_url /\ delivered r = true
         /\ get order "id" = Ok id
         /\ o = Ok (sent_one c)).

(** One round of the loop: the order, the state before and after its
    iteration, and whether its [try] block threw. *)
Record Round : Type := mkRound {
  round_order : JSValue;
  state_before : State;
  raised : bool;
  state_after : State
}.

Definition throws {A} (o : Outcome A) : bool :=
  match o with
  | Ok _ => false
  | Thrown _ => true
  end.

(** The rounds of [for (const order of orders)], in order. *)
Fixpoint rounds (k1 k2 : JSValue) (orders : list JSValue) (c : Counters)
         (st : State) : list Round :=
  match orders with
  | [] => []
  | order :: rest =>
      let (o, st') := iteration k1 k2 order c st in
      mkRound order st (throws (fst (attempt k1 k2 order c st))) st'
      :: match o with
         | Ok c' => rounds k1 k2 rest c' st'
         | Thrown _ => []
         end
  end.

(** The outbound calls made during a round. *)
Definition calls_of (rd : Round) : list Exchange :=
  skipn (List.length (trace (state_before rd))) (trace (state_after rd)).

Definition sent_ok (x : Exchange) : bool :=
  match x with
  | Fetched req r => String.eqb (url req) send_url && delivered r
  | _ => false
  end.

Definition sent_badly (x : Exchange) : bool :=
  match x with
  | Fetched req r => String.eqb (url req) send_url && negb (delivered r)
  | _ => false
  end.

(** A round with a successful send of the e-mail ... *)
Definition emailed (rd : Round) : bool := existsb sent_ok (calls_of rd).

(** ... and a round whose send failed or whose processing threw. *)
Definition troubled (rd : Round) : bool :=
  existsb sent_badly (calls_of rd) || raised rd.

Definition count {A} (p : A -> bool) (l : list A) : Z :=
  Z.of_nat (List.length (filter p l)).

(** The state after [console.log(...args)]. *)
Definition logged (st : State) (args : list JSValue) : State :=
  mkState (world st) (trace st) (console st ++ [Log args]).

End PollingTerms.

(** ** Further terms: names, calls of variants 1 and 3, counts of calls *)

(** A text without a space. *)
Fixpoint spaceless (s : string) : bool :=
  match s with
  | EmptyString => true
  | String c s' => negb (Ascii.eqb c " "%char) && spaceless s'
  end.

Section FurtherTerms.
Context {P : Platform}.
Import Polling.

(** The answer of the top-level [catch] of the webhook variants. *)
Definition failure_reply (text : string) : Reply :=
  mkReply 500
    (JSON_stringify (obj [("error", str "Failed to process webhook");
                          ("message", str text)])).

(** The call of variant 1, which carries the e-mail. *)
Definition mailing (data : JSValue) : Request :=
  mkRequest "https://api.sender.net/v2/email" "POST" json_request_headers
    (Some (JSON_stringify data)) None.

(** The second call of variant 3, after a conflict. *)
Definition patching (subscriber : JSValue) : Request :=
  mkRequest "https://api.sender.net/v2/subscribers" "PATCH"
    json_request_headers (Some (JSON_stringify subscriber)) None.

(** The call of [getShipmentInfo] for the order whose id prints as [text]. *)
Definition detail_request (key text : string) : Request :=
  mkRequest ("https://api.printful.com/orders/" ++ text) "GET"
    [("Authorization", "Bearer " ++ key); ("Content-Type", "application/json")]
    None None.

(** The call of [sendShipmentEmail] carrying [payload]. *)
Definition mail_request (key : string) (payload : JSValue) : Request :=
  mkRequest send_url "POST"
    [("Authorization", "Bearer " ++ key); ("Content-Type", "application/json")]
    (Some (JSON_stringify payload)) None.

(** How many calls of a list send an e-mail, and how many write a flag. *)
Definition sends (seg : list Exchange) : nat := List.length (filter is_send seg).

Definition marks (seg : list Exchange) : nat := List.length (filter is_mark seg).

(** What one iteration adds to the calls and to the counters. *)
Definition tally (c : Counters) (o : Outcome Counters) (seg : list Exchange)
           (n : nat) : Prop :=
  (sends seg <= n)%nat /\ (marks seg <= sends seg)%nat
  /\ forall c', o = Ok c' ->
       emailsSent c' = emailsSent c + Z.of_nat (marks seg)
       /\ errors c + Z.of_nat (sends seg - marks seg) <= errors c'
       /\ errors c' - errors c + Z.of_nat (marks seg) <= Z.of_nat n.

(** The store keeps a flag that was written: a read that follows the
    writing of 'sent' under a key gives 'sent'. *)
Definition keeps_flags : Prop :=
  forall (key : JSValue) (w w' : World),
    blob_set store_name key (str "sent") w = (Ok tt, w') ->
    fst (blob_get store_name key w') = Ok (str "sent").

(** The world that an outbound call left behind. *)
Definition left_by (x : Exchange) (w : World) : Prop :=
  match x with
  | Fetched req r => exists w0, fetch req w0 = (r, w)
  | BlobGot store key r => exists w0, blob_get store key w0 = (r, w)
  | BlobSet store key value r => exists w0, blob_set store key value w0 = (r, w)
  | AxiosPosted u data hs r => exists w0, axios_post u data hs w0 = (r, w)
  end.

(** The world of a state is the one that its last outbound call left
    behind: nothing else has touched it since. *)
Definition settled (st : State) : Prop :=
  forall calls x, trace st = (calls ++ [x])%list -> left_by x (world st).

Definition keeps {A} (m : M A) : Prop :=
  forall st, settled st -> settled (snd (m st)).

End FurtherTerms.

(** * A concrete platform, on which the handlers run by evaluation *)

Module Scenario.

(** [JSON.stringify] on the values of this file. *)
Definition hex_digit (n : N) : ascii :=
  ascii_of_N (if (n <? 10)%N then 48 + n else 87 + n).

Definition escape_char (c : ascii) : string :=
  let n := N_of_ascii c in
  if (n =? 34)%N then String "\"%char dq
  else if (n =? 92)%N then "\\"
  else if (n =? 8)%N then "\b"
  else if (n =? 9)%N then "\t"
  else if (n =? 10)%N then "\n"
  else if (n =? 12)%N then "\f"
  else if (n =? 13)%N then "\r"
  else if (n <? 32)%N
       then "\u00" ++ String (hex_digit (n / 16)) (String (hex_digit (n mod 16)) "")
  else String c "".

Fixpoint escape (s : string) : string :=
  match s with
  | EmptyString => ""
  | String c s' => escape_char c ++ escape s'
  end.

Definition quote (s : string) : string := dq ++ escape s ++ dq.

Fixpoint stringify (v : JSValue) : string :=
  match v with
  | JUndefined | JNull | JNaN => "null"
  | JBool b => if b then "true" else "false"
  | JNumber n => string_of_Z n
  | JString s => quote s
  | JArray l => "[" ++ String.concat "," (map stringify l) ++ "]"
  | JObject props =>
      let fix members (props : list (string * JSValue)) : list string :=
        match props with
        | [] => []
        | (k, JUndefined) :: rest => members rest
        | (k, x) :: rest => (quote k ++ ":" ++ stringify x) :: members rest
        end in
      "{" ++ String.concat "," (members props) ++ "}"
  end.

(** [JSON.parse], restricted to the texts of a given list of values. *)
Definition parse_known (known : list JSValue) (s : string) : Outcome JSValue :=
  match find (fun v => String.eqb (stringify v) s) known with
  | Some v => Ok v
  | None => Thrown (mkError "SyntaxError" "Unexpected token in JSON")
  end.

(** [encodeURIComponent] on bytes. *)
Definition unreserved (c : ascii) : bool :=
  let n := N_of_ascii c in
  ((48 <=? n) && (n <=? 57) || (65 <=? n) && (n <=? 90)
   || (97 <=? n) && (n <=? 122))%N
  || existsb (Ascii.eqb c) (list_ascii_of_string "-_.!~*'()").

Definition upper_hex (n : N) : ascii :=
  ascii_of_N (if (n <? 10)%N then 48 + n else 55 + n).

Fixpoint percent_encode (s : string) : string :=
  match s with
  | EmptyString => ""
  | String c s' =>
      (if unreserved c then String c ""
       else let n := N_of_ascii c in
            String "%"%char (String (upper_hex (n / 16))
                               (String (upper_hex (n mod 16)) "")))
      ++ percent_encode s'
  end.

(** The simulated world: a clock, the blob store (which may be down) and
    the answers that the next outbound HTTP calls will get. *)
Record Sim : Type := mkSim {
  clock : Z;
  blobs : list (string * JSValue);
  blobs_down : bool;
  answers : list (Outcome Response)
}.

Definition key_text (key : JSValue) : string :=
  match ToString key with
  | Ok s => s
  | Thrown _ => ""
  end.

Definition sim_fetch (req : Request) (w : Sim) : Outcome Response * Sim :=
  match answers w with
  | r :: rest => (r, mkSim (clock w) (blobs w) (blobs_down w) rest)
  | [] => (Thrown (TypeError "fetch failed"), w)
  end.

Definition sim_get (store : string) (key : JSValue) (w : Sim)
  : Outcome JSValue * Sim :=
  if blobs_down w then (Thrown (Error "The blob store is not available"), w)
  else
    (Ok (match find (fun kv => String.eqb (fst kv) (key_text key)) (blobs w) with
         | Some kv => snd kv
         | None => JNull
         end), w).

Definition sim_set (store : string) (key value : JSValue) (w : Sim)
  : Outcome unit * Sim :=
  if blobs_down w then (Thrown (Error "The blob store is not available"), w)
  else (Ok tt, mkSim (clock w) ((key_text key, value) :: blobs w)
                 (blobs_down w) (answers w)).

Definition sim_axios (u : string) (data : JSValue) (hs : list (string * string))
           (w : Sim) : Outcome JSValue * Sim :=
  match sim_fetch (mkRequest u "POST" hs (Some (stringify data)) None) w with
  | (Ok r, w') =>
      if ok r
      then (Ok (obj [("status", JNumber (status r))]), w')
      else (Thrown (Error ("Request failed with status code "
                           ++ string_of_Z (status r))), w')
  | (Thrown e, w') => (Thrown e, w')
  end.

Definition lookup (k : string) (l : list (string * string)) : option string :=
  option_map snd (find (fun kv => String.eqb (fst kv) k) l).

Definition lookup_Z (k : string) (l : list (string * Z)) : option Z :=
  option_map snd (find (fun kv => String.eqb (fst kv) k) l).

Definition iso_of (dates : list (string * Z)) (t : Z) : string :=
  match find (fun kv => snd kv =? t) dates with
  | Some kv => fst kv
  | None => "1970-01-01T00:00:00.000Z"
  end.

(** The platform with environment [vars], whose [JSON.parse] knows the texts
    of [known] and whose [Date.parse] knows [dates]. *)
Definition platform (vars : list (string * string)) (known : list JSValue)
           (dates : list (string * Z)) : Platform :=
  {| World := Sim;
     process_env := fun name => lookup name vars;
     JSON_parse := parse_known known;
     JSON_stringify := stringify;
     encodeURIComponent := percent_encode;
     Date_parse := fun s => lookup_Z s dates;
     Date_toISOString := iso_of dates;
     Date_now := clock;
     fetch := sim_fetch;
     blob_get := sim_get;
     blob_set := sim_set;
     axios_post := sim_axios |}.

Definition start {P : Platform} (w : World) : State := mkState w [] [].

Definition response (code : Z) (payload : JSValue) : Outcome Response :=
  Ok (mkResponse ((200 <=? code) && (code <? 300)) code (Ok payload)
        (Ok (stringify payload))).

End Scenario.

(** ** The payloads, orders and worlds of the runs *)

Module Runs.
Import Scenario.

Definition vars : list (string * string) :=
  [("PRINTFUL_API_KEY", "pk"); ("SENDER_API_KEY", "sk");
   ("SENDER_GROUP_ID", "grp1"); ("SOLR_HOST", "solr"); ("SOLR_CORE", "posts")].

(** Webhook payloads. *)
Definition other_event : JSValue := obj [("type", str "order_created")].

(** Variant 1: a shipped package whose recipient has no e-mail address. *)
Definition package_without_email : JSValue :=
  obj [("type", str "package_shipped");
       ("data",
        obj [("order", obj [("id", JNumber 7);
                            ("recipient", obj [("name", str "Ann Lee")])]);
             ("shipment", obj [("tracking_number", str "T1");
                               ("carrier", str "DHL")])])].

(** Variants 2 and 3: a sent shipment without [data] ... *)
Definition bare_shipment : JSValue := obj [("type", str "shipment_sent")].

Definition two_items : list JSValue :=
  [obj [("quantity", JNumber 2); ("order_item_name", str "Mug")];
   obj [("order_item_name", str "Cap")]].

Definition shipment_data (recipient : JSValue) : JSValue :=
  obj [("order", obj [("id", JNumber 7); ("recipient", recipient)]);
       ("tracking_number", str "T1");
       ("carrier", str "DHL");
       ("shipment_items", JArray two_items)].

(** ... one whose recipient has no e-mail address, and a complete one. *)
Definition shipment_without_email : JSValue :=
  obj [("type", str "shipment_sent");
       ("data", shipment_data (obj [("name", str "Ann Lee")]))].

Definition shipment_for_ann : JSValue :=
  obj [("type", str "shipment_sent");
       ("data", shipment_data (obj [("email", str "ann@example.com");
                                    ("name", str "Ann Lee")]))].

Definition known : list JSValue :=
  [other_event; package_without_email; bare_shipment; shipment_without_email;
   shipment_for_ann].

Definition dates : list (string * Z) :=
  [("2023-11-01T00:00:00.000Z", 1698796800000)].

#[export] Instance shop : Platform := platform vars known dates.

(** A POST carrying [payload]. *)
Definition post (payload : JSValue) : Event := mkEvent "POST" (stringify payload).

(** The world at 2023-11-14T22:13:20Z with the given blobs and answers. *)
Definition at_noon (blobs : list (string * JSValue))
           (answers : list (Outcome Response)) : State :=
  start (mkSim 1700000000000 blobs false answers).

Definition accepted_answer : Outcome Response := response 200 (obj []).

Definition network_error : Outcome Response :=
  Thrown (TypeError "fetch failed").

Definition code_of (run : Outcome Reply * State) : option Z :=
  match fst run with
  | Ok reply => Some (statusCode reply)
  | Thrown _ => None
  end.

Definition requests_of (run : Outcome Reply * State) : list (string * string) :=
  flat_map (fun x => match x with
                     | Fetched req _ => [(method req, url req)]
                     | _ => []
                     end) (trace (snd run)).

Definition shipment_of (payload : JSValue) : Shipment :=
  match extract payload with
  | Ok s => s
  | Thrown _ =>
      mkShipment JUndefined JUndefined JUndefined JUndefined JUndefined
        JUndefined "" JUndefined
  end.

(** The polling job. *)
Import Polling.

Definition listed_order (id : Z) (shipments updated : JSValue) : JSValue :=
  obj [("id", JNumber id); ("shipments", shipments); ("updated", updated)].

Definition shipped (shipped_at : JSValue) : JSValue :=
  JArray [obj [("shipped_at", shipped_at)]].

(** Five orders: shipped three hours ago; without shipment; last updated
    two weeks ago; last updated a quarter of an hour ago; shipped exactly 24
    hours ago. *)
Definition provider_list : list JSValue :=
  [listed_order 101 (shipped (JNumber 1699990000000)) (JNumber 1699990000000);
   listed_order 102 (JArray []) (JNumber 1699990000000);
   listed_order 103 (shipped JNull) (str "2023-11-01T00:00:00.000Z");
   listed_order 104 (shipped JNull) (JNumber 1699999000000);
   listed_order 105 (shipped (JNumber 1699913600000)) JNull].

Definition order_detail (id : Z) (item_name : JSValue) : JSValue :=
  obj [("result",
        obj [("id", JNumber id);
             ("external_id", str "A-7");
             ("recipient", obj [("email", str "ann@example.com");
                                ("name", str "Ann Lee")]);
             ("shipments", JArray [obj [("tracking_number", str "T1");
                                        ("carrier", str "DHL")]]);
             ("items", JArray [obj [("name", item_name);
                                    ("quantity", JNumber 1)]])])].

Definition recent (id : Z) : JSValue :=
  listed_order id (shipped (JNumber 1699990000000)) JNull.

(** Five recent orders: 101 is flagged as sent; 102 is mailed; the mailing
    service rejects the e-mail of 103; the processing of 104 throws (the
    name of its item cannot be printed); 105 is mailed. *)
Definition busy_hour : State :=
  at_noon [("101", str "sent")]
    [response 200 (obj [("result", JArray (map recent [101; 102; 103; 104; 105]))]);
     response 200 (order_detail 102 (str "Mug")); accepted_answer;
     response 200 (order_detail 103 (str "Mug"));
     response 500 (obj [("message", str "rejected")]);
     response 200 (order_detail 104 (obj [("toString", JNumber 1)]));
     response 200 (order_detail 105 (str "Cap")); accepted_answer].

End Runs.

(** ** Further payloads, and a platform with a bare environment *)

Module MoreRuns.
Import Scenario.
Import Runs.
Import Polling.

(** Variant 1: a shipped package without [data]. *)
Definition bare_package : JSValue := obj [("type", str "package_shipped")].

(** A platform on which only the provider's key is set: neither the key of
    the mailing service nor the group is configured. *)
Definition bare_shop : Platform :=
  platform [("PRINTFUL_API_KEY", "pk")] (bare_package :: known) dates.

Definition bare_noon : @State bare_shop :=
  @start bare_shop (mkSim 1700000000000 [] false [accepted_answer]).

(** The answer of the mailing service to a subscriber that exists. *)
Definition conflict : Outcome Response :=
  response 409 (obj [("message", str "Subscriber already exists")]).

Definition unavailable : Outcome Response :=
  response 503 (obj [("error", str "Service unavailable")]).

(** The details of order 102 as the provider gives them, its first
    shipment, and the record [getShipmentInfo] makes of them. *)
Definition detailed_order : JSValue :=
  prop (order_detail 102 (str "Mug")) "result".

Definition first_shipment : JSValue :=
  obj [("tracking_number", str "T1"); ("carrier", str "DHL")].

Definition info_102 : JSValue :=
  obj [("orderId", JNumber 102);
       ("externalId", str "A-7");
       ("customerEmail", str "ann@example.com");
       ("customerName", str "Ann Lee");
       ("trackingNumber", str "T1");
       ("trackingUrl", JUndefined);
       ("carrier", str "DHL");
       ("service", JUndefined);
       ("items", JArray [obj [("name", str "Mug");
                              ("quantity", JNumber 1);
                              ("variant", JUndefined)]])].

(** The e-mail of variant 1 for the package of order 7. *)
Definition mail_for_7 : JSValue :=
  match Webhook1.emailData JUndefined (str "Ann Lee") (JNumber 7) (str "T1")
          JUndefined (str "DHL") with
  | Ok mail => mail
  | Thrown _ => JNull
  end.

(** Two posts for the search index, as a caller of the bulk-index endpoint
    sends them. *)
Definition two_posts : JSValue :=
  JArray [obj [("id", JNumber 1); ("title", str "Hello")];
          obj [("id", JNumber 2); ("title", str "World")]].

Definition index_request : Solr.Req :=
  Solr.mkReq "application/json" (stringify two_posts).

(** Order 102 is neither flagged nor refused: it is mailed and flagged. *)
Definition quiet_hour : State :=
  at_noon [] [response 200 (order_detail 102 (str "Mug")); accepted_answer].

End MoreRuns.

(** * Properties *)

(** Case analysis on the outcomes and tests met while a handler runs. *)
Ltac run_cases :=
  repeat match goal with
    | |- context [match ?o with Ok _ => _ | Thrown _ => _ end] =>
        destruct o; cbn
    | |- context [if ?b then _ else _] => destruct b; cbn
    end.

Ltac settle :=
  let H := fresh in
  intros H;
  first [discriminate H
        | injection H; intros; subst; first [reflexivity | eauto]].

Ltac bind_cases H :=
  repeat match type of H with
    | Pure.bind ?m _ = Ok _ =>
        let E := fresh "E" in
        destruct m eqn:E; cbn [Pure.bind] in H; [|discriminate H]
    end.

(** ** The webhook variants *)

Section WebhookFacts.
Context {P : Platform}.

Lemma not_post (event : Event) :
  httpMethod event <> "POST" ->
  negb (String.eqb (httpMethod event) "POST") = true.
Proof.
  intro H. apply negb_true_iff. now apply String.eqb_neq.
Qed.

Lemma is_post (event : Event) :
  httpMethod event = "POST" ->
  negb (String.eqb (httpMethod event) "POST") = false.
Proof.
  intros ->. reflexivity.
Qed.

(** C5: a request whose method is not POST is answered 405 with the JSON
    body [{error: 'Method not allowed'}] by each of the three variants; the
    state is left as it was, so nothing is sent and nothing is logged, and
    the answer depends neither on the body nor on how it would parse. *)
Theorem non_post_is_rejected (event : Event) (st : State) :
  httpMethod event <> "POST" ->
  let rejected :=
    mkReply 405 (JSON_stringify (obj [("error", str "Method not allowed")])) in
  Webhook1.handler event st = (Ok rejected, st) /\
  Webhook2.handler event st = (Ok rejected, st) /\
  Webhook3.handler event st = (Ok rejected, st).
Proof.
  intros H rejected.
  unfold Webhook1.handler, Webhook2.handler, Webhook3.handler.
  rewrite (not_post event H).
  repeat split.
Qed.

(** The start of the three handlers on a POST whose body parses. *)
Lemma parsed_then_logged (event : Event) (payload : JSValue) (st : State)
      (k : JSValue -> M Reply) :
  JSON_parse (event_body event) = Ok payload ->
  (payload <- lift (JSON_parse (event_body event)) ;;
   console_log [str "Received webhook:"; payload] ;; k payload) st
  = k payload (mkState (world st) (trace st)
                 (console st ++ [Log [str "Received webhook:"; payload]])).
Proof.
  intros H. unfold bind, lift, console_log. rewrite H. reflexivity.
Qed.

(** C6: a POST whose body parses to a payload with a readable [type] other
    than the handled one ('package_shipped' in variant 1, 'shipment_sent' in
    variants 2 and 3) is answered 200 with the message 'Event type not
    handled', and the list of outbound calls is unchanged. *)
Theorem unhandled_type_is_a_no_op (event : Event) (payload type : JSValue)
        (st : State) :
  httpMethod event = "POST" ->
  JSON_parse (event_body event) = Ok payload ->
  get payload "type" = Ok type ->
  let no_op :=
    mkReply 200
      (JSON_stringify (obj [("message", str "Event type not handled")])) in
  (is_string type "package_shipped" = false ->
   exists st', Webhook1.handler event st = (Ok no_op, st')
               /\ trace st' = trace st) /\
  (is_string type "shipment_sent" = false ->
   (exists st', Webhook2.handler event st = (Ok no_op, st')
                /\ trace st' = trace st) /\
   (exists st', Webhook3.handler event st = (Ok no_op, st')
                /\ trace st' = trace st)).
Proof.
  intros Hpost Hparse Htype no_op.
  unfold Webhook1.handler, Webhook2.handler, Webhook3.handler.
  rewrite (is_post event Hpost).
  unfold try_catch.
  split; [intro Hne | intro Hne; split];
    rewrite (parsed_then_logged event payload st _ Hparse);
    unfold bind at 1, lift at 1; rewrite Htype; rewrite Hne; cbn;
    eexists; split; reflexivity.
Qed.

(** Variant 1 answers 405, 200 or 500 and nothing else: it has no answer
    for a payload with missing fields. *)
Lemma webhook1_answers (event : Event) (st : State) :
  exists reply st',
    Webhook1.handler event st = (Ok reply, st')
    /\ (statusCode reply = 405 \/ statusCode reply = 200
        \/ statusCode reply = 500).
Proof.
  unfold Webhook1.handler.
  destruct (negb (String.eqb (httpMethod event) "POST")).
  - do 2 eexists. split; [reflexivity|]. now left.
  - unfold try_catch, processing_failed, bind, lift, ret, throw, console_log,
      console_error, do_fetch, call.
    repeat match goal with
      | |- context [fetch ?req ?w] => destruct (fetch req w); cbn
      | |- context [if ?b then _ else _] => destruct b; cbn
      | |- context [match ?o with Ok _ => _ | Thrown _ => _ end] =>
          destruct o; cbn
      end;
      do 2 eexists; (split; [reflexivity|]); cbn; auto.
Qed.

End WebhookFacts.

(** *** Reading properties *)

Lemma get_prop (v : JSValue) (name : string) :
  nullish v = false -> get v name = Ok (prop v name).
Proof.
  unfold prop. destruct v; cbn; intros H; try discriminate; reflexivity.
Qed.

Lemma get_ok_not_nullish (v x : JSValue) (name : string) :
  get v name = Ok x -> nullish v = false.
Proof.
  destruct v; cbn; intros H; try discriminate; reflexivity.
Qed.

Lemma truthy_not_nullish (v : JSValue) : truthy v = true -> nullish v = false.
Proof.
  destruct v; cbn; intros H; try discriminate; reflexivity.
Qed.

Lemma js_or_truthy (a b : JSValue) : truthy b = true -> truthy (js_or a b) = true.
Proof.
  intros H. unfold js_or. destruct (truthy a) eqn:Ha; assumption.
Qed.

Lemma get_opt_prop (v : JSValue) (name : string) :
  get_opt v name = Ok (if nullish v then JUndefined else prop v name).
Proof.
  unfold get_opt. destruct (nullish v) eqn:H; [reflexivity | now apply get_prop].
Qed.

Lemma or_else_prop (a v : JSValue) (name : string) :
  nullish v = false -> or_else a (get v name) = Ok (js_or a (prop v name)).
Proof.
  intros H. unfold or_else, js_or. rewrite (get_prop v name H).
  destruct (truthy a); reflexivity.
Qed.

Lemma append_empty (s : string) : s ++ "" = s.
Proof.
  induction s as [|c s IH]; cbn; [reflexivity | now rewrite IH].
Qed.

(** *** The items of a shipment (variants 2 and 3) *)

Lemma item_line_plain (item : JSValue) :
  plain_item item = true -> item_line item = Ok (listed_line item).
Proof.
  destruct item as [| | | | | |l|props]; cbn; try discriminate.
  unfold item_line, listed_line, listed, listed_name, quantity, prop, get,
    js_or, truthy.
  destruct (assoc "quantity" props) as [[| | |q| | | |]|];
    cbn; try discriminate;
    destruct (assoc "order_item_name" props) as [[| | | | |n| |]|];
    cbn; try discriminate; intros _;
    try (destruct (q =? 0); cbn);
    try (destruct (String.eqb n ""); cbn);
    now rewrite ?append_empty.
Qed.

Lemma count_step_plain (item : JSValue) (sum : Z) :
  plain_item item = true ->
  count_step (JNumber sum) item = Ok (JNumber (sum + counted item)).
Proof.
  destruct item as [| | | | | |l|props]; cbn; try discriminate.
  unfold count_step, counted, quantity, prop, get.
  destruct (assoc "quantity" props) as [[| | |q| | | |]|];
    cbn; try discriminate; intros _.
  - unfold js_or. cbn. destruct (q =? 0) eqn:Hq; cbn.
    + apply Z.eqb_eq in Hq. subst q. reflexivity.
    + reflexivity.
  - reflexivity.
Qed.

Lemma lines_plain (l : list JSValue) :
  forallb plain_item l = true ->
  Pure.mapM item_line l = Ok (map listed_line l).
Proof.
  induction l as [|item l IH]; cbn; [reflexivity|].
  intros H. apply andb_true_iff in H as [Hi Hl].
  rewrite (item_line_plain item Hi). cbn. rewrite (IH Hl). reflexivity.
Qed.

Lemma count_plain (l : list JSValue) (sum : Z) :
  forallb plain_item l = true ->
  Pure.foldM count_step l (JNumber sum)
  = Ok (JNumber (sum + sum_Z (map counted l))).
Proof.
  revert sum. induction l as [|item l IH]; cbn; intros sum H.
  - now rewrite Z.add_0_r.
  - apply andb_true_iff in H as [Hi Hl].
    rewrite (count_step_plain item sum Hi). cbn. rewrite (IH _ Hl).
    now rewrite Z.add_assoc.
Qed.

Lemma extract_items (payload data : JSValue) (l : list JSValue)
      (lines : list string) (count : JSValue) :
  get payload "data" = Ok data ->
  nullish data = false ->
  js_or (prop data "shipment_items") (JArray []) = JArray l ->
  Pure.mapM item_line l = Ok lines ->
  Pure.foldM count_step l (JNumber 0) = Ok count ->
  extract payload = Ok (extracted data (String.concat ", " lines) count).
Proof.
  intros Hdata Hnn Hitems Hlines Hcount.
  unfold extract. rewrite Hdata. cbn [Pure.bind].
  rewrite (get_prop data "order" Hnn). cbn [Pure.bind].
  assert (Ho : nullish (js_or (prop data "order") (obj [])) = false)
    by (apply truthy_not_nullish, js_or_truthy; reflexivity).
  rewrite (get_prop _ "recipient" Ho). cbn [Pure.bind].
  rewrite !get_opt_prop. cbn [Pure.bind].
  rewrite (get_prop _ "external_id" Ho). cbn [Pure.bind].
  rewrite (or_else_prop _ _ "id" Ho). cbn [Pure.bind].
  rewrite (get_prop data "tracking_number" Hnn),
    (get_prop data "tracking_url" Hnn), (get_prop data "carrier" Hnn),
    (get_prop data "shipment_items" Hnn).
  cbn [Pure.bind]. rewrite Hitems. cbn [array_method Pure.bind].
  rewrite Hlines. cbn [Pure.bind]. rewrite Hcount. reflexivity.
Qed.

Section ShipmentFacts.
Context {P : Platform}.

(** C10: for a list of shipment items as the provider sends them,
    [items_count] is the sum of the quantities with an absent quantity
    counted as 0, and [items_shipped] lists each item with its quantity, an
    absent quantity shown as 1; both fields of the subscriber built by
    variant 2 and by variant 3 carry these values.  So an item without a
    quantity is listed as '1x ...' and adds 0 to the count. *)
Theorem items_count_and_items_shipped (payload data : JSValue)
        (l : list JSValue) :
  get payload "data" = Ok data ->
  get data "shipment_items" = Ok (JArray l) ->
  forallb plain_item l = true ->
  let count := sum_Z (map counted l) in
  let shipped := String.concat ", " (map listed_line l) in
  exists s : Shipment,
    extract payload = Ok s /\
    itemsCount s = JNumber count /\
    itemsList s = shipped /\
    (forall today subscriber,
        Webhook2.subscriberData s today = Ok subscriber ->
        prop (prop subscriber "fields") "items_count" = str (string_of_Z count)
        /\ prop (prop subscriber "fields") "items_shipped" = str shipped) /\
    (forall groupId subscriber,
        Webhook3.new_subscriber s groupId = Ok subscriber
        \/ Webhook3.existing_subscriber s groupId = Ok subscriber ->
        prop (prop subscriber "fields") "items_count" = str (string_of_Z count)
        /\ prop (prop subscriber "fields") "items_shipped" = str shipped) /\
    (forall item,
        In item l -> quantity item = None ->
        counted item = 0 /\ listed_line item = "1x " ++ listed_name item).
Proof.
  intros Hdata Hitems Hplain count shipped.
  assert (Hnn : nullish data = false) by (eapply get_ok_not_nullish; eauto).
  assert (Hor : js_or (prop data "shipment_items") (JArray []) = JArray l)
    by (unfold prop; rewrite Hitems; reflexivity).
  pose proof (extract_items payload data l _ _ Hdata Hnn Hor
                (lines_plain l Hplain) (count_plain l 0 Hplain)) as Hex.
  rewrite Z.add_0_l in Hex.
  eexists. split; [exact Hex|].
  split; [reflexivity|]. split; [reflexivity|].
  split; [|split].
  - intros today subscriber. unfold Webhook2.subscriberData.
    destruct (firstname _); cbn; [|discriminate].
    destruct (lastname _); cbn; [|discriminate].
    intros [= <-]. split; reflexivity.
  - intros groupId subscriber.
    unfold Webhook3.new_subscriber, Webhook3.existing_subscriber.
    destruct (firstname _); cbn; [destruct (lastname _); cbn|].
    all: intros [H|H]; try discriminate; injection H as <-;
      split; reflexivity.
  - intros item _ Hq. unfold counted, listed_line, listed. rewrite Hq.
    split; reflexivity.
Qed.

(** How [extract] goes on a payload with [data] and plain items, if any. *)
Lemma extract_plain (payload data : JSValue) :
  get payload "data" = Ok data ->
  nullish data = false ->
  (truthy (prop data "shipment_items") = false
   \/ exists l, prop data "shipment_items" = JArray l
                /\ forallb plain_item l = true) ->
  exists list count, extract payload = Ok (extracted data list (JNumber count)).
Proof.
  intros Hdata Hnn [Hnone | (l & Hl & Hplain)].
  - exists "", 0.
    apply (extract_items payload data [] [] (JNumber 0) Hdata Hnn);
      try reflexivity.
    unfold js_or. now rewrite Hnone.
  - do 2 eexists.
    eapply (extract_items payload data l _ _ Hdata Hnn).
    + rewrite Hl. reflexivity.
    + now apply lines_plain.
    + now apply count_plain.
Qed.

(** C4, as amended: in variants 2 and 3, a POST whose payload has the type
    'shipment_sent', whose fields are read without an exception and whose
    customer e-mail is absent or empty is answered 400, and nothing is sent. *)
Theorem missing_email_is_rejected (event : Event) (payload type : JSValue)
        (s : Shipment) (st : State) :
  httpMethod event = "POST" ->
  JSON_parse (event_body event) = Ok payload ->
  get payload "type" = Ok type ->
  is_string type "shipment_sent" = true ->
  extract payload = Ok s ->
  truthy (customerEmail s) = false ->
  let rejected :=
    mkReply 400
      (JSON_stringify (obj [("error", str "No customer email in payload")])) in
  (exists st', Webhook2.handler event st = (Ok rejected, st')
               /\ trace st' = trace st) /\
  (exists st', Webhook3.handler event st = (Ok rejected, st')
               /\ trace st' = trace st).
Proof.
  intros Hpost Hparse Htype Hsent Hex Hemail rejected.
  unfold Webhook2.handler, Webhook3.handler.
  rewrite (is_post event Hpost). unfold try_catch.
  split;
    rewrite (parsed_then_logged event payload st _ Hparse);
    unfold bind at 1, lift at 1; rewrite Htype, Hsent; cbn [negb];
    unfold bind at 1, lift at 1; rewrite Hex, Hemail; cbn;
    eexists; split; reflexivity.
Qed.

End ShipmentFacts.

(** *** Variant 2, step by step *)

Section RemoveThenAdd.
Context {P : Platform}.

Lemma ToString_env (name : string) : ToString (env name) = Ok (env_text name).
Proof.
  unfold env, env_text. destruct (process_env name); reflexivity.
Qed.

Lemma bearer_text : bearer = Ok authorization.
Proof.
  unfold bearer, authorization. cbn. rewrite ToString_env. cbn.
  now rewrite append_empty.
Qed.

Lemma json_headers_text : json_headers = Ok json_request_headers.
Proof.
  unfold json_headers. rewrite bearer_text. reflexivity.
Qed.

Lemma do_fetch_run (req : Request) (st : State) :
  do_fetch req st
  = (fst (fetch req (world st)),
     mkState (snd (fetch req (world st)))
       (trace st ++ [Fetched req (fst (fetch req (world st)))]) (console st)).
Proof.
  unfold do_fetch, call. destruct (fetch req (world st)). reflexivity.
Qed.

Lemma remove_request_text (e g : string) :
  Webhook2.remove_request (JString e) (JString g) = Ok (removal e g).
Proof.
  unfold Webhook2.remove_request, encoded, removal. cbn -[bearer].
  rewrite bearer_text. cbn. now rewrite append_empty.
Qed.

Lemma update_request_text (subscriber : JSValue) :
  Webhook2.update_request subscriber = Ok (update subscriber).
Proof.
  unfold Webhook2.update_request. rewrite json_headers_text. reflexivity.
Qed.

Lemma add_request_text (e g : string) :
  Webhook2.add_request (JString e) (JString g) = Ok (addition e g).
Proof.
  unfold Webhook2.add_request, encoded. cbn -[json_headers].
  rewrite json_headers_text. reflexivity.
Qed.

Lemma js_add_countable (a b v : JSValue) : js_add a b = Ok v -> countable v = true.
Proof.
  unfold js_add. destruct (stringy a || stringy b).
  - destruct (ToString a); cbn; [|discriminate].
    destruct (ToString b); cbn; [|discriminate]. now intros [= <-].
  - destruct (ToNumber a), (ToNumber b); intros [= <-]; reflexivity.
Qed.

Lemma count_countable (l : list JSValue) (sum v : JSValue) :
  countable sum = true ->
  Pure.foldM count_step l sum = Ok v -> countable v = true.
Proof.
  revert sum. induction l as [|item l IH]; cbn; intros sum Hsum H.
  - now injection H as <-.
  - destruct (count_step sum item) as [sum'|] eqn:Hstep; cbn in H;
      [|discriminate].
    apply (IH sum'); [|assumption].
    unfold count_step in Hstep.
    destruct (get item "quantity"); cbn in Hstep; [|discriminate].
    eapply js_add_countable; eauto.
Qed.

Lemma extract_countable (payload : JSValue) (s : Shipment) :
  extract payload = Ok s -> countable (itemsCount s) = true.
Proof.
  unfold extract. intros H. bind_cases H. injection H as <-. cbn.
  eapply count_countable; [|eassumption]. reflexivity.
Qed.

Lemma toString_countable (what : string) (v : JSValue) :
  countable v = true -> exists text, method_toString what v = Ok text.
Proof.
  destruct v; cbn; try discriminate; intros _; eexists; reflexivity.
Qed.

Lemma names_split (name : JSValue) :
  nullish name = true \/ (exists n, name = JString n) ->
  exists fn ln, firstname name = Ok fn /\ lastname name = Ok ln.
Proof.
  unfold firstname, lastname. intros [H | [n ->]].
  - rewrite H. now eauto.
  - cbn. now eauto.
Qed.

Lemma subscriberData_total (payload : JSValue) (s : Shipment) (today : Z) :
  extract payload = Ok s ->
  nullish (customerName s) = true \/ (exists n, customerName s = JString n) ->
  exists subscriber, Webhook2.subscriberData s today = Ok subscriber.
Proof.
  intros Hex Hname.
  destruct (names_split _ Hname) as (fn & ln & Hfn & Hln).
  destruct (toString_countable "itemsCount" _ (extract_countable _ _ Hex))
    as [text Htext].
  unfold Webhook2.subscriberData. rewrite Hfn, Hln, Htext. cbn. now eauto.
Qed.

Lemma processing_failed_run (error : JSError) (st : State) :
  exists reply st',
    processing_failed error st = (Ok reply, st')
    /\ statusCode reply = 500 /\ trace st' = trace st.
Proof.
  unfold processing_failed, bind, console_error, ret. cbn.
  do 2 eexists. repeat split.
Qed.

Lemma step1_run (s : Shipment) (e g : string) (st : State) :
  customerEmail s = JString e ->
  exists st1,
    Webhook2.step1 s (JString g) st = (Ok tt, st1)
    /\ world st1 = snd (fetch (removal e g) (world st))
    /\ trace st1
       = (trace st ++ [Fetched (removal e g)
                         (fst (fetch (removal e g) (world st)))])%list.
Proof.
  intros Hemail. unfold Webhook2.step1, try_catch.
  unfold bind at 1, lift at 1. rewrite Hemail, remove_request_text.
  unfold bind at 1. rewrite do_fetch_run.
  destruct (fetch (removal e g) (world st)) as [[response|error] w1]; cbn;
    eexists; repeat split.
Qed.

Lemma step2_run (s : Shipment) (subscriber : JSValue) (st : State) :
  Webhook2.subscriberData s (Date_now (world st)) = Ok subscriber ->
  exists o st2,
    Webhook2.step2 s st = (o, st2)
    /\ world st2 = snd (fetch (update subscriber) (world st))
    /\ trace st2
       = (trace st ++ [Fetched (update subscriber)
                         (fst (fetch (update subscriber) (world st)))])%list
    /\ if completes (fst (fetch (update subscriber) (world st)))
       then o = Ok tt
       else exists error, o = Thrown error.
Proof.
  intros Hsub. unfold Webhook2.step2.
  unfold bind at 1, now. unfold bind at 1, lift at 1. rewrite Hsub.
  unfold bind at 1, lift at 1. rewrite update_request_text.
  unfold bind at 1. rewrite do_fetch_run.
  destruct (fetch (update subscriber) (world st)) as [[response|error] w2];
    cbn [fst snd completes].
  - destruct (ok response), (status response =? 409); cbn;
      try (do 2 eexists; repeat split; reflexivity).
    unfold bind, lift, console_error.
    destruct (text response); cbn; do 2 eexists; repeat split; eauto.
  - do 2 eexists. repeat split. eauto.
Qed.

Lemma step3_run (s : Shipment) (e g : string) (st : State) :
  customerEmail s = JString e ->
  exists o st3,
    Webhook2.step3 s (JString g) st = (o, st3)
    /\ trace st3
       = (trace st ++ [Fetched (addition e g)
                         (fst (fetch (addition e g) (world st)))])%list
    /\ if accepted (fst (fetch (addition e g) (world st)))
       then exists reply, o = Ok reply /\ statusCode reply = 200
       else exists error, o = Thrown error.
Proof.
  intros Hemail. unfold Webhook2.step3.
  unfold bind at 1, lift at 1. rewrite Hemail, add_request_text.
  unfold bind at 1. rewrite do_fetch_run.
  destruct (fetch (addition e g) (world st)) as [[response|error] w3];
    cbn [fst snd accepted].
  - destruct (ok response); cbn.
    + do 2 eexists. repeat split. eexists. split; reflexivity.
    + unfold bind, lift, console_error, throw.
      destruct (text response); cbn; do 2 eexists; repeat split; eauto.
  - do 2 eexists. repeat split. eauto.
Qed.

(** C7: on a 'shipment_sent' event with a customer e-mail and a configured
    group, variant 2 first sends the DELETE that removes the subscriber from
    the group, then the POST that creates or updates the subscriber, then
    the POST that adds the subscriber to the group.  Whatever the DELETE
    gives (a thrown error or any response) the handler goes on; when the add
    call throws or is not accepted the answer is 500, and 200 when it is
    accepted.  (The third call is not reached when the second one throws or
    its error text cannot be read: the answer is then 500 as well.) *)
Theorem remove_then_update_then_add (event : Event) (payload type : JSValue)
        (s : Shipment) (e g : string) (st : State) :
  httpMethod event = "POST" ->
  JSON_parse (event_body event) = Ok payload ->
  get payload "type" = Ok type ->
  is_string type "shipment_sent" = true ->
  extract payload = Ok s ->
  customerEmail s = JString e -> e <> "" ->
  nullish (customerName s) = true \/ (exists n, customerName s = JString n) ->
  process_env "SENDER_GROUP_ID" = Some g -> g <> "" ->
  let (r1, w1) := fetch (removal e g) (world st) in
  exists subscriber,
    Webhook2.subscriberData s (Date_now w1) = Ok subscriber /\
    let (r2, w2) := fetch (update subscriber) w1 in
    let (r3, w3) := fetch (addition e g) w2 in
    exists reply st',
      Webhook2.handler event st = (Ok reply, st') /\
      if completes r2 then
        trace st' = (trace st ++ [Fetched (removal e g) r1;
                                  Fetched (update subscriber) r2;
                                  Fetched (addition e g) r3])%list
        /\ statusCode reply = (if accepted r3 then 200 else 500)
      else
        trace st' = (trace st ++ [Fetched (removal e g) r1;
                                  Fetched (update subscriber) r2])%list
        /\ statusCode reply = 500.
Proof.
  intros Hpost Hparse Htype Hsent Hex Hemail He Hname Hgroup Hg.
  destruct (fetch (removal e g) (world st)) as [r1 w1] eqn:H1.
  destruct (subscriberData_total payload s (Date_now w1) Hex Hname)
    as [subscriber Hsub].
  exists subscriber. split; [exact Hsub|].
  destruct (fetch (update subscriber) w1) as [r2 w2] eqn:H2.
  destruct (fetch (addition e g) w2) as [r3 w3] eqn:H3.
  assert (Hte : truthy (JString e) = true)
    by (cbn; apply negb_true_iff, String.eqb_neq; exact He).
  assert (Henv : env "SENDER_GROUP_ID" = JString g)
    by (unfold env; now rewrite Hgroup).
  assert (Htg : truthy (JString g) = true)
    by (cbn; apply negb_true_iff, String.eqb_neq; exact Hg).
  unfold Webhook2.handler.
  rewrite (is_post event Hpost). unfold try_catch.
  rewrite (parsed_then_logged event payload st _ Hparse).
  unfold bind at 1, lift at 1; rewrite Htype, Hsent; cbn [negb].
  unfold bind at 1, lift at 1; rewrite Hex, Hemail, Hte, Henv, Htg; cbn [negb].
  destruct (step1_run s e g
              (mkState (world st) (trace st)
                 (console st ++ [Log [str "Received webhook:"; payload]]))
              Hemail) as (st1 & Hrun1 & Hw1 & Ht1).
  cbn [world trace] in Hw1, Ht1. rewrite H1 in Hw1, Ht1. cbn [fst snd] in *.
  unfold bind at 1. rewrite Hrun1.
  rewrite <- Hw1 in Hsub, H2.
  destruct (step2_run s subscriber st1 Hsub) as (o2 & st2 & Hrun2 & Hw2 & Ht2 & Ho2).
  rewrite H2 in Hw2, Ht2, Ho2. cbn [fst snd] in *.
  unfold bind at 1. rewrite Hrun2.
  destruct (completes r2).
  - subst o2.
    destruct (step3_run s e g st2 Hemail) as (o3 & st3 & Hrun3 & Ht3 & Ho3).
    rewrite Hw2, H3 in Ht3, Ho3. cbn [fst snd] in *.
    rewrite Hrun3.
    assert (Htrace : trace st3
                     = (trace st ++ [Fetched (removal e g) r1;
                                     Fetched (update subscriber) r2;
                                     Fetched (addition e g) r3])%list)
      by (rewrite Ht3, Ht2, Ht1, <- !app_assoc; reflexivity).
    destruct (accepted r3).
    + destruct Ho3 as (reply & -> & Hcode). exists reply, st3. now repeat split.
    + destruct Ho3 as (error & ->).
      destruct (processing_failed_run error st3) as (reply & st' & Hf & Hc & Ht).
      exists reply, st'. rewrite Hf, Ht. now repeat split.
  - destruct Ho2 as (error & ->).
    destruct (processing_failed_run error st2) as (reply & st' & Hf & Hc & Ht).
    exists reply, st'. rewrite Hf, Ht, Ht2, Ht1, <- app_assoc. now repeat split.
Qed.

End RemoveThenAdd.

(** ** The bulk-index endpoint *)

Section SolrFacts.
Context {P : Platform}.

Lemma update_url_text : Solr.update_url = Ok solr_update_url.
Proof.
  unfold Solr.update_url, solr_update_url. cbn.
  rewrite !ToString_env. cbn. reflexivity.
Qed.

(** C8: the endpoint makes one outbound call, a POST to the update URL of
    the search index; it answers 'Indexed' when the call succeeds and status
    500 with the error's message when the call throws.  But the data of the
    call is not what the caller posted: no body parser is installed, the
    request body is [undefined] for every request, and that is what is
    forwarded. *)
Theorem bulk_index_posts_no_body (req : Solr.Req) (st : State) :
  let hs := [("Content-Type", "application/json")] in
  let (r, w) := axios_post solr_update_url JUndefined hs (world st) in
  exists st',
    Solr.post_api_index req st
    = (Ok (match r with
           | Ok _ => Solr.mkSent 200 "Indexed"
           | Thrown err => Solr.mkSent 500 (message err)
           end), st')
    /\ trace st'
       = (trace st ++ [AxiosPosted solr_update_url JUndefined hs r])%list.
Proof.
  intros hs.
  destruct (axios_post solr_update_url JUndefined hs (world st)) as [r w] eqn:H.
  unfold Solr.post_api_index, Solr.req_body, try_catch, bind, lift,
    do_axios_post, call.
  rewrite update_url_text. fold hs. rewrite H.
  destruct r; cbn; eexists; split; reflexivity.
Qed.

End SolrFacts.

(** ** The polling job *)

(** *** The 24-hour filter *)

Lemma Date_getTime_scalar (parse : string -> option Z) (date : JSValue) :
  scalar date = true -> Date_getTime parse date = Ok (time_value parse date).
Proof.
  destruct date as [| |b|t| |s|l|props]; cbn; try discriminate; intros _;
    try reflexivity.
  destruct b; reflexivity.
Qed.

Lemma shipped_since_provider (parse : string -> option Z) (current : Z)
      (order : JSValue) :
  provider_order order = true ->
  Polling.shipped_since parse (current - 24 * 60 * 60 * 1000) order
  = Ok (shipped_in_last_24_hours parse current order).
Proof.
  destruct order as [| | | | | |l|props]; cbn [provider_order];
    try discriminate.
  intros H. apply andb_true_iff in H as [Hupdated Hshipments].
  set (order := JObject props) in *.
  assert (Hnn : nullish order = false) by reflexivity.
  unfold Polling.shipped_since, shipped_in_last_24_hours.
  rewrite (get_prop order "shipments" Hnn). cbn [Pure.bind].
  destruct (prop order "shipments") as [| | | | | |shipments|];
    try discriminate; try reflexivity.
  cbn [truthy negb get]. cbn [Pure.bind].
  destruct shipments as [|shipment rest]; [reflexivity|].
  replace (is_number _ 0) with false
    by (cbn [is_number List.length]; symmetry; apply Z.eqb_neq; lia).
  cbn [first Pure.bind].
  cbn [forallb] in Hshipments. apply andb_true_iff in Hshipments as [Hs _].
  destruct shipment as [| | | | | | |sprops]; try discriminate.
  set (shipment := JObject sprops) in *.
  rewrite (get_prop shipment "shipped_at") by reflexivity. cbn [Pure.bind].
  rewrite (or_else_prop _ order "updated" Hnn). cbn [Pure.bind].
  unfold js_or. cbn [provider_shipment] in Hs.
  rewrite Date_getTime_scalar
    by (destruct (truthy (prop shipment "shipped_at")); assumption).
  cbn [Pure.bind].
  destruct (time_value parse _); [|reflexivity].
  now rewrite Z.gtb_ltb.
Qed.

Lemma filter_provider (parse : string -> option Z) (current : Z)
      (l : list JSValue) :
  forallb provider_order l = true ->
  Pure.filterM (Polling.shipped_since parse (current - 24 * 60 * 60 * 1000)) l
  = Ok (filter (shipped_in_last_24_hours parse current) l).
Proof.
  induction l as [|order l IH]; cbn [forallb Pure.filterM filter];
    [reflexivity|].
  intros H. apply andb_true_iff in H as [Ho Hl].
  rewrite (shipped_since_provider parse current order Ho). cbn [Pure.bind].
  rewrite (IH Hl). cbn [Pure.bind].
  destruct (shipped_in_last_24_hours parse current order); reflexivity.
Qed.

Section PollingFacts.
Context {P : Platform}.

Import Polling.

Lemma api_headers_text (key : string) :
  api_headers (JString key)
  = Ok [("Authorization", "Bearer " ++ key);
        ("Content-Type", "application/json")].
Proof.
  unfold api_headers. cbn. now rewrite append_empty.
Qed.

(** [fetchRecentShippedOrders] never throws. *)
Lemma fetchRecentShippedOrders_returns (apiKey : JSValue) (st : State) :
  exists orders st1, fetchRecentShippedOrders apiKey st = (Ok orders, st1).
Proof.
  unfold fetchRecentShippedOrders, try_catch.
  destruct (list_recent_orders apiKey st) as [[orders|error] st1];
    do 2 eexists; reflexivity.
Qed.

Lemma fetchRecentShippedOrders_calls (key : string) (st : State) :
  exists orders st1 r,
    fetchRecentShippedOrders (JString key) st = (Ok orders, st1)
    /\ trace st1 = (trace st ++ [Fetched (orders_request key) r])%list.
Proof.
  unfold fetchRecentShippedOrders, try_catch, list_recent_orders.
  unfold bind at 1, lift at 1. rewrite api_headers_text.
  unfold bind at 1. rewrite do_fetch_run. fold (orders_request key).
  destruct (fetch (orders_request key) (world st)) as [[response|error] w];
    cbn [fst snd].
  - match goal with
    | |- context [let (o, st') := ?m ?s in _] =>
        destruct (m s) as [[l|e] st1] eqn:Hrun
    end.
    + exists l, st1, (Ok response). split; [reflexivity|].
      revert Hrun. unfold bind, lift, ret, console_error, now.
      run_cases; settle.
    + cbn. do 3 eexists. split; [reflexivity|]. cbn.
      revert Hrun. unfold bind, lift, ret, console_error, now.
      run_cases; settle.
  - cbn. do 3 eexists. split; reflexivity.
Qed.

(** C2: [fetchRecentShippedOrders] always returns a list.  When the
    provider answers with a list of orders, the result holds exactly the
    orders of that list that have a non-empty shipments array whose first
    shipment's timestamp ([shipped_at], else the order's [updated]) is
    strictly later than 24 hours before the current time, in the order of
    the list.  When the provider answers with an error status, when the call
    or the reading of its body throws, and whenever the [try] block throws,
    the result is the empty list. *)
Theorem recent_orders_are_filtered (key : string) (st : State) :
  let (r, w) := fetch (orders_request key) (world st) in
  exists orders st',
    fetchRecentShippedOrders (JString key) st = (Ok orders, st')
    /\ trace st' = (trace st ++ [Fetched (orders_request key) r])%list
    /\ world st' = w
    /\ (forall error st1,
           list_recent_orders (JString key) st = (Thrown error, st1) ->
           orders = [])
    /\ match r with
       | Thrown _ => orders = []
       | Ok response =>
           if ok response then
             match json response with
             | Thrown _ => orders = []
             | Ok data =>
                 forall l,
                   get data "result" = Ok (JArray l) ->
                   forallb provider_order l = true ->
                   orders
                   = filter (shipped_in_last_24_hours Date_parse (Date_now w)) l
             end
           else orders = []
       end.
Proof.
  destruct (fetch (orders_request key) (world st)) as [r w] eqn:Hfetch.
  unfold fetchRecentShippedOrders, try_catch.
  assert (Hshape :
    exists o st1,
      list_recent_orders (JString key) st = (o, st1)
      /\ trace st1 = (trace st ++ [Fetched (orders_request key) r])%list
      /\ world st1 = w
      /\ match r with
         | Thrown _ => exists error, o = Thrown error
         | Ok response =>
             if ok response then
               match json response with
               | Thrown _ => exists error, o = Thrown error
               | Ok data =>
                   forall l,
                     get data "result" = Ok (JArray l) ->
                     forallb provider_order l = true ->
                     o = Ok (filter (shipped_in_last_24_hours Date_parse
                                       (Date_now w)) l)
               end
             else o = Ok []
         end).
  { unfold list_recent_orders.
    unfold bind at 1, lift at 1. rewrite api_headers_text.
    unfold bind at 1. rewrite do_fetch_run. fold (orders_request key).
    rewrite Hfetch. cbn [fst snd].
    destruct r as [response|error]; [|do 2 eexists; repeat split; eauto].
    destruct (ok response); cbn [negb].
    - unfold bind at 1, lift at 1.
      destruct (json response) as [data|error];
        [|do 2 eexists; repeat split; eauto].
      unfold bind at 1, lift at 1.
      destruct (get data "result") as [result|error] eqn:Hresult.
      + unfold bind at 1, now. cbn [world].
        unfold bind, lift.
        destruct (array_method "orders" "filter" (js_or result (JArray [])))
          as [l'|error] eqn:Hl'.
        * do 2 eexists. repeat split.
          intros l [= ->] Hl. cbn in Hl'. injection Hl' as <-.
          now rewrite filter_provider.
        * do 2 eexists. repeat split. intros l [= ->]. discriminate.
      + do 2 eexists. repeat split. discriminate.
    - cbn. do 2 eexists. repeat split. }
  destruct Hshape as (o & st1 & Hrun & Htrace & Hworld & Hr).
  rewrite Hrun.
  destruct o as [orders|error].
  - exists orders, st1. repeat split; try assumption.
    + intros error st2 [=].
    + destruct r as [response|]; [|destruct Hr; discriminate].
      destruct (ok response); [|now injection Hr].
      destruct (json response); [|destruct Hr; discriminate].
      intros l H1 H2. specialize (Hr l H1 H2). now injection Hr.
  - cbn. do 2 eexists. split; [reflexivity|]. cbn. repeat split; try assumption.
    destruct r as [response|]; [|reflexivity].
    destruct (ok response); [|discriminate].
    destruct (json response); [|reflexivity].
    intros l H1 H2. specialize (Hr l H1 H2). discriminate.
Qed.

(** *** One order of the loop *)

Lemma quiet_nil : quiet [].
Proof. split; reflexivity. Qed.

Lemma quiet_app (a b : list Exchange) : quiet a -> quiet b -> quiet (a ++ b).
Proof.
  intros [Ha1 Ha2] [Hb1 Hb2]. unfold quiet.
  now rewrite !existsb_app, Ha1, Ha2, Hb1, Hb2.
Qed.

Lemma checkIfEmailSent_run (id : JSValue) (st : State) :
  exists st1,
    checkIfEmailSent id st
    = (Ok (match fst (blob_get store_name id (world st)) with
           | Ok v => is_string v "sent"
           | Thrown _ => false
           end), st1)
    /\ world st1 = snd (blob_get store_name id (world st))
    /\ trace st1
       = (trace st ++ [BlobGot store_name id
                         (fst (blob_get store_name id (world st)))])%list.
Proof.
  unfold checkIfEmailSent, try_catch, bind, store_get, call.
  destruct (blob_get store_name id (world st)) as [[v|error] w]; cbn;
    eexists; repeat split.
Qed.

Lemma markEmailAsSent_run (id : JSValue) (st : State) :
  exists st1,
    markEmailAsSent id st = (Ok tt, st1)
    /\ trace st1
       = (trace st ++ [BlobSet store_name id (str "sent")
                         (fst (blob_set store_name id (str "sent")
                                 (world st)))])%list.
Proof.
  unfold markEmailAsSent, try_catch, store_set, call.
  destruct (blob_set store_name id (str "sent") (world st)) as [[[]|error] w];
    cbn; eexists; repeat split.
Qed.

Lemma log_order_run (before after : string) (order : JSValue)
      (rest : list JSValue) (as_error : bool) (st : State) :
  exists o st1,
    log_order before order after rest as_error st = (o, st1)
    /\ trace st1 = trace st /\ world st1 = world st
    /\ (loggable order = true -> o = Ok tt).
Proof.
  unfold log_order, loggable, bind, lift. cbn.
  destruct (get order "id") as [id|error]; cbn.
  - destruct (ToString id) as [text|error]; cbn.
    + destruct as_error; cbn; do 2 eexists; repeat split.
    + do 2 eexists. repeat split. discriminate.
  - do 2 eexists. repeat split. discriminate.
Qed.

Lemma detail_is_no_send (text : string) :
  String.eqb ("https://api.printful.com/orders/" ++ text) send_url = false.
Proof. reflexivity. Qed.

Lemma getShipmentInfo_run (key : string) (id : JSValue) (st : State) :
  exists info st1 seg,
    getShipmentInfo (JString key) id st = (Ok info, st1)
    /\ trace st1 = (trace st ++ seg)%list
    /\ quiet seg
    /\ (truthy info = true -> exists text, ToString id = Ok text).
Proof.
  unfold getShipmentInfo, try_catch.
  unfold bind at 1, lift at 1. cbn [template Pure.bind].
  destruct (ToString id) as [text|error]; cbn [Pure.bind].
  2:{ cbn. exists JNull. eexists. exists []. cbn [trace].
      rewrite app_nil_r. repeat split. discriminate. }
  unfold bind at 1, lift at 1. rewrite api_headers_text.
  unfold bind at 1. rewrite do_fetch_run.
  set (req := mkRequest _ "GET" _ None None).
  assert (Hq : quiet [Fetched req (fst (fetch req (world st)))]).
  { split; [|reflexivity]. cbn [existsb is_send url req].
    rewrite append_empty, detail_is_no_send. reflexivity. }
  destruct (fetch req (world st)) as [[response|error] w]; cbn [fst snd].
  2:{ cbn. exists JNull. do 2 eexists. repeat split; eauto; discriminate. }
  destruct (ok response); cbn [negb].
  2:{ cbn. exists JNull. do 2 eexists. repeat split; eauto; discriminate. }
  match goal with
  | |- context [let (o, st') := ?m ?s in _] =>
      destruct (m s) as [[info|error] st1] eqn:Hrun
  end.
  - exists info, st1, [Fetched req (Ok response)].
    assert (Htrace : trace st1
                     = (trace st ++ [Fetched req (Ok response)])%list).
    { revert Hrun. unfold bind, lift, ret. run_cases; settle. }
    repeat split; eauto.
  - exists JNull.
    assert (Htrace : trace st1
                     = (trace st ++ [Fetched req (Ok response)])%list).
    { revert Hrun. unfold bind, lift, ret. run_cases; settle. }
    cbn. do 2 eexists. repeat split; eauto; discriminate.
Qed.

Lemma bind_lift {A B} (o : Outcome A) (k : A -> M B) (st : State) :
  bind (lift o) k st
  = match o with
    | Ok a => k a st
    | Thrown error => (Thrown error, st)
    end.
Proof.
  unfold bind, lift. destruct o; reflexivity.
Qed.

Ltac lift_case :=
  rewrite bind_lift;
  lazymatch goal with
  | |- match ?o with Ok _ => _ | Thrown _ => _ end = _ -> _ =>
      destruct o; [|intros [= <- <-]; left; split; eauto]
  end.

Lemma sendShipmentEmail_run (key : string) (order info : JSValue)
      (st : State) (o : Outcome JSValue) (st1 : State) :
  sendShipmentEmail (JString key) order info st = (o, st1) ->
  ((exists error, o = Thrown error) /\ trace st1 = trace st)
  \/ (exists req r result,
         o = Ok result
         /\ trace st1 = (trace st ++ [Fetched req r])%list
         /\ url req = send_url
         /\ get result "success" = Ok (JBool (delivered r))
         /\ nullish result = false).
Proof.
  unfold sendShipmentEmail. cbv zeta.
  do 8 lift_case.
  unfold try_catch. rewrite bind_lift, api_headers_text.
  unfold bind at 1. rewrite do_fetch_run.
  match goal with
  | |- context [fetch ?q (world st)] =>
      set (req := q); destruct (fetch req (world st)) as [r w]
  end.
  cbn [fst snd]. intros H. right. exists req, r.
  destruct r as [response|error]; cbn [delivered].
  - rewrite bind_lift in H.
    destruct (json response) as [result|error].
    + destruct (ok response); cbn [andb].
      * injection H as <- <-. eexists. repeat split.
      * rewrite bind_lift in H.
        destruct (get result "message");
          injection H as <- <-; eexists; repeat split.
    + cbn in H. injection H as <- <-. eexists.
      rewrite andb_false_r. repeat split.
  - cbn in H. injection H as <- <-. eexists. repeat split.
Qed.

Lemma quiet_get (store : string) (key : JSValue) (r : Outcome JSValue) :
  quiet [BlobGot store key r].
Proof. split; reflexivity. Qed.

Lemma attempt_run (k1 k2 : string) (order : JSValue) (c : Counters)
      (st : State) (o : Outcome Counters) (st1 : State) :
  attempt (JString k1) (JString k2) order c st = (o, st1) ->
  exists seg,
    trace st1 = (trace st ++ seg)%list /\ attempt_shape order c o seg.
Proof.
  unfold attempt. rewrite bind_lift.
  destruct (get order "id") as [id|error] eqn:Hid.
  2:{ intros [= <- <-]. exists []. rewrite app_nil_r. split; [reflexivity|].
      left. split; [apply quiet_nil | eauto]. }
  unfold bind at 1.
  destruct (checkIfEmailSent_run id st) as (sta & Hcheck & _ & Hta).
  rewrite Hcheck.
  set (got := BlobGot store_name id (fst (blob_get store_name id (world st))))
    in *.
  match goal with
  | |- context [if ?b then _ else _] => destruct b
  end.
  - (* already sent *)
    unfold bind.
    destruct (log_order_run "⏭️  Skipping order " " - email already sent"
                order [] false sta) as (ol & stl & Hlog & Htl & _ & _).
    rewrite Hlog. intros H. exists [got]. rewrite <- Hta.
    destruct ol; cbn in H; injection H as <- <-;
      (split; [now rewrite ?Htl|]); left; (split; [apply quiet_get | eauto]).
  - (* not sent yet *)
    unfold notify. rewrite bind_lift, Hid. unfold bind at 1.
    destruct (getShipmentInfo_run k1 id sta)
      as (info & stb & seg1 & Hinfo & Htb & Hq1 & Hprint).
    rewrite Hinfo.
    assert (Hq : quiet (got :: seg1))
      by (apply (quiet_app [got] seg1); [apply quiet_get | exact Hq1]).
    assert (Htb' : trace stb = (trace st ++ got :: seg1)%list)
      by (rewrite Htb, Hta, <- app_assoc; reflexivity).
    destruct (truthy info) eqn:Htruthy; cbn [negb].
    + assert (Hlog : loggable order = true).
      { unfold loggable. rewrite Hid.
        destruct (Hprint eq_refl) as [text ->]. reflexivity. }
      unfold bind at 1.
      destruct (sendShipmentEmail (JString k2) order info stb)
        as [oe stc] eqn:Hsend.
      apply sendShipmentEmail_run in Hsend
        as [[[error ->] Htc]
           | (req & r & result & -> & Htc & Hurl & Hsuccess & Hnn)].
      * intros [= <- <-]. exists (got :: seg1). rewrite Htc. split; [exact Htb'|].
        left. split; eauto.
      * rewrite bind_lift, Hsuccess. cbn [truthy].
        destruct (delivered r) eqn:Hdelivered.
        -- unfold bind at 1.
           destruct (log_order_run "✅ Email sent for order " "" order [] false
                       stc) as (ol & stl & Hl & Htl & _ & Hok).
           rewrite Hl, (Hok Hlog). rewrite bind_lift. unfold bind at 1.
           destruct (markEmailAsSent_run id stl) as (stm & Hmark & Htm).
           rewrite Hmark. intros [= <- <-].
           exists ((got :: seg1)
                   ++ [Fetched req r;
                       BlobSet store_name id (str "sent")
                         (fst (blob_set store_name id (str "sent")
                                 (world stl)))])%list.
           split.
           ++ rewrite Htm, Htl, Htc, Htb', <- !app_assoc. reflexivity.
           ++ right. right. exists (got :: seg1), req, r, id. eexists.
              split; [reflexivity|]. split; [exact Hq|]. now repeat split.
        -- rewrite bind_lift, (get_prop result "error" Hnn). unfold bind at 1.
           destruct (log_order_run "❌ Failed to send email for order " ":"
                       order [prop result "error"] true stc)
             as (ol & stl & Hl & Htl & _ & Hok).
           rewrite Hl, (Hok Hlog). intros [= <- <-].
           exists ((got :: seg1) ++ [Fetched req r])%list.
           split.
           ++ rewrite Htl, Htc, Htb', <- !app_assoc. reflexivity.
           ++ right. left. exists (got :: seg1), req, r.
              split; [reflexivity|]. split; [exact Hq|]. now repeat split.
    + unfold bind.
      destruct (log_order_run "⚠️  No shipment info for order " "" order []
                  false stb) as (ol & stl & Hlog & Htl & _ & _).
      rewrite Hlog. intros H. exists (got :: seg1). rewrite <- Htb'.
      destruct ol; cbn in H; injection H as <- <-;
        (split; [now rewrite ?Htl|]); left; (split; eauto).
Qed.

Lemma on_error_run (order : JSValue) (c : Counters) (error : JSError)
      (st : State) :
  exists o st1,
    on_error order c error st = (o, st1)
    /\ trace st1 = trace st
    /\ (loggable order = true -> o = Ok (failed_one c)).
Proof.
  unfold on_error, bind.
  destruct (log_order_run "❌ Error processing order " ":" order
              [str (message error)] true st) as (ol & stl & Hl & Htl & _ & Hok).
  rewrite Hl. destruct ol; cbn; do 2 eexists; repeat split; eauto.
  intros H. now specialize (Hok H).
Qed.

(** C1: the loop reads the flag of the order's id.  When the store answers
    'sent', the iteration makes no further call, so no e-mail is sent, the
    counters are unchanged and the loop goes on with the next order.  When
    the read throws, [checkIfEmailSent] returns [false], and the iteration
    continues exactly as it does when the store holds no 'sent' flag: with
    the fetching of the shipment and the sending of the e-mail. *)
Theorem sent_orders_are_skipped (printfulApiKey senderApiKey order id : JSValue)
        (c : Counters) (rest : list JSValue) (st : State) :
  get order "id" = Ok id ->
  loggable order = true ->
  let (r, w) := blob_get store_name id (world st) in
  let alreadySent :=
    match r with
    | Ok sent => is_string sent "sent"
    | Thrown _ => false
    end in
  exists st1,
    checkIfEmailSent id st = (Ok alreadySent, st1)
    /\ world st1 = w
    /\ trace st1 = (trace st ++ [BlobGot store_name id r])%list
    /\ if alreadySent then
         exists st',
           iteration printfulApiKey senderApiKey order c st = (Ok c, st')
           /\ trace st' = trace st1
           /\ for_of printfulApiKey senderApiKey (order :: rest) c st
              = for_of printfulApiKey senderApiKey rest c st'
       else
         iteration printfulApiKey senderApiKey order c st
         = try_catch (notify printfulApiKey senderApiKey order c)
             (on_error order c) st1.
Proof.
  intros Hid Hlog.
  destruct (checkIfEmailSent_run id st) as (st1 & Hcheck & Hw & Ht).
  destruct (blob_get store_name id (world st)) as [r w]. cbn [fst snd] in *.
  cbv zeta. exists st1.
  split; [exact Hcheck|]. split; [exact Hw|]. split; [exact Ht|].
  assert (Hstart :
    iteration printfulApiKey senderApiKey order c st
    = try_catch
        (if match r with
            | Ok sent => is_string sent "sent"
            | Thrown _ => false
            end
         then
           log_order "⏭️  Skipping order " order " - email already sent" []
             false ;;
           ret c
         else notify printfulApiKey senderApiKey order c)
        (on_error order c) st1).
  { unfold iteration, try_catch, attempt. rewrite bind_lift, Hid.
    unfold bind at 1. rewrite Hcheck. reflexivity. }
  rewrite Hstart.
  match goal with
  | |- if ?b then _ else _ => destruct b
  end; [|reflexivity].
  destruct (log_order_run "⏭️  Skipping order " " - email already sent"
              order [] false st1) as (ol & stl & Hl & Htl & _ & Hok).
  rewrite (Hok Hlog) in Hl.
  assert (Hskip :
    try_catch
      (log_order "⏭️  Skipping order " order " - email already sent" []
         false ;; ret c) (on_error order c) st1 = (Ok c, stl))
    by (unfold try_catch, bind; rewrite Hl; reflexivity).
  exists stl. split; [exact Hskip|]. split; [exact Htl|].
  unfold for_of at 1; fold for_of. unfold bind at 1.
  rewrite Hstart, Hskip. reflexivity.
Qed.

Lemma last_mark (l : list Exchange) (b x : Exchange)
      (before after : list Exchange) :
  existsb is_mark l = false -> is_mark x = true ->
  (l ++ [b])%list = (before ++ x :: after)%list ->
  after = [] /\ before = l /\ x = b.
Proof.
  revert before. induction l as [|a l IH]; intros before Hl Hx H.
  - destruct before as [|a' before]; cbn in H.
    + injection H as <- <-. now repeat split.
    + injection H as _ H. now destruct before.
  - cbn in Hl. apply orb_false_iff in Hl as [Ha Hl].
    destruct before as [|a' before]; cbn in H.
    + injection H as <- _. congruence.
    + injection H as <- H. destruct (IH before Hl Hx H) as (-> & -> & ->).
      now repeat split.
Qed.

Lemma iteration_run (k1 k2 : string) (order : JSValue) (c : Counters)
      (st : State) :
  exists o st1 oa seg,
    iteration (JString k1) (JString k2) order c st = (o, st1)
    /\ fst (attempt (JString k1) (JString k2) order c st) = oa
    /\ trace st1 = (trace st ++ seg)%list
    /\ attempt_shape order c oa seg
    /\ match oa with
       | Ok c' => o = Ok c'
       | Thrown _ => loggable order = true -> o = Ok (failed_one c)
       end.
Proof.
  unfold iteration, try_catch.
  destruct (attempt (JString k1) (JString k2) order c st) as [oa sta] eqn:Hrun.
  destruct (attempt_run _ _ _ _ _ _ _ Hrun) as (seg & Hta & Hshape).
  destruct oa as [c'|error].
  - exists (Ok c'), sta, (Ok c'), seg. now repeat split.
  - destruct (on_error_run order c error sta) as (o & st1 & Herr & Ht1 & Hok).
    exists o, st1, (Thrown error), seg. rewrite Herr, Ht1. now repeat split.
Qed.

Lemma flags_nil : flags_follow_sends [].
Proof.
  intros before x after H. now destruct before.
Qed.

Lemma flags_none (seg : list Exchange) :
  existsb is_mark seg = false -> flags_follow_sends seg.
Proof.
  intros Hmark before x after -> Hx. exfalso.
  rewrite existsb_app in Hmark. cbn in Hmark. rewrite Hx in Hmark.
  now rewrite orb_true_r in Hmark.
Qed.

Lemma flags_app (a b : list Exchange) :
  flags_follow_sends a -> flags_follow_sends b -> flags_follow_sends (a ++ b).
Proof.
  intros Ha Hb before x after H Hx.
  apply app_eq_app in H as [l [[-> H] | [-> H]]].
  - destruct l as [|y l]; cbn in H.
    + destruct (Hb [] x after (eq_sym H) Hx) as (calls & req & r & Hnil & _).
      now destruct calls.
    + injection H as <- ->. apply (Ha before x l eq_refl Hx).
  - destruct (Hb l x after H Hx) as (calls & req & r & -> & Hurl & Hdel).
    exists (a ++ calls)%list, req, r. rewrite app_assoc. now repeat split.
Qed.

Lemma flags_shape (order : JSValue) (c : Counters) (o : Outcome Counters)
      (seg : list Exchange) :
  attempt_shape order c o seg -> flags_follow_sends seg.
Proof.
  intros [[Hq _]
         | [(q & req & r & -> & Hq & _)
           | (q & req & r & id & res & -> & Hq & Hurl & Hdel & _)]].
  - apply flags_none, Hq.
  - apply flags_app; apply flags_none; [apply Hq | reflexivity].
  - intros before x after H Hx.
    change (q ++ [Fetched req r; BlobSet store_name id (str "sent") res])%list
      with (q ++ [Fetched req r] ++ [BlobSet store_name id (str "sent") res])%list
      in H.
    rewrite app_assoc in H.
    assert (Hnone : existsb is_mark (q ++ [Fetched req r]) = false)
      by (destruct Hq as [_ Hm]; rewrite existsb_app, Hm; reflexivity).
    destruct (last_mark _ _ x before after Hnone Hx H) as (_ & -> & _).
    exists q, req, r. now repeat split.
Qed.

Lemma for_of_flags (k1 k2 : string) (orders : list JSValue) (c : Counters)
      (st : State) :
  exists seg,
    trace (snd (for_of (JString k1) (JString k2) orders c st))
    = (trace st ++ seg)%list
    /\ flags_follow_sends seg.
Proof.
  revert c st. induction orders as [|order rest IH]; intros c st.
  - exists []. cbn. rewrite app_nil_r. split; [reflexivity | apply flags_nil].
  - cbn [for_of]. unfold bind at 1.
    destruct (iteration_run k1 k2 order c st)
      as (o & st1 & oa & seg1 & Hrun & _ & Ht1 & Hshape & _).
    rewrite Hrun. apply flags_shape in Hshape.
    destruct o as [c'|error].
    + destruct (IH c' st1) as (seg2 & Ht2 & Hflags).
      exists (seg1 ++ seg2)%list. rewrite Ht2, Ht1, app_assoc.
      split; [reflexivity | now apply flags_app].
    + exists seg1. cbn [snd]. now split.
Qed.

(** C9: in an iteration of the loop, a sent-flag is written only as the
    call that directly follows a send of the shipment e-mail that reported
    success (an [ok] response whose body reads as JSON); it is then the last
    call of the iteration, and its key is the id of the iteration's order.
    When the send fails or throws, no flag is written in the iteration.
    So, in the calls of a whole run of the job, every writing of a flag
    directly follows a send that reported success. *)
Theorem flag_only_after_successful_send (k1 k2 : string) (order : JSValue)
        (c : Counters) (st : State) :
  (exists seg,
      trace (snd (iteration (JString k1) (JString k2) order c st))
      = (trace st ++ seg)%list
      /\ (forall before x after,
            seg = (before ++ x :: after)%list -> is_mark x = true ->
            after = []
            /\ exists calls req r id res,
                 before = (calls ++ [Fetched req r])%list
                 /\ url req = send_url /\ delivered r = true
                 /\ get order "id" = Ok id
                 /\ x = BlobSet store_name id (str "sent") res)
      /\ (forall req r,
            In (Fetched req r) seg -> url req = send_url ->
            delivered r = false -> existsb is_mark seg = false))
  /\ (exists calls,
        trace (snd (handler st)) = (trace st ++ calls)%list
        /\ flags_follow_sends calls).
Proof.
  split.
  - destruct (iteration_run k1 k2 order c st)
      as (o & st1 & oa & seg & Hrun & _ & Ht & Hshape & _).
    rewrite Hrun. cbn [snd]. exists seg. split; [exact Ht|].
    destruct Hshape
      as [[[Hsend Hmark] _]
         | [(q & req & r & -> & [Hqs Hqm] & Hurl & Hdel & _)
           | (q & req & r & id & res & -> & [Hqs Hqm] & Hurl & Hdel & Hid & _)]].
    + split; [|now intros].
      intros before x after -> Hx. exfalso.
      rewrite existsb_app in Hmark. cbn in Hmark. rewrite Hx in Hmark.
      now rewrite orb_true_r in Hmark.
    + split.
      * intros before x after H Hx.
        destruct (last_mark q _ x before after Hqm Hx H) as (_ & _ & ->).
        discriminate.
      * intros _ _ _ _ _. rewrite existsb_app, Hqm. reflexivity.
    + split.
      * intros before x after H Hx.
        change (q ++ [Fetched req r; BlobSet store_name id (str "sent") res])%list
          with (q ++ [Fetched req r]
                  ++ [BlobSet store_name id (str "sent") res])%list in H.
        rewrite app_assoc in H.
        assert (Hnone : existsb is_mark (q ++ [Fetched req r]) = false)
          by (rewrite existsb_app, Hqm; reflexivity).
        destruct (last_mark _ _ x before after Hnone Hx H) as (-> & -> & ->).
        split; [reflexivity|]. exists q, req, r, id, res. now repeat split.
      * intros req' r' Hin Hurl' Hdel'. exfalso.
        apply in_app_or in Hin as [Hin | [Hin | [Hin | []]]].
        -- assert (existsb is_send q = true); [|congruence].
           apply existsb_exists. exists (Fetched req' r'). split; [exact Hin|].
           cbn. rewrite Hurl'. apply String.eqb_refl.
        -- injection Hin as <- <-. congruence.
        -- discriminate.
  - unfold handler. unfold bind at 1, console_log at 1. unfold try_catch.
    unfold env.
    destruct (process_env "PRINTFUL_API_KEY") as [key1|];
      [|exists []; cbn; rewrite app_nil_r; split;
        [reflexivity | apply flags_nil]].
    destruct (process_env "SENDER_API_KEY") as [key2|];
      [|exists []; cbn; rewrite orb_true_r; cbn; rewrite app_nil_r; split;
        [reflexivity | apply flags_nil]].
    destruct (negb (truthy (JString key1)) || negb (truthy (JString key2)));
      [exists []; cbn; rewrite app_nil_r; split;
       [reflexivity | apply flags_nil]|].
    unfold bind at 1.
    match goal with
    | |- context [fetchRecentShippedOrders _ ?s] =>
        destruct (fetchRecentShippedOrders_calls key1 s)
          as (orders & st1 & r & Hfetch & Ht1)
    end.
    rewrite Hfetch. cbn [trace] in Ht1.
    unfold bind at 1, console_log at 1. unfold bind at 1.
    match goal with
    | |- context [for_of _ _ orders _ ?s] =>
        destruct (for_of_flags key1 key2 orders (mkCounters 0 0) s)
          as (seg & Ht2 & Hflags);
        destruct (for_of (JString key1) (JString key2) orders
                    (mkCounters 0 0) s) as [[c2|error] st2]
    end;
      unfold bind, ret, console_error; cbn [snd trace] in *;
      exists ([Fetched (orders_request key1) r] ++ seg)%list;
      (split; [rewrite Ht2, Ht1, <- app_assoc; reflexivity|]);
      (apply flags_app; [|exact Hflags]);
      apply flags_none; reflexivity.
Qed.

(** *** The whole run *)

Lemma count_cons {A} (p : A -> bool) (x : A) (l : list A) :
  count p (x :: l) = (if p x then 1 else 0) + count p l.
Proof.
  unfold count. cbn [filter]. destruct (p x); cbn [List.length]; lia.
Qed.

Lemma skipn_exact {A} (l seg : list A) : skipn (List.length l) (l ++ seg) = seg.
Proof.
  induction l as [|x l IH]; [reflexivity | exact IH].
Qed.

Lemma quiet_no_send (seg : list Exchange) :
  quiet seg -> existsb sent_ok seg = false /\ existsb sent_badly seg = false.
Proof.
  intros [Hsend _]. induction seg as [|x seg IH]; [now split|].
  cbn in Hsend. apply orb_false_iff in Hsend as [Hx Hseg].
  destruct (IH Hseg) as [IH1 IH2]. cbn [existsb]. rewrite IH1, IH2.
  destruct x; cbn in *; try (now split).
  rewrite Hx. now split.
Qed.

Lemma iteration_counts (k1 k2 : string) (order : JSValue) (c : Counters)
      (st : State) :
  loggable order = true ->
  exists c' st',
    iteration (JString k1) (JString k2) order c st = (Ok c', st')
    /\ let rd := mkRound order st
                   (throws (fst (attempt (JString k1) (JString k2) order c st)))
                   st' in
       emailsSent c' = emailsSent c + (if emailed rd then 1 else 0)
       /\ errors c' = errors c + (if troubled rd then 1 else 0).
Proof.
  intros Hlog.
  destruct (iteration_run k1 k2 order c st)
    as (o & st1 & oa & seg & Hrun & Hoa & Ht & Hshape & Ho).
  rewrite Hoa.
  assert (Hcalls : forall b, calls_of (mkRound order st b st1) = seg)
    by (intros b; unfold calls_of; cbn; rewrite Ht; apply skipn_exact).
  unfold emailed, troubled. cbv zeta. cbn [raised].
  destruct Hshape
    as [[Hq [-> | [error ->]]]
       | [(q & req & r & -> & Hq & Hurl & Hdel & ->)
         | (q & req & r & id & res & -> & Hq & Hurl & Hdel & Hid & ->)]];
    cbn [throws] in *; try specialize (Ho Hlog); subst o;
    eexists; exists st1; (split; [exact Hrun|]);
    rewrite !Hcalls; try rewrite !existsb_app;
    destruct (quiet_no_send _ Hq) as [-> ->];
    cbn [existsb sent_ok sent_badly orb];
    rewrite ?Hurl, ?Hdel; cbn; lia.
Qed.

Lemma rounds_run (k1 k2 : string) (orders : list JSValue) (c : Counters)
      (st : State) :
  forallb loggable orders = true ->
  let rs := rounds (JString k1) (JString k2) orders c st in
  exists c' st',
    for_of (JString k1) (JString k2) orders c st = (Ok c', st')
    /\ map round_order rs = orders
    /\ emailsSent c' = emailsSent c + count emailed rs
    /\ errors c' = errors c + count troubled rs.
Proof.
  revert c st. induction orders as [|order rest IH]; intros c st Hlog.
  - cbn. exists c, st. unfold count. cbn. repeat split; lia.
  - cbn [forallb] in Hlog. apply andb_true_iff in Hlog as [Ho Hrest].
    destruct (iteration_counts k1 k2 order c st Ho)
      as (c1 & st1 & Hrun & Hsent & Herr).
    cbn [rounds for_of]. unfold bind at 1. rewrite Hrun.
    destruct (IH c1 st1 Hrest) as (c2 & st2 & Hloop & Hmap & Hs2 & He2).
    exists c2, st2. cbv zeta. rewrite !count_cons. cbn [map round_order].
    repeat split; [exact Hloop | now rewrite Hmap | lia | lia].
Qed.

(** C3: when both API keys are set, the order list is fetched (the fetch
    itself never throws) and, the ids of the orders being printable, the
    loop makes one round for every order of the list, whatever happens in
    the rounds before it: a round whose processing throws is counted as an
    error and the loop goes on.  The handler answers 200 with a body in
    which [ordersFound] is the number of filtered orders, [emailsSent] the
    number of rounds with a successful send and [errors] the number of
    rounds whose send failed or whose processing threw. *)
Theorem every_order_is_processed_and_counted (k1 k2 : string) (st : State) :
  process_env "PRINTFUL_API_KEY" = Some k1 -> k1 <> "" ->
  process_env "SENDER_API_KEY" = Some k2 -> k2 <> "" ->
  exists orders st1,
    fetchRecentShippedOrders (JString k1)
      (logged st [str "🔍 Checking Printful for shipped orders..."])
    = (Ok orders, st1)
    /\ (forallb loggable orders = true ->
        let found :=
          str ("📦 Found " ++ string_of_Z (Z.of_nat (List.length orders))
               ++ " shipped orders") in
        let rs := rounds (JString k1) (JString k2) orders (mkCounters 0 0)
                    (logged st1 [found]) in
        map round_order rs = orders
        /\ exists st',
            handler st
            = (Ok (mkReply 200
                     (JSON_stringify
                        (obj [("message", str "Check completed");
                              ("ordersFound",
                               JNumber (Z.of_nat (List.length orders)));
                              ("emailsSent", JNumber (count emailed rs));
                              ("errors", JNumber (count troubled rs))]))),
               st')).
Proof.
  intros Hk1 Hn1 Hk2 Hn2.
  set (st0 := logged st [str "🔍 Checking Printful for shipped orders..."]).
  destruct (fetchRecentShippedOrders_returns (JString k1) st0)
    as (orders & st1 & Hfetch).
  exists orders, st1. split; [exact Hfetch|].
  intros Hlog found rs.
  destruct (rounds_run k1 k2 orders (mkCounters 0 0) (logged st1 [found]) Hlog)
    as (c & st2 & Hloop & Hmap & Hsent & Herr).
  fold rs in Hmap, Hsent, Herr. cbn [emailsSent errors] in Hsent, Herr.
  rewrite Z.add_0_l in Hsent, Herr.
  split; [exact Hmap|].
  exists st2.
  unfold handler. unfold bind at 1, console_log at 1. fold (logged st [str "🔍 Checking Printful for shipped orders..."]).
  fold st0. unfold try_catch.
  assert (He1 : env "PRINTFUL_API_KEY" = JString k1)
    by (unfold env; now rewrite Hk1).
  assert (He2 : env "SENDER_API_KEY" = JString k2)
    by (unfold env; now rewrite Hk2).
  rewrite He1, He2. cbn [truthy].
  apply String.eqb_neq in Hn1, Hn2. rewrite Hn1, Hn2. cbn [negb orb].
  unfold bind at 1. rewrite Hfetch.
  unfold bind at 1, console_log at 1. fold found. fold (logged st1 [found]).
  unfold bind at 1. rewrite Hloop. unfold ret, check_completed.
  rewrite <- Hsent, <- Herr. reflexivity.
Qed.

End PollingFacts.

(** * Further properties of the handlers *)

(** ** The webhook variants *)

Section MoreWebhookFacts.
Context {P : Platform}.

(** X1: a POST whose body is not JSON is answered 500 by each variant, with
    the message of the parse error, and no outbound call is made. *)
Theorem unparseable_body_is_a_500 (event : Event) (error : JSError)
        (st : State) :
  httpMethod event = "POST" ->
  JSON_parse (event_body event) = Thrown error ->
  let failed := failure_reply (message error) in
  (exists st', Webhook1.handler event st = (Ok failed, st')
               /\ trace st' = trace st)
  /\ (exists st', Webhook2.handler event st = (Ok failed, st')
                  /\ trace st' = trace st)
  /\ (exists st', Webhook3.handler event st = (Ok failed, st')
                  /\ trace st' = trace st).
Proof.
  intros Hpost Hparse failed.
  unfold Webhook1.handler, Webhook2.handler, Webhook3.handler.
  rewrite (is_post event Hpost).
  unfold try_catch, bind, lift. rewrite Hparse. cbn.
  repeat split; eexists; split; reflexivity.
Qed.

(** X2: a POST of the handled type whose payload has no [data] is answered
    500 by each variant (the read of [data.order] throws), and no outbound
    call is made. *)
Theorem payload_without_data_is_a_500 (event : Event)
        (payload type data : JSValue) (st : State) :
  httpMethod event = "POST" ->
  JSON_parse (event_body event) = Ok payload ->
  get payload "type" = Ok type ->
  get payload "data" = Ok data ->
  nullish data = true ->
  let failed :=
    failure_reply ("Cannot read properties of " ++ typeof_name data
                   ++ " (reading 'order')") in
  (is_string type "package_shipped" = true ->
   exists st', Webhook1.handler event st = (Ok failed, st')
               /\ trace st' = trace st)
  /\ (is_string type "shipment_sent" = true ->
      (exists st', Webhook2.handler event st = (Ok failed, st')
                   /\ trace st' = trace st)
      /\ (exists st', Webhook3.handler event st = (Ok failed, st')
                      /\ trace st' = trace st)).
Proof.
  intros Hpost Hparse Htype Hdata Hnull failed.
  assert (Horder : get data "order"
                   = Thrown (TypeError ("Cannot read properties of "
                                        ++ typeof_name data
                                        ++ " (reading 'order')")))
    by (destruct data; try discriminate; reflexivity).
  unfold Webhook1.handler, Webhook2.handler, Webhook3.handler.
  rewrite (is_post event Hpost). unfold try_catch.
  split; [intros Hhandled | intros Hhandled; split];
    rewrite (parsed_then_logged event payload st _ Hparse);
    unfold bind at 1, lift at 1; rewrite Htype, Hhandled; cbn [negb].
  - unfold bind at 1, lift at 1. rewrite Hdata.
    unfold bind at 1, lift at 1. rewrite Horder.
    cbn. eexists; split; reflexivity.
  - unfold bind at 1, lift at 1. unfold extract. rewrite Hdata.
    cbn [Pure.bind]. rewrite Horder. cbn. eexists; split; reflexivity.
  - unfold bind at 1, lift at 1. unfold extract. rewrite Hdata.
    cbn [Pure.bind]. rewrite Horder. cbn. eexists; split; reflexivity.
Qed.

(** X3: in variants 2 and 3, a shipment with a customer e-mail is answered
    500 when SENDER_GROUP_ID is not set or empty, before any outbound
    call. *)
Theorem missing_group_id_is_a_500 (event : Event) (payload type : JSValue)
        (s : Shipment) (st : State) :
  httpMethod event = "POST" ->
  JSON_parse (event_body event) = Ok payload ->
  get payload "type" = Ok type ->
  is_string type "shipment_sent" = true ->
  extract payload = Ok s ->
  truthy (customerEmail s) = true ->
  process_env "SENDER_GROUP_ID" = None
  \/ process_env "SENDER_GROUP_ID" = Some "" ->
  let unset :=
    mkReply 500
      (JSON_stringify
         (obj [("error", str "SENDER_GROUP_ID environment variable not set");
               ("note",
                str "Please add your Sender group ID to environment variables")])) in
  (exists st', Webhook2.handler event st = (Ok unset, st')
               /\ trace st' = trace st)
  /\ (exists st', Webhook3.handler event st = (Ok unset, st')
                  /\ trace st' = trace st).
Proof.
  intros Hpost Hparse Htype Hsent Hex Hemail Hgroup unset.
  assert (Hfalsy : truthy (env "SENDER_GROUP_ID") = false)
    by (unfold env; destruct Hgroup as [-> | ->]; reflexivity).
  unfold Webhook2.handler, Webhook3.handler.
  rewrite (is_post event Hpost). unfold try_catch.
  split;
    rewrite (parsed_then_logged event payload st _ Hparse);
    unfold bind at 1, lift at 1; rewrite Htype, Hsent; cbn [negb];
    unfold bind at 1, lift at 1; rewrite Hex, Hemail; cbn [negb];
    rewrite Hfalsy; cbn; eexists; split; reflexivity.
Qed.

Ltac answer_cases :=
  repeat match goal with
    | |- context [fetch ?req ?w] => destruct (fetch req w); cbn
    | |- context [if ?b then _ else _] => destruct b; cbn
    | |- context [match ?o with Ok _ => _ | Thrown _ => _ end] =>
        destruct o; cbn
    end.

(** X4: variants 2 and 3 never throw: whatever the event and whatever the
    mailing service does, they return an answer, whose status is 405, 200,
    400 or 500. *)
Theorem variants_2_and_3_always_answer (event : Event) (st : State) :
  (exists reply st',
      Webhook2.handler event st = (Ok reply, st')
      /\ In (statusCode reply) [405; 200; 400; 500])
  /\ (exists reply st',
         Webhook3.handler event st = (Ok reply, st')
         /\ In (statusCode reply) [405; 200; 400; 500]).
Proof.
  split.
  - unfold Webhook2.handler.
    destruct (negb (String.eqb (httpMethod event) "POST")).
    + do 2 eexists. split; [reflexivity|]. cbn. auto.
    + unfold try_catch, processing_failed, Webhook2.step1, Webhook2.step2,
        Webhook2.step3, try_catch, bind, lift, ret, throw, now, console_log,
        console_error, do_fetch, call.
      answer_cases; do 2 eexists; (split; [reflexivity|]); cbn; auto.
  - unfold Webhook3.handler.
    destruct (negb (String.eqb (httpMethod event) "POST")).
    + do 2 eexists. split; [reflexivity|]. cbn. auto.
    + unfold try_catch, processing_failed, Webhook3.subscribe, bind, lift,
        ret, throw, console_log, console_error, do_fetch, call.
      answer_cases; do 2 eexists; (split; [reflexivity|]); cbn; auto.
Qed.

Ltac reads H := rewrite bind_lift; rewrite ?H; cbv beta iota.

Lemma send_request_text (data : JSValue) :
  Webhook1.send_request data = Ok (mailing data).
Proof.
  unfold Webhook1.send_request. rewrite json_headers_text. reflexivity.
Qed.

(** X5: on a 'package_shipped' event whose order, recipient and shipment
    can be read, variant 1 makes exactly one outbound call, the POST that
    carries the e-mail.  It answers 200 with the order number (the external
    id when there is one, the id otherwise) when the mailing service answers
    [ok] with a body that reads as JSON, and 500 in every other case. *)
Theorem variant_1_sends_one_mail (event : Event)
        (payload type data order shipment recipient mail : JSValue)
        (st : State) :
  httpMethod event = "POST" ->
  JSON_parse (event_body event) = Ok payload ->
  get payload "type" = Ok type ->
  is_string type "package_shipped" = true ->
  get payload "data" = Ok data ->
  get data "order" = Ok order ->
  get data "shipment" = Ok shipment ->
  get order "recipient" = Ok recipient ->
  nullish recipient = false ->
  nullish shipment = false ->
  let orderNumber := js_or (prop order "external_id") (prop order "id") in
  Webhook1.emailData (prop recipient "email") (prop recipient "name")
    orderNumber (prop shipment "tracking_number")
    (prop shipment "tracking_url") (prop shipment "carrier") = Ok mail ->
  let (r, w) := fetch (mailing mail) (world st) in
  exists reply st',
    Webhook1.handler event st = (Ok reply, st')
    /\ trace st' = (trace st ++ [Fetched (mailing mail) r])%list
    /\ if delivered r then
         reply = mkReply 200
                   (JSON_stringify
                      (obj [("success", JBool true);
                            ("message", str "Email sent successfully");
                            ("orderId", orderNumber)]))
       else statusCode reply = 500.
Proof.
  intros Hpost Hparse Htype Hhandled Hdata Horder Hshipment Hrecipient
    Hnr Hns orderNumber Hmail.
  destruct (fetch (mailing mail) (world st)) as [r w] eqn:Hfetch.
  assert (Hno : nullish order = false)
    by (eapply get_ok_not_nullish; eauto).
  unfold Webhook1.handler. rewrite (is_post event Hpost). unfold try_catch.
  rewrite (parsed_then_logged event payload st _ Hparse).
  reads Htype. rewrite Hhandled. cbn [negb].
  reads Hdata. reads Horder. reads Hdata. reads Hshipment. reads Hrecipient.
  reads (get_prop recipient "email" Hnr). reads Hrecipient.
  reads (get_prop recipient "name" Hnr).
  reads (get_prop order "external_id" Hno).
  reads (or_else_prop (prop order "external_id") order "id" Hno).
  reads (get_prop shipment "tracking_number" Hns).
  reads (get_prop shipment "tracking_url" Hns).
  reads (get_prop shipment "carrier" Hns).
  fold orderNumber. reads Hmail. reads send_request_text.
  unfold bind at 1. rewrite do_fetch_run. cbn [world]. rewrite Hfetch.
  cbn [fst snd].
  destruct r as [response|error]; cbn [delivered].
  - destruct (ok response); cbn [negb andb].
    + rewrite bind_lift. destruct (json response); cbn;
        do 2 eexists; repeat split.
    + unfold bind, lift, console_error, throw.
      destruct (text response); cbn; do 2 eexists; repeat split.
  - cbn. do 2 eexists. repeat split.
Qed.

Lemma new_subscriber_total (payload : JSValue) (s : Shipment) (groupId : JSValue) :
  extract payload = Ok s ->
  nullish (customerName s) = true \/ (exists n, customerName s = JString n) ->
  exists created existing,
    Webhook3.new_subscriber s groupId = Ok created
    /\ Webhook3.existing_subscriber s groupId = Ok existing.
Proof.
  intros Hex Hname.
  destruct (names_split _ Hname) as (fn & ln & Hfn & Hln).
  destruct (toString_countable "itemsCount" _ (extract_countable _ _ Hex))
    as [count Hcount].
  unfold Webhook3.new_subscriber, Webhook3.existing_subscriber.
  rewrite Hfn, Hln, Hcount. cbn. now eauto.
Qed.

(** X6: on a 'shipment_sent' event with a customer e-mail and a configured
    group, variant 3 first sends the POST that creates the subscriber in the
    group.  An [ok] answer gives 200 after that one call.  A 409 answer
    (whose text can be read) is followed by a second call, the PATCH that
    updates the subscriber, and the answer is 200 when the PATCH is accepted
    and 500 otherwise.  Any other failure of the first call gives 500
    without a second call. *)
Theorem variant_3_updates_on_conflict (event : Event)
        (payload type : JSValue) (s : Shipment) (g : string) (st : State) :
  httpMethod event = "POST" ->
  JSON_parse (event_body event) = Ok payload ->
  get payload "type" = Ok type ->
  is_string type "shipment_sent" = true ->
  extract payload = Ok s ->
  truthy (customerEmail s) = true ->
  nullish (customerName s) = true \/ (exists n, customerName s = JString n) ->
  process_env "SENDER_GROUP_ID" = Some g -> g <> "" ->
  exists created existing,
    Webhook3.new_subscriber s (JString g) = Ok created
    /\ Webhook3.existing_subscriber s (JString g) = Ok existing
    /\ let (r1, w1) := fetch (update created) (world st) in
       let (r2, w2) := fetch (patching existing) w1 in
       exists reply st',
         Webhook3.handler event st = (Ok reply, st')
         /\ let once :=
              trace st' = (trace st ++ [Fetched (update created) r1])%list in
            match r1 with
            | Thrown _ => once /\ statusCode reply = 500
            | Ok response =>
                if ok response then once /\ statusCode reply = 200
                else
                  match text response with
                  | Thrown _ => once /\ statusCode reply = 500
                  | Ok _ =>
                      if status response =? 409 then
                        trace st'
                        = (trace st ++ [Fetched (update created) r1;
                                        Fetched (patching existing) r2])%list
                        /\ statusCode reply
                           = (if accepted r2 then 200 else 500)
                      else once /\ statusCode reply = 500
                  end
            end.
Proof.
  intros Hpost Hparse Htype Hsent Hex Hemail Hname Hgroup Hg.
  destruct (new_subscriber_total payload s (JString g) Hex Hname)
    as (created & existing & Hnew & Hold).
  exists created, existing. split; [exact Hnew|]. split; [exact Hold|].
  destruct (fetch (update created) (world st)) as [r1 w1] eqn:H1.
  destruct (fetch (patching existing) w1) as [r2 w2] eqn:H2.
  assert (Henv : env "SENDER_GROUP_ID" = JString g)
    by (unfold env; now rewrite Hgroup).
  assert (Htg : truthy (JString g) = true)
    by (cbn; apply negb_true_iff, String.eqb_neq; exact Hg).
  assert (Hcreate : Webhook3.create_request s (JString g) = Ok (update created))
    by (unfold Webhook3.create_request; rewrite json_headers_text; cbn;
        rewrite Hnew; reflexivity).
  assert (Hpatch : Webhook3.patch_request s (JString g) = Ok (patching existing))
    by (unfold Webhook3.patch_request; rewrite json_headers_text; cbn;
        rewrite Hold; reflexivity).
  unfold Webhook3.handler. rewrite (is_post event Hpost). unfold try_catch.
  rewrite (parsed_then_logged event payload st _ Hparse).
  reads Htype. rewrite Hsent. cbn [negb].
  reads Hex. rewrite Hemail. cbn [negb]. rewrite Henv, Htg. cbn [negb].
  unfold Webhook3.subscribe. reads Hcreate.
  unfold bind at 1. rewrite do_fetch_run. cbn [world]. rewrite H1.
  cbn [fst snd].
  destruct r1 as [response|error].
  2:{ cbn. do 2 eexists. repeat split. }
  destruct (ok response); cbn [negb].
  { cbn. do 2 eexists. repeat split. }
  unfold bind at 1. rewrite bind_lift.
  destruct (text response) as [errorText|error].
  2:{ cbn. do 2 eexists. repeat split. }
  unfold bind at 1, console_error at 1.
  destruct (status response =? 409).
  2:{ cbn. do 2 eexists. repeat split. }
  unfold bind at 1, console_log at 1. rewrite bind_lift, Hpatch.
  unfold bind at 1 2. rewrite do_fetch_run. cbn [world]. rewrite H2.
  cbn [fst snd].
  destruct r2 as [patched|error]; cbn [accepted].
  2:{ cbn. do 2 eexists. split; [reflexivity|]. cbn.
      rewrite <- app_assoc. now split. }
  destruct (ok patched); cbn [negb].
  - cbn. do 2 eexists. split; [reflexivity|]. cbn.
    rewrite <- app_assoc. now split.
  - unfold bind, lift, throw.
    destruct (text patched); cbn; do 2 eexists;
      (split; [reflexivity|]); cbn; rewrite <- app_assoc; now split.
Qed.

End MoreWebhookFacts.

(** ** The two halves of a name *)

Lemma append_assoc_one (a : string) (c : ascii) (b : string) :
  (a ++ String c "") ++ b = a ++ String c b.
Proof.
  induction a as [|x a IH]; cbn; [reflexivity | now rewrite IH].
Qed.

Lemma spaceless_app (a b : string) :
  spaceless (a ++ b) = spaceless a && spaceless b.
Proof.
  induction a as [|x a IH]; cbn; [reflexivity|].
  rewrite IH. now rewrite andb_assoc.
Qed.

Lemma split_spaces_from_joined (s cur : string) :
  String.concat " " (split_spaces_from cur s) = cur ++ s.
Proof.
  revert cur. induction s as [|c s IH]; intros cur; cbn [split_spaces_from].
  - cbn. now rewrite append_empty.
  - destruct (Ascii.eqb_spec c " "%char) as [-> | _].
    + specialize (IH ""). cbn [String.concat].
      destruct (split_spaces_from "" s) as [|x xs] eqn:Hs.
      * destruct s; cbn in Hs; [discriminate|].
        destruct (Ascii.eqb _ _); discriminate.
      * rewrite IH. reflexivity.
    + rewrite IH. apply append_assoc_one.
Qed.

Lemma split_spaces_from_first (s cur : string) :
  spaceless cur = true ->
  exists first rest,
    split_spaces_from cur s = first :: rest
    /\ spaceless first = true
    /\ if spaceless s then first = cur ++ s /\ rest = []
       else cur ++ s = first ++ " " ++ String.concat " " rest.
Proof.
  revert cur. induction s as [|c s IH]; intros cur Hcur;
    cbn [split_spaces_from spaceless].
  - exists cur, []. rewrite append_empty. now repeat split.
  - destruct (Ascii.eqb_spec c " "%char) as [-> | Hc]; cbn [negb andb].
    + exists cur, (split_spaces_from "" s).
      rewrite split_spaces_from_joined. now repeat split.
    + destruct (IH (cur ++ String c "")) as (first & rest & Hsplit & Hf & Hrest).
      { rewrite spaceless_app, Hcur. cbn.
        destruct (Ascii.eqb_spec c " "%char); [contradiction | reflexivity]. }
      exists first, rest. rewrite append_assoc_one in Hrest.
      now repeat split.
Qed.

(** X7: variants 2 and 3 cut a customer name at its first space: the first
    name has no space; a name without a space is the first name and leaves
    the last name empty; any other name is the first name, a space and the
    last name, so that nothing of the name is lost.  An absent name gives
    two empty texts. *)
Theorem names_are_cut_at_the_first_space :
  (forall name, nullish name = true ->
                firstname name = Ok (str "") /\ lastname name = Ok (str ""))
  /\ (forall n : string,
        exists fn ln,
          firstname (JString n) = Ok (str fn)
          /\ lastname (JString n) = Ok (str ln)
          /\ spaceless fn = true
          /\ if spaceless n then fn = n /\ ln = ""
             else n = fn ++ " " ++ ln).
Proof.
  split.
  - intros name Hnull. unfold firstname, lastname. now rewrite Hnull.
  - intros n.
    destruct (split_spaces_from_first n "" eq_refl)
      as (first & rest & Hsplit & Hfirst & Hrest).
    exists first, (String.concat " " rest).
    unfold firstname, lastname, method_split, split_spaces.
    cbn [nullish Pure.bind]. rewrite Hsplit. cbn [tl].
    assert (Hor : forall x, js_or (str x) (str "") = str x).
    { intros x. unfold js_or, str. cbn.
      destruct (String.eqb_spec x ""); cbn; congruence. }
    rewrite !Hor. split; [reflexivity|]. split; [reflexivity|].
    split; [exact Hfirst|].
    destruct (spaceless n).
    + destruct Hrest as [-> ->]. now split.
    + exact Hrest.
Qed.

(** ** The polling job *)

Section MorePollingFacts.
Context {P : Platform}.
Import Polling.

(** X8: when one of the two API keys is not set (or is empty), the job
    answers 500 'Missing API keys' right after its first log line: it makes
    no outbound call and leaves the world as it is. *)
Theorem missing_api_key_is_a_500 (st : State) :
  truthy (env "PRINTFUL_API_KEY") = false
  \/ truthy (env "SENDER_API_KEY") = false ->
  handler st
  = (Ok missing_api_keys,
     logged st [str "🔍 Checking Printful for shipped orders..."]).
Proof.
  intros H. unfold handler. unfold bind at 1, console_log at 1.
  fold (logged st [str "🔍 Checking Printful for shipped orders..."]).
  unfold try_catch.
  destruct H as [-> | ->]; cbn [negb orb]; rewrite ?orb_true_r; reflexivity.
Qed.

Lemma keys_set (k1 k2 : string) :
  process_env "PRINTFUL_API_KEY" = Some k1 -> k1 <> "" ->
  process_env "SENDER_API_KEY" = Some k2 -> k2 <> "" ->
  env "PRINTFUL_API_KEY" = JString k1 /\ env "SENDER_API_KEY" = JString k2
  /\ negb (truthy (JString k1)) || negb (truthy (JString k2)) = false.
Proof.
  intros Hk1 Hn1 Hk2 Hn2. unfold env. rewrite Hk1, Hk2. cbn [truthy].
  apply String.eqb_neq in Hn1, Hn2. now rewrite Hn1, Hn2.
Qed.

(** X9: with both keys set, a failure of the provider's order list (the
    call throws, the status is not [ok], or the body does not read as JSON)
    is not reported: after that one call the job answers 200 'Check
    completed' with no order found, no e-mail sent and no error. *)
Theorem provider_failure_is_an_empty_check (k1 k2 : string) (st : State) :
  process_env "PRINTFUL_API_KEY" = Some k1 -> k1 <> "" ->
  process_env "SENDER_API_KEY" = Some k2 -> k2 <> "" ->
  let (r, w) := fetch (orders_request k1) (world st) in
  match r with
  | Ok response =>
      ok response = false \/ exists error, json response = Thrown error
  | Thrown _ => True
  end ->
  exists st',
    handler st = (Ok (check_completed 0 (mkCounters 0 0)), st')
    /\ trace st' = (trace st ++ [Fetched (orders_request k1) r])%list
    /\ world st' = w.
Proof.
  intros Hk1 Hn1 Hk2 Hn2.
  destruct (keys_set k1 k2 Hk1 Hn1 Hk2 Hn2) as (He1 & He2 & Hkeys).
  destruct (fetch (orders_request k1) (world st)) as [r w] eqn:Hfetch.
  intros Hr.
  unfold handler. unfold bind at 1, console_log at 1.
  fold (logged st [str "🔍 Checking Printful for shipped orders..."]).
  unfold try_catch.
  rewrite He1, He2, Hkeys.
  unfold bind at 1.
  unfold fetchRecentShippedOrders, try_catch, list_recent_orders.
  rewrite bind_lift, api_headers_text. cbv beta iota.
  unfold bind at 1. rewrite do_fetch_run. fold (orders_request k1).
  cbn [world logged]. rewrite Hfetch. cbn [fst snd].
  destruct r as [response|error].
  - destruct Hr as [Hno | [error Hjson]].
    + rewrite Hno. cbn. eexists. repeat split.
    + destruct (ok response); cbn [negb].
      * rewrite bind_lift, Hjson. cbn. eexists. repeat split.
      * cbn. eexists. repeat split.
  - cbn. eexists. repeat split.
Qed.

(** *** Counting the calls of the loop *)

Lemma filter_none {A} (p : A -> bool) (l : list A) :
  existsb p l = false -> filter p l = [].
Proof.
  induction l as [|x l IH]; cbn; [reflexivity|].
  intros H. apply orb_false_iff in H as [-> H]. exact (IH H).
Qed.

Lemma quiet_tally (seg : list Exchange) :
  quiet seg -> sends seg = 0%nat /\ marks seg = 0%nat.
Proof.
  intros [Hs Hm]. unfold sends, marks.
  now rewrite (filter_none _ _ Hs), (filter_none _ _ Hm).
Qed.

Lemma sends_app (a b : list Exchange) :
  sends (a ++ b) = (sends a + sends b)%nat.
Proof. unfold sends. now rewrite filter_app, length_app. Qed.

Lemma marks_app (a b : list Exchange) :
  marks (a ++ b) = (marks a + marks b)%nat.
Proof. unfold marks. now rewrite filter_app, length_app. Qed.

Lemma on_error_result (order : JSValue) (c c' : Counters) (error : JSError)
      (st st1 : State) :
  on_error order c error st = (Ok c', st1) -> c' = failed_one c.
Proof.
  unfold on_error, bind, ret.
  destruct (log_order _ order _ _ true st) as [[[]|e] stl]; congruence.
Qed.

Lemma iteration_tally (k1 k2 : string) (order : JSValue) (c : Counters)
      (st : State) :
  exists seg,
    trace (snd (iteration (JString k1) (JString k2) order c st))
    = (trace st ++ seg)%list
    /\ tally c (fst (iteration (JString k1) (JString k2) order c st)) seg 1.
Proof.
  unfold iteration, try_catch.
  destruct (attempt (JString k1) (JString k2) order c st) as [oa sta] eqn:Hrun.
  destruct (attempt_run _ _ _ _ _ _ _ Hrun) as (seg & Hta & Hshape).
  exists seg. unfold tally.
  destruct Hshape
    as [[Hq Ho]
       | [(q & req & r & -> & Hq & Hurl & Hdel & ->)
         | (q & req & r & id & res & -> & Hq & Hurl & Hdel & Hid & ->)]];
    destruct (quiet_tally _ Hq) as [Hs Hm].
  - assert (Hresult : forall c' st1,
               (oa = Ok c' \/ exists error,
                   oa = Thrown error
                   /\ on_error order c error sta = (Ok c', st1)) ->
               c' = c \/ c' = failed_one c).
    { intros c' st1 [-> | (error & -> & Herr)].
      - destruct Ho as [[= ->] | [error [=]]]. now left.
      - right. eapply on_error_result; eauto. }
    destruct oa as [c1|error].
    + cbn [fst snd]. split; [exact Hta|]. rewrite Hs, Hm.
      split; [lia|]. split; [lia|]. intros c' [= <-].
      destruct (Hresult c1 sta (or_introl eq_refl)) as [-> | ->]; cbn; lia.
    + destruct (on_error_run order c error sta) as (o & st1 & Herr & Ht1 & _).
      rewrite Herr. cbn [fst snd]. rewrite Ht1. split; [exact Hta|].
      rewrite Hs, Hm. split; [lia|]. split; [lia|]. intros c' ->.
      destruct (Hresult c' st1) as [-> | ->]; [eauto | cbn; lia | cbn; lia].
  - cbn [fst snd]. split; [exact Hta|].
    rewrite sends_app, marks_app, Hs, Hm. unfold sends, marks.
    cbn [filter is_send is_mark url]. rewrite Hurl, String.eqb_refl.
    cbn [List.length]. split; [lia|]. split; [lia|].
    intros c' [= <-]. cbn. lia.
  - cbn [fst snd]. split; [exact Hta|].
    rewrite sends_app, marks_app, Hs, Hm. unfold sends, marks.
    cbn [filter is_send is_mark url]. rewrite Hurl, String.eqb_refl.
    cbn [List.length]. split; [lia|]. split; [lia|].
    intros c' [= <-]. cbn. lia.
Qed.

Lemma for_of_tally (k1 k2 : string) (orders : list JSValue) (c : Counters)
      (st : State) :
  exists seg,
    trace (snd (for_of (JString k1) (JString k2) orders c st))
    = (trace st ++ seg)%list
    /\ tally c (fst (for_of (JString k1) (JString k2) orders c st)) seg
         (List.length orders).
Proof.
  revert c st. induction orders as [|order rest IH]; intros c st.
  - exists []. cbn. rewrite app_nil_r. split; [reflexivity|].
    unfold tally, sends, marks. cbn. split; [lia|]. split; [lia|].
    intros c' [= <-]. lia.
  - cbn [for_of]. unfold bind at 1 2.
    destruct (iteration_tally k1 k2 order c st) as (seg1 & Ht1 & Hs1 & Hm1 & Hc1).
    destruct (iteration (JString k1) (JString k2) order c st) as [[c1|error] st1].
    + cbn [fst snd] in *.
      destruct (IH c1 st1) as (seg2 & Ht2 & Hs2 & Hm2 & Hc2).
      exists (seg1 ++ seg2)%list. rewrite Ht2, Ht1, app_assoc.
      split; [reflexivity|]. unfold tally.
      rewrite sends_app, marks_app. cbn [List.length].
      split; [lia|]. split; [lia|]. intros c' Hc'.
      specialize (Hc1 c1 eq_refl). specialize (Hc2 c' Hc'). lia.
    + cbn [fst snd] in *. exists seg1. split; [exact Ht1|]. unfold tally.
      cbn [List.length]. split; [lia|]. split; [lia|]. intros c' [=].
Qed.

(** X10: the job never throws.  It answers 500 'Missing API keys', or 500
    'Internal error' with the message of what was thrown, or 200 'Check
    completed' with the number of orders found and two counters that are not
    negative and whose sum is at most that number: no order is counted
    twice. *)
Theorem the_job_always_answers (st : State) :
  exists reply st',
    handler st = (Ok reply, st')
    /\ (reply = missing_api_keys
        \/ (exists text,
               reply = mkReply 500
                         (JSON_stringify
                            (obj [("error", str "Internal error");
                                  ("message", str text)])))
        \/ (exists n c,
               reply = check_completed n c
               /\ 0 <= emailsSent c /\ 0 <= errors c
               /\ emailsSent c + errors c <= Z.of_nat n)).
Proof.
  unfold handler. unfold bind at 1, console_log at 1. unfold try_catch.
  unfold env.
  destruct (process_env "PRINTFUL_API_KEY") as [k1|];
    [|cbn; do 2 eexists; split; [reflexivity | now left]].
  destruct (process_env "SENDER_API_KEY") as [k2|];
    [|cbn; rewrite orb_true_r; do 2 eexists; split; [reflexivity | now left]].
  destruct (negb (truthy (JString k1)) || negb (truthy (JString k2)));
    [do 2 eexists; split; [reflexivity | now left]|].
  unfold bind at 1.
  match goal with
  | |- context [fetchRecentShippedOrders _ ?s] =>
      destruct (fetchRecentShippedOrders_returns (JString k1) s)
        as (orders & st1 & Hfetch)
  end.
  rewrite Hfetch. unfold bind at 1, console_log at 1. unfold bind at 1.
  match goal with
  | |- context [for_of _ _ orders _ ?s] =>
      destruct (for_of_tally k1 k2 orders (mkCounters 0 0) s)
        as (seg & _ & _ & _ & Hc);
      destruct (for_of (JString k1) (JString k2) orders (mkCounters 0 0) s)
        as [[c|error] st2]
  end.
  - cbn [fst] in Hc. specialize (Hc c eq_refl). cbn [emailsSent errors] in Hc.
    unfold ret. do 2 eexists. split; [reflexivity|]. right. right.
    exists (List.length orders), c. split; [reflexivity|]. lia.
  - unfold bind, console_error, ret. do 2 eexists. split; [reflexivity|].
    right. left. eexists. reflexivity.
Qed.

(** X11: in the loop over the orders, at most one e-mail is sent per
    order; a flag is written only for an e-mail that was sent, so the flags
    are at most as many as the e-mails; and when the loop completes,
    [emailsSent] has grown by the number of flags written and [errors] by at
    least the number of e-mails sent without a flag (the sends that
    failed). *)
Theorem at_most_one_mail_per_order (k1 k2 : string) (orders : list JSValue)
        (c : Counters) (st : State) :
  exists seg,
    trace (snd (for_of (JString k1) (JString k2) orders c st))
    = (trace st ++ seg)%list
    /\ (sends seg <= List.length orders)%nat
    /\ (marks seg <= sends seg)%nat
    /\ forall c',
         fst (for_of (JString k1) (JString k2) orders c st) = Ok c' ->
         emailsSent c' = emailsSent c + Z.of_nat (marks seg)
         /\ errors c + Z.of_nat (sends seg - marks seg) <= errors c'.
Proof.
  destruct (for_of_tally k1 k2 orders c st) as (seg & Ht & Hs & Hm & Hc).
  exists seg. repeat split; try assumption; destruct (Hc c' H); tauto.
Qed.

(** *** The details of a shipment and the e-mail made from them *)

Lemma detail_url (id : JSValue) (text : string) :
  ToString id = Ok text ->
  template [Lit "https://api.printful.com/orders/"; Sub id]
  = Ok ("https://api.printful.com/orders/" ++ text).
Proof.
  intros H. cbn [template Pure.bind]. rewrite H. cbn [Pure.bind].
  now rewrite append_empty.
Qed.

(** X12: [getShipmentInfo] never throws.  For an order id that prints as
    [text] it makes one call, the GET of the order's details.  When that
    call gives an [ok] response whose body reads as JSON and whose [result]
    has a truthy [shipments] of non-zero length, it returns the record made
    from the result and its first shipment, or [null] when the making of
    the record throws.  In every other case it returns [null]: so what it
    returns is [null] or such a record, and a call that throws or is not
    [ok] gives [null]. *)
Theorem shipment_info_is_null_or_complete (key text : string) (id : JSValue)
        (st : State) :
  ToString id = Ok text ->
  let (r, w) := fetch (detail_request key text) (world st) in
  exists info st',
    getShipmentInfo (JString key) id st = (Ok info, st')
    /\ trace st' = (trace st ++ [Fetched (detail_request key text) r])%list
    /\ world st' = w
    /\ (forall response data order shipments shipment,
           r = Ok response -> ok response = true ->
           json response = Ok data ->
           get data "result" = Ok order ->
           get order "shipments" = Ok shipments ->
           truthy shipments = true ->
           is_number (prop shipments "length") 0 = false ->
           first shipments = Ok shipment ->
           info = match shipment_info order shipment with
                  | Ok record => record
                  | Thrown _ => JNull
                  end)
    /\ (info = JNull
        \/ exists response data order shipments shipment,
             r = Ok response /\ ok response = true
             /\ json response = Ok data
             /\ get data "result" = Ok order
             /\ get order "shipments" = Ok shipments
             /\ truthy shipments = true
             /\ is_number (prop shipments "length") 0 = false
             /\ first shipments = Ok shipment
             /\ shipment_info order shipment = Ok info)
    /\ (match r with
        | Ok response => ok response = false
        | Thrown _ => True
        end -> info = JNull).
Proof.
  intros Hid.
  destruct (fetch (detail_request key text) (world st)) as [r w] eqn:Hfetch.
  unfold getShipmentInfo, try_catch.
  rewrite bind_lift, (detail_url id text Hid). cbv beta iota.
  rewrite bind_lift, api_headers_text. cbv beta iota.
  unfold bind at 1. rewrite do_fetch_run. fold (detail_request key text).
  rewrite Hfetch. cbn [fst snd].
  destruct r as [response|error].
  2:{ cbn. do 2 eexists. do 3 (split; [reflexivity|]).
      split; [discriminate|]. split; [now left | reflexivity]. }
  destruct (ok response) eqn:Hok; cbn [negb].
  2:{ cbn. do 2 eexists. do 3 (split; [reflexivity|]).
      split; [intros ? ? ? ? ? [= <-]; congruence|].
      split; [now left | reflexivity]. }
  rewrite bind_lift.
  destruct (json response) as [data|error] eqn:Hjson.
  2:{ cbn. do 2 eexists. do 3 (split; [reflexivity|]).
      split; [intros ? ? ? ? ? [= <-]; congruence|].
      split; [now left | discriminate]. }
  rewrite bind_lift.
  destruct (get data "result") as [order|error] eqn:Horder.
  2:{ cbn. do 2 eexists. do 3 (split; [reflexivity|]).
      split; [intros ? ? ? ? ? [= <-]; congruence|].
      split; [now left | discriminate]. }
  rewrite bind_lift.
  destruct (get order "shipments") as [shipments|error] eqn:Hshipments.
  2:{ cbn. do 2 eexists. do 3 (split; [reflexivity|]).
      split; [intros ? ? ? ? ? [= <-]; congruence|].
      split; [now left | discriminate]. }
  destruct (truthy shipments) eqn:Htruthy; cbn [negb].
  2:{ cbn. do 2 eexists. do 3 (split; [reflexivity|]).
      split; [intros ? ? ? ? ? [= <-]; congruence|].
      split; [now left | discriminate]. }
  rewrite bind_lift,
    (get_prop shipments "length" (truthy_not_nullish _ Htruthy)).
  destruct (is_number (prop shipments "length") 0) eqn:Hlen.
  { cbn. do 2 eexists. do 3 (split; [reflexivity|]).
    split; [intros ? ? ? ? ? [= <-]; congruence|].
    split; [now left | discriminate]. }
  rewrite bind_lift.
  destruct (first shipments) as [shipment|error] eqn:Hfirst.
  2:{ cbn. do 2 eexists. do 3 (split; [reflexivity|]).
      split; [intros ? ? ? ? ? [= <-]; congruence|].
      split; [now left | discriminate]. }
  unfold lift.
  destruct (shipment_info order shipment) as [info|error] eqn:Hinfo.
  2:{ cbn. do 2 eexists. do 3 (split; [reflexivity|]).
      split; [|split; [now left | discriminate]].
      intros ? ? ? ? ? [= <-] _ H1 H2 H3 _ _ H4.
      rewrite Hjson in H1. injection H1 as <-.
      rewrite Horder in H2. injection H2 as <-.
      rewrite Hshipments in H3. injection H3 as <-.
      rewrite Hfirst in H4. injection H4 as <-.
      now rewrite Hinfo. }
  do 2 eexists. do 3 (split; [reflexivity|]).
  split; [|split; [|discriminate]].
  - intros ? ? ? ? ? [= <-] _ H1 H2 H3 _ _ H4.
    rewrite Hjson in H1. injection H1 as <-.
    rewrite Horder in H2. injection H2 as <-.
    rewrite Hshipments in H3. injection H3 as <-.
    rewrite Hfirst in H4. injection H4 as <-.
    now rewrite Hinfo.
  - right. exists response, data, order, shipments, shipment.
    now repeat split.
Qed.

Lemma info_fields (id external_id email name tracking_number tracking_url
                     carrier service : JSValue) (summaries : list JSValue) :
  let info := obj [("orderId", id);
                   ("externalId", external_id);
                   ("customerEmail", email);
                   ("customerName", name);
                   ("trackingNumber", tracking_number);
                   ("trackingUrl", tracking_url);
                   ("carrier", carrier);
                   ("service", service);
                   ("items", JArray summaries)] in
  get info "items" = Ok (JArray summaries)
  /\ get info "customerEmail" = Ok email
  /\ get info "customerName" = Ok name
  /\ order_number info = Ok (js_or external_id id).
Proof.
  cbv zeta. repeat split.
  unfold order_number, or_else, js_or. cbn -[truthy].
  destruct (truthy external_id); reflexivity.
Qed.

Lemma subject_text (number : JSValue) (text : string) :
  ToString number = Ok text ->
  template [Lit "Your order #"; Expr (Ok number); Lit " has shipped! 📦"]
  = Ok ("Your order #" ++ text ++ " has shipped! 📦").
Proof.
  intros H. cbn [template Pure.bind]. rewrite H. reflexivity.
Qed.

(** X13: the record that [getShipmentInfo] makes is read back by
    [sendShipmentEmail] under the same names.  For the record made from an
    order and a shipment, [sendShipmentEmail] either throws before any call
    (a field cannot be printed) or makes exactly one call, the POST of the
    e-mail, which is addressed to the e-mail address and name of the order's
    recipient, comes from the configured sender (or the built-in one), and
    whose subject carries the external id of the order, or its id when there
    is none; the result's [success] says whether the mailing service
    accepted the e-mail. *)
Theorem the_mail_goes_to_the_recipient (key : string)
        (listed order shipment info : JSValue) (st : State) :
  shipment_info order shipment = Ok info ->
  match sendShipmentEmail (JString key) listed info st with
  | (Thrown _, st') => trace st' = trace st
  | (Ok result, st') =>
      exists payload r number,
        trace st' = (trace st ++ [Fetched (mail_request key payload) r])%list
        /\ prop payload "to"
           = JArray [obj [("email", prop (prop order "recipient") "email");
                          ("name", prop (prop order "recipient") "name")]]
        /\ prop payload "from"
           = obj [("email", js_or (env "SENDER_FROM_EMAIL")
                                  (str "orders@yourdomain.com"));
                  ("name", js_or (env "SENDER_FROM_NAME") (str "Your Store"))]
        /\ ToString (js_or (prop order "external_id") (prop order "id"))
           = Ok number
        /\ prop payload "subject"
           = str ("Your order #" ++ number ++ " has shipped! 📦")
        /\ get result "success" = Ok (JBool (delivered r))
  end.
Proof.
  intros Hinfo. unfold shipment_info in Hinfo.
  destruct (get order "id") as [id|] eqn:Hid; [|discriminate].
  destruct (get order "external_id") as [external_id|] eqn:Hext;
    [|discriminate].
  destruct (get order "recipient") as [recipient|] eqn:Hrec; [|discriminate].
  cbn [Pure.bind] in Hinfo.
  destruct (get recipient "email") as [email|] eqn:Hemail; [|discriminate].
  destruct (get recipient "name") as [name|] eqn:Hname; [|discriminate].
  cbn [Pure.bind] in Hinfo.
  destruct (get shipment "tracking_number") as [tracking_number|];
    [|discriminate].
  destruct (get shipment "tracking_url") as [tracking_url|]; [|discriminate].
  destruct (get shipment "carrier") as [carrier|]; [|discriminate].
  destruct (get shipment "service") as [service|]; [|discriminate].
  destruct (get order "items") as [items|]; [|discriminate].
  cbn [Pure.bind] in Hinfo.
  destruct (array_method "order.items" "map" items) as [l|]; [|discriminate].
  cbn [Pure.bind] in Hinfo.
  destruct (Pure.mapM item_summary l) as [summaries|]; [|discriminate].
  cbn [Pure.bind] in Hinfo. injection Hinfo as <-.
  assert (Hto : prop (prop order "recipient") "email" = email
                /\ prop (prop order "recipient") "name" = name
                /\ prop order "external_id" = external_id
                /\ prop order "id" = id)
    by (unfold prop; rewrite Hrec, Hemail, Hname, Hext, Hid; now repeat split).
  destruct Hto as (-> & -> & -> & ->).
  destruct (info_fields id external_id email name tracking_number tracking_url
              carrier service summaries) as (Hitems & Hce & Hcn & Hnumber).
  unfold sendShipmentEmail. cbv zeta.
  rewrite bind_lift, Hitems. cbv beta iota.
  rewrite bind_lift. cbn [array_method].
  rewrite bind_lift.
  destruct (Pure.mapM item_html summaries) as [htmls|]; [|reflexivity].
  rewrite bind_lift.
  destruct (tracking_button _) as [button|]; [|reflexivity].
  rewrite bind_lift.
  destruct (email_html _ _ _ _) as [html|]; [|reflexivity].
  rewrite bind_lift, Hce. cbv beta iota.
  rewrite bind_lift, Hcn. cbv beta iota.
  rewrite bind_lift, Hnumber.
  destruct (ToString (js_or external_id id)) as [number|error] eqn:Hprint.
  2:{ cbn [template Pure.bind]. rewrite Hprint. reflexivity. }
  rewrite (subject_text _ number Hprint).
  unfold try_catch. rewrite bind_lift, api_headers_text. cbv beta iota.
  unfold bind at 1. rewrite do_fetch_run.
  match goal with
  | |- context [fetch (mkRequest send_url "POST" _
                         (Some (JSON_stringify ?data)) None) (world st)] =>
      set (payload := data); fold (mail_request key payload)
  end.
  destruct (fetch (mail_request key payload) (world st)) as [r w].
  cbn [fst snd].
  assert (Hpayload :
            prop payload "to"
            = JArray [obj [("email", email); ("name", name)]]
            /\ prop payload "from"
               = obj [("email", js_or (env "SENDER_FROM_EMAIL")
                                      (str "orders@yourdomain.com"));
                      ("name", js_or (env "SENDER_FROM_NAME")
                                     (str "Your Store"))]
            /\ prop payload "subject"
               = str ("Your order #" ++ number ++ " has shipped! 📦"))
    by (repeat split).
  destruct Hpayload as (Hto & Hfrom & Hsubject).
  clearbody payload.
  destruct r as [response|error].
  - rewrite bind_lift.
    destruct (json response) as [result|error] eqn:Hjson.
    + destruct (ok response) eqn:Hok.
      * exists payload, (Ok response), number. cbn [delivered].
        rewrite Hok, Hjson. now repeat split.
      * rewrite bind_lift.
        destruct (get result "message");
          exists payload, (Ok response), number; cbn [delivered];
          rewrite Hok, Hjson; now repeat split.
    + exists payload, (Ok response), number. cbn [delivered].
      rewrite Hjson, andb_false_r. now repeat split.
  - exists payload, (Thrown error), number. now repeat split.
Qed.

(** *** Orders that are passed over *)

Lemma loggable_text (order id : JSValue) (text : string) :
  get order "id" = Ok id -> ToString id = Ok text -> loggable order = true.
Proof.
  intros Hid Htext. unfold loggable. now rewrite Hid, Htext.
Qed.

(** X14: an order that is not flagged and whose details cannot be fetched
    (the call throws or is not [ok]) is passed over in silence: after the
    reading of the flag and the call for the details the iteration ends with
    the counters as they were.  The order is counted neither as sent nor as
    an error, and no flag is written for it. *)
Theorem an_order_without_details_is_passed_over (k1 k2 text : string)
        (order id : JSValue) (c : Counters) (st : State) :
  get order "id" = Ok id -> ToString id = Ok text ->
  let (g, w1) := blob_get store_name id (world st) in
  let (r, w2) := fetch (detail_request k1 text) w1 in
  match g with Ok v => is_string v "sent" = false | Thrown _ => True end ->
  match r with Ok response => ok response = false | Thrown _ => True end ->
  exists st',
    iteration (JString k1) (JString k2) order c st = (Ok c, st')
    /\ trace st'
       = (trace st ++ [BlobGot store_name id g;
                       Fetched (detail_request k1 text) r])%list
    /\ world st' = w2.
Proof.
  intros Hid Htext.
  destruct (blob_get store_name id (world st)) as [g w1] eqn:Hget.
  destruct (fetch (detail_request k1 text) w1) as [r w2] eqn:Hfetch.
  intros Hg Hr.
  pose proof (loggable_text order id text Hid Htext) as Hlog.
  unfold iteration, try_catch, attempt. rewrite bind_lift, Hid. cbv beta iota.
  unfold bind at 1.
  destruct (checkIfEmailSent_run id st) as (sta & Hcheck & Hwa & Hta).
  rewrite Hcheck, Hget in *. cbn [fst snd] in *.
  assert (Hnot : match g with Ok v => is_string v "sent" | Thrown _ => false end
                 = false) by (destruct g; [exact Hg | reflexivity]).
  rewrite Hnot.
  unfold notify. rewrite bind_lift, Hid. cbv beta iota. unfold bind at 1.
  assert (Hinfo : exists stb,
             getShipmentInfo (JString k1) id sta = (Ok JNull, stb)
             /\ trace stb = (trace sta ++ [Fetched (detail_request k1 text) r])%list
             /\ world stb = w2).
  { unfold getShipmentInfo, try_catch.
    rewrite bind_lift, (detail_url id text Htext). cbv beta iota.
    rewrite bind_lift, api_headers_text. cbv beta iota.
    unfold bind at 1. rewrite do_fetch_run. fold (detail_request k1 text).
    rewrite Hwa, Hfetch. cbn [fst snd].
    destruct r as [response|error]; [rewrite Hr|]; cbn;
      eexists; repeat split. }
  destruct Hinfo as (stb & Hinfo & Htb & Hwb). rewrite Hinfo.
  cbn [truthy negb]. unfold bind.
  destruct (log_order_run "⚠️  No shipment info for order " "" order [] false
              stb) as (ol & stl & Hl & Htl & Hwl & Hok).
  rewrite Hl, (Hok Hlog). unfold ret. exists stl.
  split; [reflexivity|]. rewrite Htl, Htb, Hta, Hwl, <- app_assoc.
  now split.
Qed.

(** *** The flag that stops a second e-mail *)

Lemma keeps_same {A} (m : M A) :
  (forall st, world (snd (m st)) = world st /\ trace (snd (m st)) = trace st) ->
  keeps m.
Proof.
  intros H st Hst calls x Htrace. destruct (H st) as [Hw Ht].
  rewrite Hw. apply (Hst calls). now rewrite <- Ht.
Qed.

Lemma keeps_ret {A} (a : A) : keeps (ret a).
Proof. apply keeps_same. now intros. Qed.

Lemma keeps_throw {A} (error : JSError) : keeps (throw (A := A) error).
Proof. apply keeps_same. now intros. Qed.

Lemma keeps_lift {A} (o : Outcome A) : keeps (lift o).
Proof. apply keeps_same. now intros. Qed.

Lemma keeps_console_log (args : list JSValue) : keeps (console_log args).
Proof. apply keeps_same. now intros. Qed.

Lemma keeps_console_error (args : list JSValue) : keeps (console_error args).
Proof. apply keeps_same. now intros. Qed.

Lemma keeps_now : keeps now.
Proof. apply keeps_same. now intros. Qed.

Lemma keeps_call {A} (run : World -> Outcome A * World)
      (entry : Outcome A -> Exchange) :
  (forall w r w', run w = (r, w') -> left_by (entry r) w') ->
  keeps (call run entry).
Proof.
  intros H st _ calls x. unfold call.
  destruct (run (world st)) as [r w] eqn:Hrun. cbn.
  intros Htrace. apply app_inj_tail in Htrace as [_ <-].
  exact (H _ _ _ Hrun).
Qed.

Lemma keeps_do_fetch (req : Request) : keeps (do_fetch req).
Proof. apply keeps_call. intros w r w' H. now exists w. Qed.

Lemma keeps_store_get (store : string) (key : JSValue) :
  keeps (store_get store key).
Proof. apply keeps_call. intros w r w' H. now exists w. Qed.

Lemma keeps_store_set (store : string) (key value : JSValue) :
  keeps (store_set store key value).
Proof. apply keeps_call. intros w r w' H. now exists w. Qed.

Lemma keeps_bind {A B} (m : M A) (k : A -> M B) :
  keeps m -> (forall a, keeps (k a)) -> keeps (bind m k).
Proof.
  intros Hm Hk st Hst. unfold bind. specialize (Hm st Hst).
  destruct (m st) as [[a|error] st1]; cbn [snd] in *;
    [now apply Hk | exact Hm].
Qed.

Lemma keeps_try_catch {A} (m : M A) (h : JSError -> M A) :
  keeps m -> (forall error, keeps (h error)) -> keeps (try_catch m h).
Proof.
  intros Hm Hh st Hst. unfold try_catch. specialize (Hm st Hst).
  destruct (m st) as [[a|error] st1]; cbn [snd] in *;
    [exact Hm | now apply Hh].
Qed.

Ltac keeps_all :=
  repeat first
    [ apply keeps_ret | apply keeps_throw | apply keeps_lift
    | apply keeps_console_log | apply keeps_console_error | apply keeps_now
    | apply keeps_do_fetch | apply keeps_store_get | apply keeps_store_set
    | apply keeps_bind; [|intros ?]
    | apply keeps_try_catch; [|intros ?]
    | match goal with
      | |- keeps (if ?b then _ else _) => destruct b
      end ].

Lemma keeps_iteration (k1 k2 order : JSValue) (c : Counters) :
  keeps (iteration k1 k2 order c).
Proof.
  unfold iteration, attempt, on_error, notify, checkIfEmailSent,
    getShipmentInfo, sendShipmentEmail, markEmailAsSent, log_order.
  cbv zeta. keeps_all.
Qed.

(** X15: the flag stops a second e-mail.  On a store that keeps what was
    written to it, once an iteration has ended with the writing of the
    order's flag, and the writing succeeded, a further iteration for the
    same order reads the flag and does nothing else: no e-mail is sent and
    the counters stay as they are. *)
Theorem a_flagged_order_is_not_mailed_again (k1 k2 order id : JSValue)
        (c c' : Counters) (st : State) :
  keeps_flags -> settled st ->
  get order "id" = Ok id -> loggable order = true ->
  let after := snd (iteration k1 k2 order c st) in
  (exists calls,
      trace after
      = (calls ++ [BlobSet store_name id (str "sent") (Ok tt)])%list) ->
  exists st2,
    iteration k1 k2 order c' after = (Ok c', st2)
    /\ trace st2
       = (trace after ++ [BlobGot store_name id (Ok (str "sent"))])%list.
Proof.
  intros Hstore Hst Hid Hlog after [calls Hlast].
  pose proof (keeps_iteration k1 k2 order c st Hst) as Hafter.
  fold after in Hafter.
  destruct (Hafter calls _ Hlast) as [w0 Hset].
  pose proof (Hstore id w0 (world after) Hset) as Hread.
  unfold iteration, try_catch, attempt. rewrite bind_lift, Hid. cbv beta iota.
  unfold bind at 1.
  destruct (checkIfEmailSent_run id after) as (sta & Hcheck & _ & Hta).
  rewrite Hcheck, Hread in *.
  change (is_string (str "sent") "sent") with true. cbv iota.
  unfold bind.
  destruct (log_order_run "⏭️  Skipping order " " - email already sent" order
              [] false sta) as (ol & stl & Hl & Htl & _ & Hok).
  rewrite Hl, (Hok Hlog). unfold ret. exists stl.
  split; [reflexivity|]. now rewrite Htl, Hta.
Qed.

End MorePollingFacts.

(** * The properties at work on the concrete platform *)

Import Scenario.
Import Runs.
Import Polling.

Lemma non_post_is_rejected_witness :
  let rejected := mkReply 405 (quoted "{`error`:`Method not allowed`}") in
  let st := at_noon [] [accepted_answer] in
  let event := mkEvent "GET" (stringify shipment_for_ann) in
  Webhook1.handler event st = (Ok rejected, st)
  /\ Webhook2.handler event st = (Ok rejected, st)
  /\ Webhook3.handler event st = (Ok rejected, st).
Proof.
  intros rejected st event.
  apply (non_post_is_rejected event st). discriminate.
Defined.

Lemma unhandled_type_is_a_no_op_witness :
  let no_op := mkReply 200 (quoted "{`message`:`Event type not handled`}") in
  let st := at_noon [] [accepted_answer] in
  (exists st', Webhook1.handler (post other_event) st = (Ok no_op, st')
               /\ trace st' = [])
  /\ (exists st', Webhook2.handler (post other_event) st = (Ok no_op, st')
                  /\ trace st' = [])
  /\ (exists st', Webhook3.handler (post other_event) st = (Ok no_op, st')
                  /\ trace st' = []).
Proof.
  intros no_op st.
  destruct (unhandled_type_is_a_no_op (post other_event) other_event
              (str "order_created") st eq_refl eq_refl eq_refl) as [H1 H23].
  split; [exact (H1 eq_refl) | exact (H23 eq_refl)].
Defined.

Lemma missing_email_is_rejected_witness :
  let rejected :=
    mkReply 400 (quoted "{`error`:`No customer email in payload`}") in
  let st := at_noon [] [accepted_answer] in
  (exists st', Webhook2.handler (post shipment_without_email) st
               = (Ok rejected, st') /\ trace st' = [])
  /\ (exists st', Webhook3.handler (post shipment_without_email) st
                  = (Ok rejected, st') /\ trace st' = []).
Proof.
  intros rejected st.
  exact (missing_email_is_rejected (post shipment_without_email)
           shipment_without_email (str "shipment_sent")
           (shipment_of shipment_without_email) st
           eq_refl eq_refl eq_refl eq_refl eq_refl eq_refl).
Defined.

(** C4 as it stands does not hold.  Variant 1 has no check of the e-mail
    address: for a shipped package whose recipient has no address it sends
    the e-mail all the same and answers 200, not 400.  Variants 2 and 3 read
    [data.order] before their check: for a sent shipment without [data] the
    read throws and the answer is 500, not 400. *)
Lemma missing_email_is_not_always_400 :
  let st := at_noon [] [accepted_answer] in
  (httpMethod (post package_without_email) = "POST"
   /\ JSON_parse (event_body (post package_without_email))
      = Ok package_without_email
   /\ get package_without_email "type" = Ok (str "package_shipped")
   /\ prop (prop (prop (prop package_without_email "data") "order")
              "recipient") "email" = JUndefined
   /\ code_of (Webhook1.handler (post package_without_email) st) = Some 200
   /\ code_of (Webhook1.handler (post package_without_email) st) <> Some 400
   /\ requests_of (Webhook1.handler (post package_without_email) st)
      = [("POST", "https://api.sender.net/v2/email")])
  /\ (httpMethod (post bare_shipment) = "POST"
      /\ JSON_parse (event_body (post bare_shipment)) = Ok bare_shipment
      /\ get bare_shipment "type" = Ok (str "shipment_sent")
      /\ prop (prop (prop (prop bare_shipment "data") "order")
                 "recipient") "email" = JUndefined
      /\ code_of (Webhook2.handler (post bare_shipment) st) = Some 500
      /\ code_of (Webhook2.handler (post bare_shipment) st) <> Some 400
      /\ code_of (Webhook3.handler (post bare_shipment) st) = Some 500
      /\ code_of (Webhook3.handler (post bare_shipment) st) <> Some 400).
Proof.
  vm_compute. repeat split; discriminate.
Qed.

Lemma items_count_and_items_shipped_witness :
  exists s,
    extract shipment_without_email = Ok s
    /\ itemsCount s = JNumber 2
    /\ itemsList s = "2x Mug, 1x Cap".
Proof.
  destruct (items_count_and_items_shipped shipment_without_email
              (shipment_data (obj [("name", str "Ann Lee")])) two_items
              eq_refl eq_refl eq_refl) as (s & Hs & Hcount & Hlist & _).
  exists s. repeat split; assumption.
Defined.

(** The removal throws, the two other calls are accepted: the answer is
    200 after the three calls. *)
Lemma remove_then_update_then_add_witness :
  let run := Webhook2.handler (post shipment_for_ann)
               (at_noon [] [network_error; accepted_answer; accepted_answer]) in
  code_of run = Some 200
  /\ requests_of run
     = [("DELETE",
         "https://api.sender.net/v2/subscribers/ann%40example.com/groups/grp1");
        ("POST", "https://api.sender.net/v2/subscribers");
        ("POST",
         "https://api.sender.net/v2/subscribers/ann%40example.com/groups")].
Proof.
  intros run.
  pose proof (remove_then_update_then_add (post shipment_for_ann)
                shipment_for_ann (str "shipment_sent")
                (shipment_of shipment_for_ann) "ann@example.com" "grp1"
                (at_noon [] [network_error; accepted_answer; accepted_answer])
                eq_refl eq_refl eq_refl eq_refl eq_refl eq_refl
                ltac:(discriminate) (or_intror (ex_intro _ "Ann Lee" eq_refl))
                eq_refl ltac:(discriminate)) as H.
  cbn [fetch shop platform sim_fetch at_noon start world answers network_error
       accepted_answer] in H.
  destruct H as (subscriber & _ & reply & st' & Hrun & Htrace & Hcode).
  unfold run, code_of, requests_of. rewrite Hrun. cbn [fst snd].
  rewrite Htrace, Hcode. split; reflexivity.
Defined.

Lemma recent_orders_are_filtered_witness :
  forallb provider_order provider_list = true
  /\ fst (fetchRecentShippedOrders (JString "pk")
            (at_noon [] [response 200 (obj [("result", JArray provider_list)])]))
     = Ok [listed_order 101 (shipped (JNumber 1699990000000))
             (JNumber 1699990000000);
           listed_order 104 (shipped JNull) (JNumber 1699999000000)].
Proof.
  split; [reflexivity|].
  pose proof (recent_orders_are_filtered "pk"
                (at_noon [] [response 200
                               (obj [("result", JArray provider_list)])])) as H.
  cbn [fetch shop platform sim_fetch at_noon start world answers response] in H.
  destruct H as (orders & st' & Hrun & _ & _ & _ & Hlist).
  rewrite Hrun. cbn [fst].
  cbn [ok json andb Z.leb Z.ltb Z.compare Pos.compare Pos.compare_cont] in Hlist.
  now rewrite (Hlist provider_list eq_refl eq_refl).
Defined.

Lemma every_order_is_processed_and_counted_witness :
  fst (handler busy_hour)
  = Ok (mkReply 200
          (quoted "{`message`:`Check completed`,`ordersFound`:5,`emailsSent`:2,`errors`:2}")).
Proof.
  destruct (every_order_is_processed_and_counted "pk" "sk" busy_hour
              eq_refl ltac:(discriminate) eq_refl ltac:(discriminate))
    as (orders & st1 & Hfetch & Hloop).
  pose proof (f_equal fst Hfetch) as Horders. cbn [fst] in Horders.
  pose proof (f_equal snd Hfetch) as Hst1. cbn [snd] in Hst1.
  subst st1.
  assert (Hlist : orders = map recent [101; 102; 103; 104; 105]).
  { enough (H : Ok orders = Ok (map recent [101; 102; 103; 104; 105]))
      by now injection H.
    rewrite <- Horders. vm_compute. reflexivity. }
  subst orders.
  assert (Hids : forallb loggable (map recent [101; 102; 103; 104; 105]) = true)
    by (vm_compute; reflexivity).
  destruct (Hloop Hids) as (_ & st' & Hrun).
  etransitivity; [exact (f_equal fst Hrun)|].
  vm_compute. reflexivity.
Defined.

(** Order 101 is flagged: nothing but the read of the flag happens.  With
    the blob store down the read throws and the answer is [false]. *)
Lemma sent_orders_are_skipped_witness :
  let st := at_noon [("101", str "sent")] [accepted_answer] in
  let down := start (mkSim 1700000000000 [] true []) in
  (exists st',
      iteration (str "pk") (str "sk") (recent 101) (mkCounters 0 0) st
      = (Ok (mkCounters 0 0), st')
      /\ trace st' = [BlobGot "shipment-emails" (JNumber 101) (Ok (str "sent"))])
  /\ fst (checkIfEmailSent (JNumber 101) down) = Ok false.
Proof.
  intros st down. split.
  - pose proof (sent_orders_are_skipped (str "pk") (str "sk") (recent 101)
                  (JNumber 101) (mkCounters 0 0) [] st eq_refl eq_refl) as H.
    cbn [blob_get shop platform sim_get at_noon start world blobs_down st] in H.
    cbv zeta in H. destruct H as (st1 & _ & _ & Htrace & H).
    cbn in H. destruct H as (st' & Hrun & Ht & _).
    exists st'. split; [exact Hrun|]. rewrite Ht. exact Htrace.
  - pose proof (sent_orders_are_skipped (str "pk") (str "sk") (recent 101)
                  (JNumber 101) (mkCounters 0 0) [] down eq_refl eq_refl) as H.
    cbn [blob_get shop platform sim_get start world blobs_down down] in H.
    cbv zeta in H. destruct H as (st1 & Hcheck & _).
    rewrite Hcheck. reflexivity.
Defined.

(** ** The further properties at work *)

Import MoreRuns.

(** Two posts are sent to the bulk-index endpoint as JSON.  The call to the
    search index carries [undefined], not the two posts, and the answer is
    'Indexed' all the same. *)
Lemma bulk_index_posts_no_body_witness :
  let run := Solr.post_api_index index_request (at_noon [] [accepted_answer]) in
  Solr.posted index_request
  = quoted "[{`id`:1,`title`:`Hello`},{`id`:2,`title`:`World`}]"
  /\ fst run = Ok (Solr.mkSent 200 "Indexed")
  /\ trace (snd run)
     = [AxiosPosted "http://solr:8983/solr/posts/update?commit=true"
          JUndefined [("Content-Type", "application/json")]
          (Ok (obj [("status", JNumber 200)]))]
  /\ JUndefined <> two_posts.
Proof.
  intros run. split; [reflexivity|].
  pose proof (bulk_index_posts_no_body index_request
                (at_noon [] [accepted_answer])) as H.
  cbv zeta in H.
  destruct (axios_post solr_update_url JUndefined
              [("Content-Type", "application/json")]
              (world (at_noon [] [accepted_answer]))) as [r w] eqn:Hpost.
  destruct H as (st' & Hrun & Htrace).
  assert (Hr : r = Ok (obj [("status", JNumber 200)]))
    by (etransitivity; [exact (eq_sym (f_equal fst Hpost))|]; reflexivity).
  unfold run. rewrite Hrun. cbn [fst snd]. rewrite Htrace, Hr.
  split; [reflexivity|]. split; [reflexivity | discriminate].
Defined.

Lemma unparseable_body_is_a_500_witness :
  let st := at_noon [] [accepted_answer] in
  let event := mkEvent "POST" "not json" in
  let failed :=
    mkReply 500
      (quoted "{`error`:`Failed to process webhook`,`message`:`Unexpected token in JSON`}") in
  (exists st', Webhook1.handler event st = (Ok failed, st') /\ trace st' = [])
  /\ (exists st', Webhook2.handler event st = (Ok failed, st')
                  /\ trace st' = [])
  /\ (exists st', Webhook3.handler event st = (Ok failed, st')
                  /\ trace st' = []).
Proof.
  intros st event failed.
  exact (unparseable_body_is_a_500 event
           (mkError "SyntaxError" "Unexpected token in JSON") st
           eq_refl eq_refl).
Defined.

Lemma payload_without_data_is_a_500_witness :
  let failed :=
    mkReply 500
      (quoted "{`error`:`Failed to process webhook`,`message`:`Cannot read properties of undefined (reading 'order')`}") in
  (exists st',
      @Webhook1.handler bare_shop (post bare_package) bare_noon
      = (Ok failed, st') /\ trace st' = [])
  /\ (exists st',
         Webhook2.handler (post bare_shipment) (at_noon [] [accepted_answer])
         = (Ok failed, st') /\ trace st' = [])
  /\ (exists st',
         Webhook3.handler (post bare_shipment) (at_noon [] [accepted_answer])
         = (Ok failed, st') /\ trace st' = []).
Proof.
  intros failed. split.
  - exact (proj1 (payload_without_data_is_a_500 (P := bare_shop)
                    (post bare_package) bare_package (str "package_shipped")
                    JUndefined bare_noon eq_refl eq_refl eq_refl eq_refl
                    eq_refl) eq_refl).
  - exact (proj2 (payload_without_data_is_a_500 (post bare_shipment)
                    bare_shipment (str "shipment_sent") JUndefined
                    (at_noon [] [accepted_answer]) eq_refl eq_refl eq_refl
                    eq_refl eq_refl) eq_refl).
Defined.

Lemma missing_group_id_is_a_500_witness :
  let unset :=
    mkReply 500
      (quoted "{`error`:`SENDER_GROUP_ID environment variable not set`,`note`:`Please add your Sender group ID to environment variables`}") in
  (exists st',
      @Webhook2.handler bare_shop (post shipment_for_ann) bare_noon
      = (Ok unset, st') /\ trace st' = [])
  /\ (exists st',
         @Webhook3.handler bare_shop (post shipment_for_ann) bare_noon
         = (Ok unset, st') /\ trace st' = []).
Proof.
  intros unset.
  exact (missing_group_id_is_a_500 (P := bare_shop) (post shipment_for_ann)
           shipment_for_ann (str "shipment_sent")
           (shipment_of shipment_for_ann) bare_noon
           eq_refl eq_refl eq_refl eq_refl eq_refl eq_refl
           (or_introl eq_refl)).
Defined.

(** The package of order 7 is mailed by variant 1 in one call. *)
Lemma variant_1_sends_one_mail_witness :
  let run := Webhook1.handler (post package_without_email)
               (at_noon [] [accepted_answer]) in
  fst run = Ok (mkReply 200
                  (quoted "{`success`:true,`message`:`Email sent successfully`,`orderId`:7}"))
  /\ trace (snd run) = [Fetched (mailing mail_for_7) accepted_answer].
Proof.
  intros run.
  pose proof (variant_1_sends_one_mail (post package_without_email)
                package_without_email (str "package_shipped")
                (prop package_without_email "data")
                (prop (prop package_without_email "data") "order")
                (prop (prop package_without_email "data") "shipment")
                (obj [("name", str "Ann Lee")]) mail_for_7
                (at_noon [] [accepted_answer])
                eq_refl eq_refl eq_refl eq_refl eq_refl eq_refl eq_refl eq_refl
                eq_refl eq_refl eq_refl) as H.
  cbn [fetch shop platform sim_fetch at_noon start world answers] in H.
  destruct H as (reply & st' & Hrun & Htrace & Hreply).
  unfold run. rewrite Hrun. cbn [fst snd]. split.
  - f_equal. exact Hreply.
  - exact Htrace.
Defined.

(** The subscriber exists: the creation is answered 409, the update is
    accepted, and the answer is 200 after the two calls. *)
Lemma variant_3_updates_on_conflict_witness :
  let run := Webhook3.handler (post shipment_for_ann)
               (at_noon [] [conflict; accepted_answer]) in
  code_of run = Some 200
  /\ requests_of run
     = [("POST", "https://api.sender.net/v2/subscribers");
        ("PATCH", "https://api.sender.net/v2/subscribers")].
Proof.
  intros run.
  pose proof (variant_3_updates_on_conflict (post shipment_for_ann)
                shipment_for_ann (str "shipment_sent")
                (shipment_of shipment_for_ann) "grp1"
                (at_noon [] [conflict; accepted_answer])
                eq_refl eq_refl eq_refl eq_refl eq_refl eq_refl
                (or_intror (ex_intro _ "Ann Lee" eq_refl))
                eq_refl ltac:(discriminate)) as H.
  destruct H as (created & existing & _ & _ & H).
  cbn [fetch shop platform sim_fetch at_noon start world answers] in H.
  destruct H as (reply & st' & Hrun & Htrace & Hcode).
  unfold run, code_of, requests_of. rewrite Hrun. cbn [fst snd].
  rewrite Htrace, Hcode. split; reflexivity.
Defined.

(** The key of the mailing service is not set. *)
Lemma missing_api_key_is_a_500_witness :
  exists st',
    @handler bare_shop bare_noon
    = (Ok (mkReply 500
             (quoted "{`error`:`Missing API keys`,`details`:`Set PRINTFUL_API_KEY and SENDER_API_KEY in environment variables`}")),
       st')
    /\ trace st' = [].
Proof.
  eexists. split.
  - exact (missing_api_key_is_a_500 (P := bare_shop) bare_noon
             (or_intror eq_refl)).
  - reflexivity.
Defined.

(** The provider is not available: the job reports a check without
    orders. *)
Lemma provider_failure_is_an_empty_check_witness :
  let run := handler (at_noon [] [unavailable]) in
  fst run
  = Ok (mkReply 200
          (quoted "{`message`:`Check completed`,`ordersFound`:0,`emailsSent`:0,`errors`:0}"))
  /\ requests_of run = [("GET", "https://api.printful.com/orders")].
Proof.
  intros run.
  pose proof (provider_failure_is_an_empty_check "pk" "sk"
                (at_noon [] [unavailable])
                eq_refl ltac:(discriminate) eq_refl ltac:(discriminate)) as H.
  cbn [fetch shop platform sim_fetch at_noon start world answers] in H.
  destruct (H (or_introl eq_refl)) as (st' & Hrun & Htrace & _).
  unfold run, requests_of. rewrite Hrun. cbn [fst snd]. rewrite Htrace.
  split; reflexivity.
Defined.

(** The details of order 102 cannot be fetched, and then they can. *)
Lemma shipment_info_is_null_or_complete_witness :
  fst (getShipmentInfo (str "pk") (JNumber 102) (at_noon [] [network_error]))
  = Ok JNull
  /\ fst (getShipmentInfo (str "pk") (JNumber 102) quiet_hour) = Ok info_102.
Proof.
  split.
  - pose proof (shipment_info_is_null_or_complete "pk" "102" (JNumber 102)
                  (at_noon [] [network_error]) eq_refl) as H.
    cbn [fetch shop platform sim_fetch at_noon start world answers] in H.
    destruct H as (info & st' & Hrun & _ & _ & _ & _ & Hnull).
    change (str "pk") with (JString "pk"). rewrite Hrun. cbn [fst].
    now rewrite (Hnull I).
  - pose proof (shipment_info_is_null_or_complete "pk" "102" (JNumber 102)
                  quiet_hour eq_refl) as H.
    cbn [fetch shop platform sim_fetch quiet_hour at_noon start world answers]
      in H.
    destruct H as (info & st' & Hrun & _ & _ & Hrecord & _).
    change (str "pk") with (JString "pk"). rewrite Hrun. cbn [fst].
    f_equal.
    exact (Hrecord _ (order_detail 102 (str "Mug")) detailed_order
             (JArray [first_shipment]) first_shipment
             eq_refl eq_refl eq_refl eq_refl eq_refl eq_refl eq_refl
             eq_refl).
Defined.

(** The e-mail for order 102 goes to the recipient the provider names. *)
Lemma the_mail_goes_to_the_recipient_witness :
  shipment_info detailed_order first_shipment = Ok info_102
  /\ exists payload r,
       trace (snd (sendShipmentEmail (str "sk") (recent 102) info_102
                     (at_noon [] [accepted_answer])))
       = [Fetched (mail_request "sk" payload) r]
       /\ prop payload "to"
          = JArray [obj [("email", str "ann@example.com");
                         ("name", str "Ann Lee")]]
       /\ prop payload "subject" = str "Your order #A-7 has shipped! 📦".
Proof.
  split; [reflexivity|].
  pose proof (the_mail_goes_to_the_recipient "sk" (recent 102) detailed_order
                first_shipment info_102 (at_noon [] [accepted_answer])
                eq_refl) as H.
  assert (Hok : exists result,
             fst (sendShipmentEmail (JString "sk") (recent 102) info_102
                    (at_noon [] [accepted_answer])) = Ok result)
    by (eexists; vm_compute; reflexivity).
  change (str "sk") with (JString "sk").
  destruct (sendShipmentEmail (JString "sk") (recent 102) info_102
              (at_noon [] [accepted_answer])) as [[result|error] st'].
  - destruct H as (payload & r & number & Htrace & Hto & _ & Hnumber & Hsubject
                   & _).
    exists payload, r. cbn [snd]. split; [exact Htrace|].
    split; [exact Hto|].
    assert (Htext : number = "A-7") by (cbn in Hnumber; congruence).
    rewrite Hsubject, Htext. reflexivity.
  - destruct Hok as [result Hresult]. discriminate Hresult.
Defined.

(** The details of order 102 cannot be fetched: the order is passed over. *)
Lemma an_order_without_details_is_passed_over_witness :
  exists st',
    iteration (str "pk") (str "sk") (recent 102) (mkCounters 0 0)
      (at_noon [] [network_error])
    = (Ok (mkCounters 0 0), st')
    /\ trace st'
       = [BlobGot "shipment-emails" (JNumber 102) (Ok JNull);
          Fetched (detail_request "pk" "102") network_error].
Proof.
  pose proof (an_order_without_details_is_passed_over "pk" "sk" "102"
                (recent 102) (JNumber 102) (mkCounters 0 0)
                (at_noon [] [network_error]) eq_refl eq_refl) as H.
  cbn [blob_get fetch shop platform sim_get sim_fetch at_noon start world
       blobs_down answers] in H.
  destruct (H eq_refl I) as (st' & Hrun & Htrace & _).
  exists st'. split; [exact Hrun | exact Htrace].
Defined.

Lemma sim_keeps_flags (vars : list (string * string)) (known : list JSValue)
      (dates : list (string * Z)) :
  @keeps_flags (platform vars known dates).
Proof.
  intros key w w'. cbn [blob_set blob_get platform]. unfold sim_set, sim_get.
  destruct (blobs_down w) eqn:Hdown; [discriminate|].
  intros [= <-]. cbn [blobs_down blobs find fst snd]. rewrite ?Hdown.
  now rewrite String.eqb_refl.
Qed.

(** Order 102 is mailed and flagged; a second pass over it reads the flag
    and stops. *)
Lemma a_flagged_order_is_not_mailed_again_witness :
  let after := snd (iteration (str "pk") (str "sk") (recent 102)
                      (mkCounters 0 0) quiet_hour) in
  sends (trace after) = 1%nat
  /\ exists st2,
       iteration (str "pk") (str "sk") (recent 102) (mkCounters 1 0) after
       = (Ok (mkCounters 1 0), st2)
       /\ sends (trace st2) = 1%nat.
Proof.
  intros after.
  assert (Hlast : trace after
                  = (removelast (trace after)
                       ++ [BlobSet store_name (JNumber 102) (str "sent")
                             (Ok tt)])%list)
    by (vm_compute; reflexivity).
  assert (Hstart : settled quiet_hour)
    by (intros [|x calls] y Hnil; discriminate Hnil).
  assert (Hsends : sends (trace after) = 1%nat) by (vm_compute; reflexivity).
  split; [exact Hsends|].
  destruct (a_flagged_order_is_not_mailed_again (str "pk") (str "sk")
              (recent 102) (JNumber 102) (mkCounters 0 0) (mkCounters 1 0)
              quiet_hour (sim_keeps_flags vars known dates) Hstart
              eq_refl eq_refl (ex_intro _ _ Hlast)) as (st2 & Hrun & Htrace).
  exists st2. split; [exact Hrun|].
  rewrite Htrace, sends_app. fold after. rewrite Hsends. reflexivity.
Defined.
